(** * esmlab-regrid: the grid reference and the regridder

    A shallow embedding of [regrid/regrid.py].  The module is glue code around
    three libraries (xarray, ESMF, xESMF) and two sibling modules of the
    package ([config], [util]); what it owns is the order of the calls, the
    file-existence guards, the renormalisation arithmetic and the bookkeeping
    of the output array.  The embedding keeps exactly that:

    - the file system is a finite map from paths to file contents;
    - Python objects that are shared by reference (the regridder, its two
      grid references, data arrays and their attribute dictionaries) live in
      an object store addressed by locations;
    - every call that leaves the module is taken from a record of externals
      and leaves an event in a log, together with the exception it raised,
      if any;
    - exceptions are results: a computation returns [Ok v] or [Raise e]
      together with the state reached so far. *)

From Stdlib Require Import PrimFloat ZArith Ascii String.
From stdpp Require Import gmap strings list.

Local Open Scope Z_scope.

(** ** Python values, exceptions, results *)

(** Scalars that occur as attribute values and keyword arguments. *)
Inductive PyVal :=
| VNone
| VBool (b : bool)
| VInt (z : Z)
| VFloat (x : float)
| VStr (s : string).

(** The exception classes the module can meet.  [AssertionError] is the only
    one the module raises itself; [LibraryError] stands for whatever a
    library call raises that is not one of the builtin classes. *)
Inductive exn :=
| AssertionError (msg : string)
| AttributeError (msg : string)
| TypeError (msg : string)
| IndexError (msg : string)
| ValueError (msg : string)
| FileNotFoundError (path : string)
| LibraryError (lib msg : string).

Inductive Res (A : Type) :=
| Ok (a : A)
| Raise (e : exn).
Arguments Ok {A} a.
Arguments Raise {A} e.

(** ** Files *)

(** A path names at most one file; the contents are the bytes of the file. *)
Abbreviation FS := (gmap string string).

(** ** Integers of the grid files

    [grid_dims] is the [int] variable of a SCRIP file, which xarray hands
    out as an array of numpy's [int32]; arithmetic on its scalars wraps
    around in 32 bits, two's complement. *)
Definition int32 (z : Z) : Z := (z + 2 ^ 31) `mod` 2 ^ 32 - 2 ^ 31.

(** ** Arrays *)

(** A numpy array of float64: its shape and its elements in C order. *)
Record NDArray := {
  nd_shape : list nat;
  nd_data : list float
}.

(** [np.where(np.isnan(a), 0., 1.)] *)
Definition isnan_indicator (a : NDArray) : NDArray :=
  {| nd_shape := nd_shape a;
     nd_data := (λ x, if is_nan x then 0%float else 1%float) <$> nd_data a |}.

(** [np.where(np.isnan(a), 0., a)] *)
Definition isnan_to_zero (a : NDArray) : NDArray :=
  {| nd_shape := nd_shape a;
     nd_data := (λ x, if is_nan x then 0%float else x) <$> nd_data a |}.

(** [np.where(a > 0., a, np.nan)] *)
Definition positive_or_nan (a : NDArray) : NDArray :=
  {| nd_shape := nd_shape a;
     nd_data := (λ x, if (0 <? x)%float then x else nan) <$> nd_data a |}.

(** ** The objects of the module *)

Abbreviation loc := nat.

(** What [xr.open_dataset] yields for a SCRIP grid file: the two variables
    the module reads.  A variable the file lacks is [None]. *)
Record Dataset := {
  ds_grid_dims : option (list Z);
  ds_grid_imask : option (list Z)
}.

(** An [ESMF.Grid]: the SCRIP contents it was built from and its mask item,
    once one has been added. *)
Record EsmfGrid := {
  eg_scrip : string;
  eg_mask : option (list Z)
}.

(** The sparse matrix [xe.smm.read_weights] returns: [N_dst] by [N_src],
    entries as (row, column, weight). *)
Record Weights := {
  w_rows : Z;
  w_cols : Z;
  w_entries : list (nat * nat * float)
}.

(** The handle [xe.backend.esmf_regrid_build] returns. *)
Record EsmfRegrid := {
  er_filename : string;
  er_method : string
}.

(** An instance of class [grid_ref]; the fields are the attributes
    [name], [scrip_grid_file], [ds], [grid] and [shape]. *)
Record GridRef := {
  gr_name : string;
  gr_scrip_grid_file : string;
  gr_ds : Dataset;
  gr_grid : EsmfGrid;
  gr_shape : list Z
}.

(** An instance of class [regridder].  The two grid references are held by
    reference. *)
Record Regridder := {
  rg_name_grid_src : string;
  rg_name_grid_dst : string;
  rg_grid_ref_src : loc;
  rg_grid_ref_dst : loc;
  rg_method : string;
  rg_clobber : bool;
  rg_N_src : Z;
  rg_N_dst : Z;
  rg_weight_file : string;
  rg_A : Weights
}.

(** A coordinate variable of a data array. *)
Record Coord := {
  co_dims : list string;
  co_values : NDArray
}.

(** An [xarray.DataArray].  [R] is how the attribute dictionary is held: by
    location in the store ([DataArray]), or by value when the array is handed
    to a library function ([DataArrayV]). *)
Record DataArray_ (R : Type) := {
  da_name : option string;
  da_dims : list string;
  da_values : NDArray;
  da_attrs : R;
  da_coords : gmap string Coord
}.
Arguments da_name {R} _.
Arguments da_dims {R} _.
Arguments da_values {R} _.
Arguments da_attrs {R} _.
Arguments da_coords {R} _.

Abbreviation Attrs := (gmap string PyVal).
Abbreviation DataArray := (DataArray_ loc).
Abbreviation DataArrayV := (DataArray_ (gmap string PyVal)).

Inductive Obj :=
| ODict (d : gmap string PyVal)
| ODataArray (a : DataArray)
| OGridRef (g : GridRef)
| ORegridder (r : Regridder).

(** ** Events *)

(** The four messages the module logs. *)
Inductive logmsg :=
| generating_grid_file (scrip_grid_file : string)
| removing (weight_file : string)
| generating (weight_file : string)
| masking (mask_dims data_dims : list string).

(** The calls that leave the module, and the two things the module does on
    its own account that can fail: its assertion and attribute access. *)
Inductive call :=
| c_assert
| c_getattr (obj attr : string)
| c_getitem (i : nat)
| c_logging_info (m : logmsg)
| c_logging_warning (m : logmsg)
| c_gen_grid_method (method name scrip_grid_file : string) (clobber : bool)
| c_open_dataset (filename : string)
| c_ESMF_Grid (filename : string)
| c_add_item
| c_mask_assign
| c_os_remove (path : string)
| c_esmf_regrid_build (filename method : string)
| c_esmf_regrid_finalize
| c_read_weights (filename : string)
| c_apply_weights
| c_np_divide
| c_np_where
| c_DataArray
| c_isel (dim : string) (i : Z)
| c_interp (dim : string)
| c_where
| c_post_method.

(** A call and how it ended. *)
Inductive event :=
| Ev (c : call) (raised : option exn).

Definition succeeded (ev : event) : Prop :=
  match ev with Ev _ None => True | Ev _ (Some _) => False end.

Definition is_grid_generation (ev : event) : bool :=
  match ev with Ev (c_gen_grid_method _ _ _ _) _ => true | _ => false end.

Definition is_assertion (ev : event) : bool :=
  match ev with Ev c_assert _ => true | _ => false end.

(** ** State and the monad of the module *)

Record State := {
  st_fs : gmap string string;
  st_heap : list Obj;
  st_log : list event
}.

Definition M (A : Type) : Type := State → Res A * State.

#[global] Instance M_ret : MRet M := λ A a σ, (Ok a, σ).
#[global] Instance M_bind : MBind M := λ A B k m σ,
  match m σ with
  | (Ok a, σ') => k a σ'
  | (Raise e, σ') => (Raise e, σ')
  end.

Definition outcome {A} (r : Res A) : option exn :=
  match r with Ok _ => None | Raise e => Some e end.

Definition record_event (ev : event) (σ : State) : State :=
  {| st_fs := st_fs σ; st_heap := st_heap σ; st_log := st_log σ ++ [ev] |}.

(** The module or the runtime raises [e] at [c]. *)
Definition throw {A} (c : call) (e : exn) : M A :=
  λ σ, (Raise e, record_event (Ev c (Some e)) σ).

(** A library call that only computes. *)
Definition pure_call {A} (c : call) (r : Res A) : M A :=
  λ σ, (r, record_event (Ev c (outcome r)) σ).

(** A library call that may write files. *)
Definition fs_call {A} (c : call) (f : gmap string string → Res A * gmap string string) : M A :=
  λ σ, let '(r, fs') := f (st_fs σ) in
       (r, {| st_fs := fs'; st_heap := st_heap σ;
              st_log := st_log σ ++ [Ev c (outcome r)] |}).

(** A call of caller-supplied code, which may do to the store what it likes. *)
Definition heap_call {A} (c : call) (f : list Obj → Res A * list Obj) : M A :=
  λ σ, let '(r, h') := f (st_heap σ) in
       (r, {| st_fs := st_fs σ; st_heap := h';
              st_log := st_log σ ++ [Ev c (outcome r)] |}).

Definition logging_info (m : logmsg) : M unit := pure_call (c_logging_info m) (Ok ()).
Definition logging_warning (m : logmsg) : M unit := pure_call (c_logging_warning m) (Ok ()).

(** [os.path.exists] *)
Definition os_path_exists (path : string) : M bool :=
  λ σ, (Ok (bool_decide (is_Some (st_fs σ !! path))), σ).

(** [os.remove] *)
Definition os_remove (path : string) : M unit :=
  fs_call (c_os_remove path) (λ fs,
    match fs !! path with
    | Some _ => (Ok (), delete path fs)
    | None => (Raise (FileNotFoundError path), fs)
    end).

(** A library function that opens [path] for reading and parses it: a
    missing file raises before anything is parsed. *)
Definition reading {A} (c : call) (path : string) (parse : string → Res A) : M A :=
  λ σ, let r := match st_fs σ !! path with
                | Some bytes => parse bytes
                | None => Raise (FileNotFoundError path)
                end in
       (r, record_event (Ev c (outcome r)) σ).

(** Object creation: the new object gets the next free location. *)
Definition alloc (o : Obj) : M loc :=
  λ σ, (Ok (length (st_heap σ)),
        {| st_fs := st_fs σ; st_heap := st_heap σ ++ [o]; st_log := st_log σ |}).

(** In-place update of the object at [l]. *)
Definition store (l : loc) (o : Obj) : M unit :=
  λ σ, (Ok (), {| st_fs := st_fs σ; st_heap := <[l := o]> (st_heap σ); st_log := st_log σ |}).

(** Attribute access on the object at [l], expecting an instance of a given
    class; anything else has no such attribute. *)
Definition load_dict (l : loc) : M (gmap string PyVal) :=
  λ σ, match st_heap σ !! l with
       | Some (ODict d) => (Ok d, σ)
       | _ => throw (c_getattr "dict" "items") (TypeError "not a mapping") σ
       end.

Definition load_dataarray (attr : string) (l : loc) : M DataArray :=
  λ σ, match st_heap σ !! l with
       | Some (ODataArray a) => (Ok a, σ)
       | _ => throw (c_getattr "DataArray" attr) (AttributeError attr) σ
       end.

Definition load_grid_ref (attr : string) (l : loc) : M GridRef :=
  λ σ, match st_heap σ !! l with
       | Some (OGridRef g) => (Ok g, σ)
       | _ => throw (c_getattr "grid_ref" attr) (AttributeError attr) σ
       end.

Definition load_regridder (attr : string) (l : loc) : M Regridder :=
  λ σ, match st_heap σ !! l with
       | Some (ORegridder r) => (Ok r, σ)
       | _ => throw (c_getattr "regridder" attr) (AttributeError attr) σ
       end.

(** [a[i]] on a sequence. *)
Definition getitem (a : list Z) (i : nat) : M Z :=
  match a !! i with
  | Some z => mret z
  | None => throw (c_getitem i) (IndexError "index out of bounds")
  end.

(** ** The package's configuration and what it calls *)

(** An entry of [config.known_grids]: under ['gen_grid_file'], the name of a
    generation routine of [util] and its keyword arguments. *)
Record GridInfo := {
  gi_method : string;
  gi_kwargs : gmap string PyVal
}.

(** Module [config] is not part of the sources at hand: its three settings
    are taken as given. *)
Record Config := {
  dir_grid_files : string;
  dir_weight_files : string;
  known_grids : gmap string GridInfo
}.

(** A grid generation routine of [util], called as
    [method(name, scrip_grid_file, **kwargs, clobber=clobber)]. *)
Definition GridGen : Type :=
  string → string → gmap string PyVal → bool →
  gmap string string → Res unit * gmap string string.

(** A caller-supplied [post_method], called as
    [post_method(da_out, **post_method_kwargs)]. *)
Definition PostMethod : Type :=
  loc → gmap string PyVal → list Obj → Res loc * list Obj.

(** What the module calls and does not define: [util] (by attribute name),
    xarray, ESMF and xESMF.  Functions that read a file take its contents;
    functions that may write files transform the file system. *)
Record Externals := {
  util : string → option GridGen;
  xr_open_dataset : string → Res Dataset;
  ESMF_Grid : string → Res EsmfGrid;
  (** [grid.add_item(ESMF.GridItem.MASK)]: the grid with a mask item *)
  esmf_add_item : EsmfGrid → Res EsmfGrid;
  (** [mask[:] = grid_imask.reshape(shape[::-1]).T], on the grid that holds
      [mask] *)
  esmf_mask_assign : EsmfGrid → list Z → list Z → Res EsmfGrid;
  esmf_regrid_build :
    EsmfGrid → EsmfGrid → string → string →
    gmap string string → Res EsmfRegrid * gmap string string;
  esmf_regrid_finalize :
    EsmfRegrid → gmap string string → Res unit * gmap string string;
  read_weights : string → Z → Z → Res Weights;
  apply_weights : Weights → NDArray → Z → Z → Res NDArray;
  xr_isel : DataArrayV → string → Z → Res DataArrayV;
  xr_interp :
    DataArrayV → string → list float → DataArrayV * DataArrayV → Res DataArrayV;
  xr_where : DataArrayV → DataArrayV → Res DataArrayV
}.

(** ** class grid_ref *)

Module grid_ref.
Section grid_ref.
Context (config : Config) (ext : Externals).

(** [f'{config.dir_grid_files}/{self.name}.nc'] *)
Definition scrip_grid_file_of (name : string) : string :=
  dir_grid_files config +:+ "/" +:+ name +:+ ".nc".

(** [_gen_grid_file]: returns the value it leaves in
    [self.scrip_grid_file]. *)
Definition _gen_grid_file (name : string) (clobber : bool) : M string :=
  let scrip_grid_file := scrip_grid_file_of name in
  present ← os_path_exists scrip_grid_file;
  if present && negb clobber then mret scrip_grid_file
  else
    match known_grids config !! name with
    | None => throw c_assert (AssertionError ("Unknown grid: " +:+ name))
    | Some info =>
        let grid_gen_method_name := gi_method info in
        match util ext grid_gen_method_name with
        | None =>
            throw (c_getattr "util" grid_gen_method_name)
                  (AttributeError grid_gen_method_name)
        | Some gen_grid_method =>
            let kwargs := gi_kwargs info in
            logging_info (generating_grid_file scrip_grid_file);;
            match kwargs !! "clobber" with
            | Some _ =>
                throw (c_gen_grid_method grid_gen_method_name name
                         scrip_grid_file clobber)
                      (TypeError "got multiple values for keyword argument 'clobber'")
            | None =>
                fs_call (c_gen_grid_method grid_gen_method_name name
                           scrip_grid_file clobber)
                        (gen_grid_method name scrip_grid_file kwargs clobber);;
                mret scrip_grid_file
            end
        end
    end.

(** [_esmf_grid_from_scrip]: returns the values it leaves in [self.ds],
    [self.grid] and [self.shape]. *)
Definition _esmf_grid_from_scrip (scrip_grid_file : string)
  : M (Dataset * EsmfGrid * list Z) :=
  ds ← reading (c_open_dataset scrip_grid_file) scrip_grid_file
               (xr_open_dataset ext);
  grid ← reading (c_ESMF_Grid scrip_grid_file) scrip_grid_file
                 (ESMF_Grid ext);
  shape ← match ds_grid_dims ds with
          | Some v => mret v
          | None => throw (c_getattr "Dataset" "grid_dims")
                          (AttributeError "grid_dims")
          end;
  grid ← pure_call c_add_item (esmf_add_item ext grid);
  grid_imask ← match ds_grid_imask ds with
               | Some v => mret v
               | None => throw (c_getattr "Dataset" "grid_imask")
                               (AttributeError "grid_imask")
               end;
  grid ← pure_call c_mask_assign (esmf_mask_assign ext grid grid_imask shape);
  mret (ds, grid, shape).

(** [grid_ref(name, clobber)]; an omitted [clobber] is [False]. *)
Definition __init__ (name : string) (clobber : option bool) : M loc :=
  let clobber := default false clobber in
  scrip_grid_file ← _gen_grid_file name clobber;
  '(ds, grid, shape) ← _esmf_grid_from_scrip scrip_grid_file;
  alloc (OGridRef {| gr_name := name;
                     gr_scrip_grid_file := scrip_grid_file;
                     gr_ds := ds;
                     gr_grid := grid;
                     gr_shape := shape |}).
End grid_ref.
End grid_ref.

(** ** numpy and xarray operations the regridder uses *)

(** An elementwise binary operation.  Both operands come out of
    [apply_weights] with one and the same shape; on operands of different
    shapes numpy broadcasts where it can and raises where it cannot, and only
    the latter is kept here. *)
Definition elementwise (c : call) (f : float → float → float) (a b : NDArray)
  : M NDArray :=
  if bool_decide (nd_shape a = nd_shape b)
  then mret {| nd_shape := nd_shape a;
               nd_data := zip_with f (nd_data a) (nd_data b) |}
  else throw c (ValueError "operands could not be broadcast together").

(** [a / b] *)
Definition np_divide : NDArray → NDArray → M NDArray :=
  elementwise c_np_divide PrimFloat.div.

(** [np.where(cond > 0., a, np.nan)] *)
Definition np_where_positive (cond a : NDArray) : M NDArray :=
  elementwise c_np_where (λ o x, if (0 <? o)%float then x else nan) cond a.

(** The size of dimension [d] of an array with dimensions [dims] and shape
    [shape]. *)
Fixpoint dim_size (dims : list string) (shape : list nat) (d : string)
  : option nat :=
  match dims, shape with
  | d' :: dims', n :: shape' =>
      if bool_decide (d' = d) then Some n else dim_size dims' shape' d
  | _, _ => None
  end.

(** A coordinate fits an array when each of its dimensions is one of the
    array's and has the array's size along it. *)
Definition coord_fits (dims : list string) (shape : list nat) (c : Coord) : bool :=
  bool_decide (length (co_dims c) = length (nd_shape (co_values c)))
  && forallb (λ dn, bool_decide (dim_size dims shape dn.1 = Some dn.2))
             (zip (co_dims c) (nd_shape (co_values c))).

(** [xr.DataArray(data, name=.., dims=.., attrs=.., coords=..)].  The
    constructor checks dimensions and coordinates against the data and keeps
    a dictionary of its own with the items of [attrs]. *)
Definition xr_DataArray (data : NDArray) (name : option string)
    (dims : list string) (attrs : loc) (coords : gmap string Coord) : M loc :=
  if negb (bool_decide (length dims = length (nd_shape data)))
  then throw c_DataArray
             (ValueError "different number of dimensions on data and dims")
  else if negb (bool_decide
                  (map_Forall (λ _ c, coord_fits dims (nd_shape data) c = true) coords))
  then throw c_DataArray (ValueError "conflicting sizes for dimension")
  else
    items ← load_dict attrs;
    own_attrs ← alloc (ODict items);
    alloc (ODataArray {| da_name := name; da_dims := dims; da_values := data;
                         da_attrs := own_attrs; da_coords := coords |}).

(** The array at [l] as a library function sees it. *)
Definition by_value (attr : string) (l : loc) : M DataArrayV :=
  a ← load_dataarray attr l;
  items ← load_dict (da_attrs a);
  mret {| da_name := da_name a; da_dims := da_dims a; da_values := da_values a;
          da_attrs := items; da_coords := da_coords a |}.

(** The array a library function returns, as a new object. *)
Definition new_dataarray (v : DataArrayV) : M loc :=
  own_attrs ← alloc (ODict (da_attrs v));
  alloc (ODataArray {| da_name := da_name v; da_dims := da_dims v;
                       da_values := da_values v; da_attrs := own_attrs;
                       da_coords := da_coords v |}).

(** ** class regridder *)

Module regridder.
Section regridder.
Context (config : Config) (ext : Externals).

(** ['{0}/{1}_to_{2}_{3}.nc'.format(config.dir_weight_files,
      self.name_grid_src, self.name_grid_dst, self.method)] *)
Definition weight_file_of (name_grid_src name_grid_dst method : string) : string :=
  dir_weight_files config +:+ "/" +:+ name_grid_src +:+ "_to_" +:+
  name_grid_dst +:+ "_" +:+ method +:+ ".nc".

(** Lines 89 to 95 of [_gen_weights]. *)
Definition build_weights (weight_file method : string)
    (grid_ref_src grid_ref_dst : loc) : M string :=
  logging_info (generating weight_file);;
  src ← load_grid_ref "grid" grid_ref_src;
  dst ← load_grid_ref "grid" grid_ref_dst;
  regrid ← fs_call (c_esmf_regrid_build weight_file method)
                   (esmf_regrid_build ext (gr_grid src) (gr_grid dst)
                                      weight_file method);
  fs_call c_esmf_regrid_finalize (esmf_regrid_finalize ext regrid);;
  mret weight_file.

(** [_gen_weights], on the attributes [__init__] has set by then; returns
    the value it leaves in [self.weight_file]. *)
Definition _gen_weights (name_grid_src name_grid_dst method : string)
    (clobber : bool) (grid_ref_src grid_ref_dst : loc) : M string :=
  let weight_file := weight_file_of name_grid_src name_grid_dst method in
  present ← os_path_exists weight_file;
  if (present : bool) then
    if clobber then
      logging_info (removing weight_file);;
      os_remove weight_file;;
      build_weights weight_file method grid_ref_src grid_ref_dst
    else mret weight_file
  else build_weights weight_file method grid_ref_src grid_ref_dst.

(** [shape[0] * shape[1]] of the grid reference at [l]: a product of two
    [int32] scalars. *)
Definition grid_size (l : loc) : M Z :=
  g ← load_grid_ref "shape" l;
  n0 ← getitem (gr_shape g) 0;
  g ← load_grid_ref "shape" l;
  n1 ← getitem (gr_shape g) 1;
  mret (int32 (n0 * n1)).

(** [regridder(name_grid_src, name_grid_dst, method, clobber)]; the two
    grid references are constructed without a [clobber] argument. *)
Definition __init__ (name_grid_src name_grid_dst method : string)
    (clobber : bool) : M loc :=
  grid_ref_src ← grid_ref.__init__ config ext name_grid_src None;
  grid_ref_dst ← grid_ref.__init__ config ext name_grid_dst None;
  N_src ← grid_size grid_ref_src;
  N_dst ← grid_size grid_ref_dst;
  weight_file ← _gen_weights name_grid_src name_grid_dst method clobber
                             grid_ref_src grid_ref_dst;
  A ← reading (c_read_weights weight_file) weight_file
              (λ bytes, read_weights ext bytes N_src N_dst);
  alloc (ORegridder {| rg_name_grid_src := name_grid_src;
                       rg_name_grid_dst := name_grid_dst;
                       rg_grid_ref_src := grid_ref_src;
                       rg_grid_ref_dst := grid_ref_dst;
                       rg_method := method;
                       rg_clobber := clobber;
                       rg_N_src := N_src;
                       rg_N_dst := N_dst;
                       rg_weight_file := weight_file;
                       rg_A := A |}).

(** [xe.smm.apply_weights(self.A, data, self.grid_ref_dst.shape[1],
      self.grid_ref_dst.shape[0])] *)
Definition apply_weights_to (self : loc) (data : NDArray) : M NDArray :=
  slf ← load_regridder "A" self;
  slf' ← load_regridder "grid_ref_dst" self;
  dst ← load_grid_ref "shape" (rg_grid_ref_dst slf');
  Ny_out ← getitem (gr_shape dst) 1;
  slf' ← load_regridder "grid_ref_dst" self;
  dst ← load_grid_ref "shape" (rg_grid_ref_dst slf');
  Nx_out ← getitem (gr_shape dst) 0;
  pure_call c_apply_weights (apply_weights ext (rg_A slf) data Ny_out Nx_out).

(** [{d: da_in.coords[d] for d in non_lateral_dims if d in da_in.coords}] *)
Definition copy_coords_of (non_lateral_dims : list string)
    (coords : gmap string Coord) : gmap string Coord :=
  foldl (λ acc d, match coords !! d with
                  | Some c => <[d := c]> acc
                  | None => acc
                  end) ∅ non_lateral_dims.

(** Lines 117 to 148 of [regrid_dataarray]: the regridded array before
    coordinate interpolation, masking and post-processing. *)
Definition remap (self da_in : loc) (renormalize : bool) : M loc :=
  din ← load_dataarray "values" da_in;
  let data_src := da_values din in
  let non_lateral_dims := take (length (da_dims din) - 2)%nat (da_dims din) in
  let copy_coords := copy_coords_of non_lateral_dims (da_coords din) in
  let ones_src := isnan_indicator data_src in
  let data_src := if renormalize then isnan_to_zero data_src else data_src in
  data_dst ← apply_weights_to self data_src;
  data_dst ← (if renormalize then
                ones_dst ← apply_weights_to self ones_src;
                let ones_dst := positive_or_nan ones_dst in
                data_dst ← np_divide data_dst ones_dst;
                np_where_positive ones_dst data_dst
              else mret data_dst);
  din ← load_dataarray "name" da_in;
  da_out ← xr_DataArray data_dst (da_name din) (da_dims din) (da_attrs din)
                        copy_coords;
  out ← load_dataarray "attrs" da_out;
  items ← load_dict (da_attrs out);
  slf ← load_regridder "method" self;
  store (da_attrs out) (ODict (<["regrid_method" := VStr (rg_method slf)]> items));;
  mret da_out.

(** One turn of the loop over [interp_coord.items()]. *)
Definition interp_step (da_out : loc) (item : string * list float) : M loc :=
  let '(dim, new_coord) := item in
  out ← load_dataarray "dims" da_out;
  if bool_decide (dim ∈ da_dims out) then
    v ← by_value "isel" da_out;
    lowest ← pure_call (c_isel dim 0) (xr_isel ext v dim 0);
    highest ← pure_call (c_isel dim (-1)) (xr_isel ext v dim (-1));
    r ← pure_call (c_interp dim) (xr_interp ext v dim new_coord (lowest, highest));
    new_dataarray r
  else mret da_out.

Fixpoint interp_loop (items : list (string * list float)) (da_out : loc)
  : M loc :=
  match items with
  | [] => mret da_out
  | item :: items' => da_out ← interp_step da_out item; interp_loop items' da_out
  end.

(** Lines 164 to 168: the missing-values mask. *)
Definition mask_step (da_in da_out : loc) (apply_mask : option loc) : M loc :=
  match apply_mask with
  | None => mret da_out
  | Some mask =>
      m ← load_dataarray "dims" mask;
      din ← load_dataarray "dims" da_in;
      (if bool_decide (da_dims m ≠ da_dims din)
       then logging_warning (masking (da_dims m) (da_dims din))
       else (mret () : M unit));;
      v ← by_value "where" da_out;
      mv ← by_value "where" mask;
      r ← pure_call c_where (xr_where ext v mv);
      new_dataarray r
  end.

(** Lines 171 and 172: the caller's post-processing. *)
Definition post_step (da_out : loc) (post_method : option PostMethod)
    (post_method_kwargs : gmap string PyVal) : M loc :=
  match post_method with
  | None => mret da_out
  | Some f => heap_call c_post_method (f da_out post_method_kwargs)
  end.

Definition regrid_dataarray (self da_in : loc) (renormalize : bool)
    (apply_mask : option loc) (interp_coord : list (string * list float))
    (post_method : option PostMethod) (post_method_kwargs : gmap string PyVal)
  : M loc :=
  da_out ← remap self da_in renormalize;
  da_out ← interp_loop interp_coord da_out;
  da_out ← mask_step da_in da_out apply_mask;
  da_out ← post_step da_out post_method post_method_kwargs;
  mret da_out.

(** The keyword arguments of a call; [None] is an argument the caller
    leaves out. *)
Record KwArgs := {
  kw_renormalize : option bool;
  kw_apply_mask : option (option loc);
  kw_interp_coord : option (list (string * list float));
  kw_post_method : option (option PostMethod);
  kw_post_method_kwargs : option (gmap string PyVal)
}.

(** [self.regrid_dataarray(da_in, ...)]: the defaults of line 110 to 114,
    then the body. *)
Definition regrid_dataarray_kw (self da_in : loc) (args : KwArgs) : M loc :=
  let renormalize := default true (kw_renormalize args) in
  let apply_mask := default None (kw_apply_mask args) in
  let interp_coord := default [] (kw_interp_coord args) in
  let post_method := default None (kw_post_method args) in
  let post_method_kwargs := default ∅ (kw_post_method_kwargs args) in
  regrid_dataarray self da_in renormalize apply_mask interp_coord
                   post_method post_method_kwargs.

(** [self(da_in, ...)]: the defaults of line 98 to 100, then the call of
    [regrid_dataarray] with all five keywords given. *)
Definition __call__ (self da_in : loc) (args : KwArgs) : M loc :=
  let renormalize := default true (kw_renormalize args) in
  let apply_mask := default None (kw_apply_mask args) in
  let interp_coord := default [] (kw_interp_coord args) in
  let post_method := default None (kw_post_method args) in
  let post_method_kwargs := default ∅ (kw_post_method_kwargs args) in
  regrid_dataarray_kw self da_in
    {| kw_renormalize := Some renormalize;
       kw_apply_mask := Some apply_mask;
       kw_interp_coord := Some interp_coord;
       kw_post_method := Some post_method;
       kw_post_method_kwargs := Some post_method_kwargs |}.
End regridder.
End regridder.

(** ** Reading a run *)

(** The events a run from [σ] to [σ'] has added to the log. *)
Definition new_events (σ σ' : State) : list event :=
  drop (length (st_log σ)) (st_log σ').


(** ** A small installation

    A stand-in for [config], [util] and the libraries, small enough to run:
    a grid file holds one digit for each of the two grid dimensions followed
    by one digit per mask cell, a weight file holds the name of the method,
    and the weights average neighbouring cells. *)
Module demo.

Definition digit (a : ascii) : Z := Z.of_nat (nat_of_ascii a) - 48.

Fixpoint digits (s : string) : list Z :=
  match s with
  | EmptyString => []
  | String a s' => digit a :: digits s'
  end.

Definition latlon : GridGen := λ name scrip_grid_file kwargs clobber fs,
  let cells := match kwargs !! "cells" with
               | Some (VStr s) => s
               | _ => "220110"
               end in
  (Ok (), <[scrip_grid_file := cells]> fs).

Definition config : Config :=
  {| dir_grid_files := "grids";
     dir_weight_files := "weights";
     known_grids :=
       {[ "T62" := {| gi_method := "latlon"; gi_kwargs := ∅ |};
          "gx1" := {| gi_method := "latlon";
                      gi_kwargs := {[ "cells" := VStr "221111" ]} |} ]} |}.

Definition open_dataset (bytes : string) : Res Dataset :=
  match bytes with
  | String a (String b rest) =>
      Ok {| ds_grid_dims := Some [digit a; digit b];
            ds_grid_imask := Some (digits rest) |}
  | _ => Raise (LibraryError "xarray" "not a netCDF file")
  end.

Definition mask_assign (g : EsmfGrid) (imask shape : list Z) : Res EsmfGrid :=
  if bool_decide (Z.of_nat (length imask) = foldr Z.mul 1 shape)
  then Ok {| eg_scrip := eg_scrip g; eg_mask := Some imask |}
  else Raise (ValueError "cannot reshape array")%string.

Definition regrid_build (src dst : EsmfGrid) (filename method : string)
    (fs : gmap string string) : Res EsmfRegrid * gmap string string :=
  match fs !! filename with
  | Some _ => (Raise (ValueError "Weight file already exists"), fs)
  | None => (Ok {| er_filename := filename; er_method := method |},
             <[filename := method]> fs)
  end.

(** Destination cell [i] is the mean of source cells [i] and [i + 1], the
    last one wrapping around. *)
Definition pairwise_weights (bytes : string) (N_src N_dst : Z) : Res Weights :=
  let n := Z.to_nat (Z.min N_src N_dst) in
  Ok {| w_rows := N_dst; w_cols := N_src;
        w_entries := seq 0 n ≫= λ i, [(i, i, 0.5%float);
                                      (i, (S i) `mod` n, 0.5%float)]%nat |}.

(** Row [r] of the product of the matrix with one flattened field. *)
Definition dot_row (A : Weights) (field : list float) (r : nat) : float :=
  foldl (λ acc e, if bool_decide (e.1.1 = r)
                  then (acc + e.2 * default 0 (field !! e.1.2))%float
                  else acc)
        0%float (w_entries A).

Fixpoint fields (fuel n : nat) (data : list float) : list (list float) :=
  match fuel with
  | O => []
  | S fuel' =>
      match data with
      | [] => []
      | _ => take n data :: fields fuel' n (drop n data)
      end
  end.

Definition smm_apply_weights (A : Weights) (indata : NDArray)
    (Ny_out Nx_out : Z) : Res NDArray :=
  let rank := length (nd_shape indata) in
  if bool_decide (rank < 2)%nat
  then Raise (ValueError "need at least two dimensions")
  else
    let extra_shape := take (rank - 2) (nd_shape indata) in
    let n_in := foldr Nat.mul 1%nat (drop (rank - 2) (nd_shape indata)) in
    let n_out := Z.to_nat (Ny_out * Nx_out) in
    Ok {| nd_shape := extra_shape ++ [Z.to_nat Ny_out; Z.to_nat Nx_out];
          nd_data := fields (length (nd_data indata)) n_in (nd_data indata)
                     ≫= λ field, dot_row A field <$> seq 0 n_out |}.

(** Pointwise masking of arrays of one shape, whatever their dimension
    names. *)
Definition where_ (v mask : DataArrayV) : Res DataArrayV :=
  if bool_decide (nd_shape (da_values v) = nd_shape (da_values mask))
  then Ok {| da_name := da_name v; da_dims := da_dims v;
             da_values :=
               {| nd_shape := nd_shape (da_values v);
                  nd_data := zip_with (λ x m, if (m =? 0)%float then nan else x)
                               (nd_data (da_values v))
                               (nd_data (da_values mask)) |};
             da_attrs := da_attrs v; da_coords := da_coords v |}
  else Raise (ValueError "cannot align")%string.

(** A library that has no [isel] and no [interp] to offer. *)
Definition ext : Externals :=
  {| util := λ method, if bool_decide (method = "latlon") then Some latlon else None;
     xr_open_dataset := open_dataset;
     ESMF_Grid := λ bytes, Ok {| eg_scrip := bytes; eg_mask := None |};
     esmf_add_item := λ g, Ok {| eg_scrip := eg_scrip g; eg_mask := Some [] |};
     esmf_mask_assign := mask_assign;
     esmf_regrid_build := regrid_build;
     esmf_regrid_finalize := λ _ fs, (Ok (), fs);
     read_weights := pairwise_weights;
     apply_weights := smm_apply_weights;
     xr_isel := λ _ _ _, Raise (LibraryError "xarray" "isel");
     xr_interp := λ _ _ _ _, Raise (LibraryError "xarray" "interp");
     xr_where := where_ |}.

Definition empty : State := {| st_fs := ∅; st_heap := []; st_log := [] |}.

(** A grid file for a grid that [config.known_grids] does not list. *)
Definition stray : State :=
  {| st_fs := {[ "grids/mine.nc" := "220110" ]}; st_heap := []; st_log := [] |}.

(** Both grid files and the weight file of an earlier construction. *)
Definition cached : State :=
  {| st_fs := {[ "grids/T62.nc" := "220110"; "grids/gx1.nc" := "221111";
                 "weights/T62_to_gx1_bilinear.nc" := "bilinear" ]};
     st_heap := []; st_log := [] |}.

(** The store after [regridder('T62', 'gx1', 'bilinear')]: the two grid
    references at 0 and 1, the regridder at 2. *)
Definition constructed : State :=
  (regridder.__init__ config ext "T62" "gx1" "bilinear" false empty).2.

(** A field with two missing values, on [time], [lat] and [lon], with
    coordinates for [time] and [lat]. *)
Definition sst : DataArray :=
  {| da_name := Some "SST";
     da_dims := ["time"; "lat"; "lon"];
     da_values := {| nd_shape := [1; 2; 2]%nat;
                     nd_data := [nan; nan; 3; 4]%float |};
     da_attrs := 3%nat;
     da_coords :=
       {[ "time" := {| co_dims := ["time"];
                       co_values := {| nd_shape := [1%nat];
                                       nd_data := [0.5%float] |} |};
          "lat" := {| co_dims := ["lat"];
                      co_values := {| nd_shape := [2%nat];
                                      nd_data := [10; 20]%float |} |} ]} |}.

(** A mask of the same shape under other dimension names. *)
Definition land : DataArray :=
  {| da_name := None;
     da_dims := ["t"; "y"; "x"];
     da_values := {| nd_shape := [1; 2; 2]%nat;
                     nd_data := [1; 1; 0; 1]%float |};
     da_attrs := 5%nat;
     da_coords := ∅ |}.

(** The regridder at 2, the field at 4, the mask at 6. *)
Definition ready : State :=
  {| st_fs := st_fs constructed;
     st_heap := st_heap constructed ++
                [ODict {[ "units" := VStr "degC" ]}; ODataArray sst;
                 ODict ∅; ODataArray land];
     st_log := [] |}.

(** A field whose first two dimensions bear one name, with a coordinate of
    that name. *)
Definition square : DataArray :=
  {| da_name := Some "COV";
     da_dims := ["lat"; "lat"; "lon"];
     da_values := {| nd_shape := [2; 2; 2]%nat;
                     nd_data := [1; 2; 3; 4; 5; 6; 7; 8]%float |};
     da_attrs := 7%nat;
     da_coords :=
       {[ "lat" := {| co_dims := ["lat"];
                      co_values := {| nd_shape := [2%nat];
                                      nd_data := [10; 20]%float |} |} ]} |}.

(** A mask along [lat] alone, of another size than the field has there. *)
Definition strip : DataArray :=
  {| da_name := None;
     da_dims := ["lat"];
     da_values := {| nd_shape := [3%nat]; nd_data := [1; 0; 1]%float |};
     da_attrs := 9%nat;
     da_coords := ∅ |}.

(** The same store with these two: the field at 8, the mask at 10. *)
Definition crowded : State :=
  {| st_fs := st_fs ready;
     st_heap := st_heap ready ++
                [ODict ∅; ODataArray square; ODict ∅; ODataArray strip];
     st_log := [] |}.

(** A [post_method] that returns the array it is handed. *)
Definition unchanged : PostMethod := λ da_out kwargs h, (Ok da_out, h).

Definition no_args : regridder.KwArgs :=
  {| regridder.kw_renormalize := None;
     regridder.kw_apply_mask := None;
     regridder.kw_interp_coord := None;
     regridder.kw_post_method := None;
     regridder.kw_post_method_kwargs := None |}.

Definition masked_args : regridder.KwArgs :=
  {| regridder.kw_renormalize := Some true;
     regridder.kw_apply_mask := Some (Some 6%nat);
     regridder.kw_interp_coord := Some [("depth", [0; 10]%float)];
     regridder.kw_post_method := Some (Some unchanged);
     regridder.kw_post_method_kwargs := None |}.

End demo.

(** ** A library with levels

    The small installation with an [isel] along the first dimension and an
    [interp] that only extrapolates: a new level below the first old one
    takes the lower fill value, every other level the upper one. *)
Module levels.

Definition isel (v : DataArrayV) (dim : string) (i : Z) : Res DataArrayV :=
  match da_dims v, nd_shape (da_values v) with
  | d :: dims, n :: shape =>
      if bool_decide (d = dim) then
        let size := foldr Nat.mul 1%nat shape in
        let k := Z.to_nat (if bool_decide (i < 0) then Z.of_nat n + i else i) in
        Ok {| da_name := da_name v; da_dims := dims;
              da_values := {| nd_shape := shape;
                              nd_data := take size (drop (k * size)
                                                      (nd_data (da_values v))) |};
              da_attrs := da_attrs v;
              da_coords := delete dim (da_coords v) |}
      else Raise (LibraryError "xarray" "isel")
  | _, _ => Raise (LibraryError "xarray" "isel")
  end.

Definition interp (v : DataArrayV) (dim : string) (new_coord : list float)
    (fill_value : DataArrayV * DataArrayV) : Res DataArrayV :=
  match da_coords v !! dim with
  | Some c =>
      let first := default 0%float (head (nd_data (co_values c))) in
      Ok {| da_name := da_name v; da_dims := da_dims v;
            da_values :=
              {| nd_shape := length new_coord :: drop 1 (nd_shape (da_values v));
                 nd_data := new_coord ≫= λ x,
                   nd_data (da_values (if (x <? first)%float
                                       then fill_value.1 else fill_value.2)) |};
            da_attrs := da_attrs v;
            da_coords :=
              <[dim := {| co_dims := [dim];
                          co_values := {| nd_shape := [length new_coord];
                                          nd_data := new_coord |} |}]>
                (da_coords v) |}
  | None => Raise (LibraryError "xarray" "interp")
  end.

Definition ext : Externals :=
  {| util := util demo.ext;
     xr_open_dataset := xr_open_dataset demo.ext;
     ESMF_Grid := ESMF_Grid demo.ext;
     esmf_add_item := esmf_add_item demo.ext;
     esmf_mask_assign := esmf_mask_assign demo.ext;
     esmf_regrid_build := esmf_regrid_build demo.ext;
     esmf_regrid_finalize := esmf_regrid_finalize demo.ext;
     read_weights := read_weights demo.ext;
     apply_weights := apply_weights demo.ext;
     xr_isel := isel;
     xr_interp := interp;
     xr_where := xr_where demo.ext |}.

End levels.

(** The array a run returns, if it returns one. *)
Definition returned_array (r : Res loc * State) : option DataArray :=
  match r.1 with
  | Ok l => match st_heap r.2 !! l with
            | Some (ODataArray a) => Some a
            | _ => None
            end
  | Raise _ => None
  end.

(** A call that may change the files. *)
Definition may_write (ev : event) : bool :=
  match ev with
  | Ev (c_gen_grid_method _ _ _ _) _ | Ev (c_os_remove _) _
  | Ev (c_esmf_regrid_build _ _) _ | Ev c_esmf_regrid_finalize _ => true
  | _ => false
  end.

(** The path an [os.remove] among the events is called on. *)
Definition removed_path (ev : event) : option string :=
  match ev with Ev (c_os_remove path) _ => Some path | _ => None end.

(** A warning among the events. *)
Definition is_warning (ev : event) : bool :=
  match ev with Ev (c_logging_warning _) _ => true | _ => false end.

(** ** Installations that are not in order

    Variations of the small installation for the ways a construction can go
    wrong. *)
Module faulty.

(** A table whose entries name a routine [util] does not have, and keyword
    arguments that bring a [clobber] of their own. *)
Definition ghost : GridInfo := {| gi_method := "tripolar"; gi_kwargs := ∅ |}.
Definition twice : GridInfo :=
  {| gi_method := "latlon"; gi_kwargs := {[ "clobber" := VBool true ]} |}.
Definition config : Config :=
  {| dir_grid_files := "grids";
     dir_weight_files := "weights";
     known_grids := {[ "ghost" := ghost; "twice" := twice ]} |}.

(** The small installation with an [xr.open_dataset] that finds [ds] in
    every file. *)
Definition with_dataset (ds : Dataset) : Externals :=
  {| util := util demo.ext;
     xr_open_dataset := λ _, Ok ds;
     ESMF_Grid := ESMF_Grid demo.ext;
     esmf_add_item := esmf_add_item demo.ext;
     esmf_mask_assign := esmf_mask_assign demo.ext;
     esmf_regrid_build := esmf_regrid_build demo.ext;
     esmf_regrid_finalize := esmf_regrid_finalize demo.ext;
     read_weights := read_weights demo.ext;
     apply_weights := apply_weights demo.ext;
     xr_isel := xr_isel demo.ext;
     xr_interp := xr_interp demo.ext;
     xr_where := xr_where demo.ext |}.

(** The small installation with a [util] whose routines return without
    writing a file. *)
Definition idle : GridGen := λ name scrip_grid_file kwargs clobber fs, (Ok (), fs).
Definition with_idle_util : Externals :=
  {| util := λ _, Some idle;
     xr_open_dataset := xr_open_dataset demo.ext;
     ESMF_Grid := ESMF_Grid demo.ext;
     esmf_add_item := esmf_add_item demo.ext;
     esmf_mask_assign := esmf_mask_assign demo.ext;
     esmf_regrid_build := esmf_regrid_build demo.ext;
     esmf_regrid_finalize := esmf_regrid_finalize demo.ext;
     read_weights := read_weights demo.ext;
     apply_weights := apply_weights demo.ext;
     xr_isel := xr_isel demo.ext;
     xr_interp := xr_interp demo.ext;
     xr_where := xr_where demo.ext |}.

(** The small installation with an ESMF that cannot build weights. *)
Definition without_regrid_build : Externals :=
  {| util := util demo.ext;
     xr_open_dataset := xr_open_dataset demo.ext;
     ESMF_Grid := ESMF_Grid demo.ext;
     esmf_add_item := esmf_add_item demo.ext;
     esmf_mask_assign := esmf_mask_assign demo.ext;
     esmf_regrid_build := λ _ _ _ _ fs, (Raise (LibraryError "ESMF" "regrid build"), fs);
     esmf_regrid_finalize := esmf_regrid_finalize demo.ext;
     read_weights := read_weights demo.ext;
     apply_weights := apply_weights demo.ext;
     xr_isel := xr_isel demo.ext;
     xr_interp := xr_interp demo.ext;
     xr_where := xr_where demo.ext |}.

(** A dataset without variables, one without a mask, and one of a grid with
    a single dimension. *)
Definition no_variables : Dataset :=
  {| ds_grid_dims := None; ds_grid_imask := None |}.
Definition no_mask : Dataset :=
  {| ds_grid_dims := Some [2; 2]; ds_grid_imask := None |}.
Definition one_dimension : Dataset :=
  {| ds_grid_dims := Some [4]; ds_grid_imask := Some [1; 1; 1; 1] |}.

End faulty.

(** ** Properties of runs *)

(** [m] never leaves [R]: whatever the state it starts in, and whether it
    returns or raises, the state it ends in is [R]-related to the start. *)
Definition stays (R : relation State) {A} (m : M A) : Prop :=
  ∀ σ, R σ (m σ).2.

(** The file system is left as it was. *)
Definition same_fs (σ σ' : State) : Prop := st_fs σ' = st_fs σ.

(** The store is left as it was. *)
Definition same_heap (σ σ' : State) : Prop := st_heap σ' = st_heap σ.

(** Objects are only added to the store. *)
Definition heap_grows (σ σ' : State) : Prop := st_heap σ `prefix_of` st_heap σ'.

(** The log is only appended to, with events that satisfy [P]. *)
Definition logs (P : event → Prop) (σ σ' : State) : Prop :=
  ∃ evs, st_log σ' = st_log σ ++ evs ∧ Forall P evs.

(** A run from [σ] that ends in [σ'] with [r] passes failures on as they
    are: no call that failed is followed by anything, and if the run raises
    [e], its last event is a call that failed with that very [e].
    [allowed c e] is what is known of such a failure. *)
Definition propagated (allowed : call → exn → Prop) {A}
    (σ : State) (r : Res A) (σ' : State) : Prop :=
  ∃ evs, st_log σ' = st_log σ ++ evs ∧
    match r with
    | Ok _ => Forall succeeded evs
    | Raise e => ∃ evs0 c, evs = evs0 ++ [Ev c (Some e)] ∧
                           Forall succeeded evs0 ∧ allowed c e
    end.

Definition faithful (allowed : call → exn → Prop) {A} (m : M A) : Prop :=
  ∀ σ, propagated allowed σ (m σ).1 (m σ).2.

(** The only failure the module itself brings about: the assertion of
    [_gen_grid_file] on a name that is not a key of [config.known_grids]. *)
Definition unknown_grid (config : Config) (names : list string)
    (c : call) (e : exn) : Prop :=
  c = c_assert →
  ∃ name, name ∈ names ∧ known_grids config !! name = None ∧
          e = AssertionError ("Unknown grid: " +:+ name).

(** A failure that is not the module's own: any call but its assertion. *)
Definition foreign (c : call) (e : exn) : Prop := c ≠ c_assert.

(** The values of the regridded array: the weights applied to the source
    values or, with renormalisation, the quotient of the weights applied to
    the zero-filled values by the weights applied to the indicator of the
    values that are there, where that is positive. *)
Definition remapped (ext : Externals) (A : Weights) (Ny_out Nx_out : Z)
    (renormalize : bool) (data_src data_dst : NDArray) : Prop :=
  if renormalize then
    ∃ D O,
      apply_weights ext A (isnan_to_zero data_src) Ny_out Nx_out = Ok D ∧
      apply_weights ext A (isnan_indicator data_src) Ny_out Nx_out = Ok O ∧
      nd_shape D = nd_shape O ∧
      data_dst = {| nd_shape := nd_shape O;
                    nd_data := zip_with (λ d o, if (0 <? o)%float
                                                then (d / o)%float else nan)
                                        (nd_data D) (nd_data O) |}
  else apply_weights ext A data_src Ny_out Nx_out = Ok data_dst.

(** A [post_method] that respects the objects at the first [n] locations:
    handed an array that is not among them, it leaves them as they are and
    returns an object that is not among them either. *)
Definition post_frame (n : nat) (f : PostMethod) : Prop :=
  ∀ l kwargs h, (n ≤ l)%nat → (n ≤ length h)%nat →
    take n (f l kwargs h).2 = take n h ∧
    ∀ l', (f l kwargs h).1 = Ok l' → (n ≤ l')%nat.

(** * Reasoning about runs *)

Lemma bind_run {A B} (m : M A) (k : A → M B) σ :
  (m ≫= k) σ = match m σ with
               | (Ok a, σ') => k a σ'
               | (Raise e, σ') => (Raise e, σ')
               end.
Proof. reflexivity. Qed.

Lemma bind_ok {A B} (m : M A) (k : A → M B) σ a σ' :
  m σ = (Ok a, σ') → (m ≫= k) σ = k a σ'.
Proof. intros H. rewrite bind_run, H. reflexivity. Qed.

Lemma bind_raise {A B} (m : M A) (k : A → M B) σ e σ' :
  m σ = (Raise e, σ') → (m ≫= k) σ = (Raise e, σ').
Proof. intros H. rewrite bind_run, H. reflexivity. Qed.

Lemma bind_inv_ok {A B} (m : M A) (k : A → M B) σ b σ2 :
  (m ≫= k) σ = (Ok b, σ2) →
  ∃ a σ1, m σ = (Ok a, σ1) ∧ k a σ1 = (Ok b, σ2).
Proof.
  rewrite bind_run. destruct (m σ) as [[a|e] σ1]; intros H; [eauto | discriminate].
Qed.

Lemma new_events_app σ σ' evs :
  st_log σ' = st_log σ ++ evs → new_events σ σ' = evs.
Proof. intros H. unfold new_events. rewrite H. apply drop_app_length. Qed.

#[global] Instance same_fs_preorder : PreOrder same_fs.
Proof. split; unfold same_fs; [done | intros ???; congruence]. Qed.

#[global] Instance heap_grows_preorder : PreOrder heap_grows.
Proof. unfold heap_grows. split; [by intros ? | intros ??? ??; by etrans]. Qed.

#[global] Instance logs_preorder P : PreOrder (logs P).
Proof.
  split.
  - intros σ. exists []. by rewrite app_nil_r.
  - intros σ1 σ2 σ3 (e1 & H1 & F1) (e2 & H2 & F2). exists (e1 ++ e2).
    rewrite H2, H1, app_assoc. split; [done | by apply Forall_app].
Qed.

Lemma logs_one P σ ev : P ev → logs P σ (record_event ev σ).
Proof. intros H. exists [ev]. split; [done | by constructor]. Qed.

Lemma logs_new_events P σ σ' : logs P σ σ' → Forall P (new_events σ σ').
Proof. intros (evs & H & F). by rewrite (new_events_app _ _ _ H). Qed.

Section stays.
Context (R : relation State) `{!PreOrder R}.

Lemma stays_ret {A} (a : A) : stays R (mret a : M A).
Proof. intros σ. simpl. reflexivity. Qed.

Lemma stays_bind {A B} (m : M A) (k : A → M B) :
  stays R m → (∀ a, stays R (k a)) → stays R (m ≫= k).
Proof.
  intros Hm Hk σ. rewrite bind_run. specialize (Hm σ).
  destruct (m σ) as [[a|e] σ1]; simpl in *; [|done].
  etrans; [exact Hm| apply Hk].
Qed.

Lemma stays_os_path_exists path : stays R (os_path_exists path).
Proof. intros σ. simpl. reflexivity. Qed.

Lemma stays_load_dict l :
  stays R (throw (c_getattr "dict" "items") (TypeError "not a mapping")
           : M (gmap string PyVal)) →
  stays R (load_dict l).
Proof.
  intros H σ. unfold load_dict. repeat case_match; try apply H. simpl. reflexivity.
Qed.

Lemma stays_load_dataarray attr l :
  stays R (throw (c_getattr "DataArray" attr) (AttributeError attr) : M DataArray) →
  stays R (load_dataarray attr l).
Proof.
  intros H σ. unfold load_dataarray. repeat case_match; try apply H. simpl. reflexivity.
Qed.

Lemma stays_load_grid_ref attr l :
  stays R (throw (c_getattr "grid_ref" attr) (AttributeError attr) : M GridRef) →
  stays R (load_grid_ref attr l).
Proof.
  intros H σ. unfold load_grid_ref. repeat case_match; try apply H. simpl. reflexivity.
Qed.

Lemma stays_load_regridder attr l :
  stays R (throw (c_getattr "regridder" attr) (AttributeError attr) : M Regridder) →
  stays R (load_regridder attr l).
Proof.
  intros H σ. unfold load_regridder. repeat case_match; try apply H. simpl. reflexivity.
Qed.

Lemma stays_getitem a i :
  stays R (throw (c_getitem i) (IndexError "index out of bounds") : M Z) →
  stays R (getitem a i).
Proof. intros H. unfold getitem. case_match; [apply stays_ret | done]. Qed.
End stays.

(** What each primitive does to the file system, the store and the log. *)

Lemma same_fs_throw {A} c e : stays same_fs (throw c e : M A).
Proof. by intros σ. Qed.
Lemma same_fs_pure_call {A} c (r : Res A) : stays same_fs (pure_call c r).
Proof. by intros σ. Qed.
Lemma same_fs_reading {A} c path (parse : string → Res A) :
  stays same_fs (reading c path parse).
Proof. by intros σ. Qed.
Lemma same_fs_alloc o : stays same_fs (alloc o).
Proof. by intros σ. Qed.
Lemma same_fs_store l o : stays same_fs (store l o).
Proof. by intros σ. Qed.
Lemma same_fs_heap_call {A} c (f : list Obj → Res A * list Obj) :
  stays same_fs (heap_call c f).
Proof. intros σ. unfold heap_call. by destruct (f _). Qed.

Lemma heap_grows_throw {A} c e : stays heap_grows (throw c e : M A).
Proof. intros σ. unfold heap_grows. simpl. reflexivity. Qed.
Lemma heap_grows_pure_call {A} c (r : Res A) : stays heap_grows (pure_call c r).
Proof. intros σ. unfold heap_grows. simpl. reflexivity. Qed.
Lemma heap_grows_fs_call {A} c (f : gmap string string → Res A * gmap string string) :
  stays heap_grows (fs_call c f).
Proof. intros σ. unfold fs_call, heap_grows. destruct (f _). simpl. reflexivity. Qed.
Lemma heap_grows_reading {A} c path (parse : string → Res A) :
  stays heap_grows (reading c path parse).
Proof. intros σ. unfold heap_grows. simpl. reflexivity. Qed.
Lemma heap_grows_alloc o : stays heap_grows (alloc o).
Proof. intros σ. by apply prefix_app_r. Qed.

Lemma logs_throw P {A} c e : P (Ev c (Some e)) → stays (logs P) (throw c e : M A).
Proof. intros H σ. by apply logs_one. Qed.
Lemma logs_pure_call P {A} c (r : Res A) :
  P (Ev c (outcome r)) → stays (logs P) (pure_call c r).
Proof. intros H σ. by apply logs_one. Qed.
Lemma logs_fs_call P {A} c (f : gmap string string → Res A * gmap string string) :
  (∀ o, P (Ev c o)) → stays (logs P) (fs_call c f).
Proof.
  intros H σ. unfold fs_call. destruct (f _) as [r fs']. simpl.
  exists [Ev c (outcome r)]. split; [done | by constructor].
Qed.
Lemma logs_heap_call P {A} c (f : list Obj → Res A * list Obj) :
  (∀ o, P (Ev c o)) → stays (logs P) (heap_call c f).
Proof.
  intros H σ. unfold heap_call. destruct (f _) as [r fs']. simpl.
  exists [Ev c (outcome r)]. split; [done | by constructor].
Qed.
Lemma logs_reading P {A} c path (parse : string → Res A) :
  (∀ o, P (Ev c o)) → stays (logs P) (reading c path parse).
Proof. intros H σ. by apply logs_one. Qed.
Lemma logs_alloc P o : stays (logs P) (alloc o).
Proof. intros σ. exists []. simpl. by rewrite app_nil_r. Qed.
Lemma logs_store P l o : stays (logs P) (store l o).
Proof. intros σ. exists []. simpl. by rewrite app_nil_r. Qed.

Create HintDb stays discriminated.
#[global] Hint Resolve stays_ret stays_os_path_exists stays_load_dict
  stays_load_dataarray stays_load_grid_ref stays_load_regridder stays_getitem
  same_fs_throw same_fs_pure_call same_fs_reading same_fs_alloc same_fs_store
  same_fs_heap_call
  heap_grows_throw heap_grows_pure_call heap_grows_fs_call heap_grows_reading
  heap_grows_alloc
  logs_throw logs_pure_call logs_fs_call logs_heap_call logs_reading logs_alloc
  logs_store : stays.

(** Walks down a computation, leaving what the hints do not settle. *)
Ltac stays_step :=
  lazymatch goal with
  | |- stays _ (mbind _ _) => apply stays_bind; [try apply _ | | intros ?]
  | |- stays _ (_ ≫= _) => apply stays_bind; [try apply _ | | intros ?]
  | |- stays _ (match ?x with _ => _ end) => destruct x eqn:?
  | |- stays _ (let '(_, _) := ?x in _) => destruct x eqn:?
  | |- stays _ _ => solve [eauto with stays typeclass_instances]
  end.
Ltac stays_tac := repeat stays_step.

(** * class grid_ref: the cache of grid files *)

Lemma gen_grid_file_present config ext name σ :
  is_Some (st_fs σ !! grid_ref.scrip_grid_file_of config name) →
  grid_ref._gen_grid_file config ext name false σ
  = (Ok (grid_ref.scrip_grid_file_of config name), σ).
Proof.
  intros H. unfold grid_ref._gen_grid_file. rewrite bind_run.
  unfold os_path_exists. by rewrite bool_decide_eq_true_2.
Qed.

Lemma app_snoc_cons {A} (l : list A) a b : (l ++ [a]) ++ b = l ++ a :: b.
Proof. by rewrite <- app_assoc. Qed.

(** [_esmf_grid_from_scrip] is a function of the file system alone: it
    writes nothing, generates nothing, and returns only if the file is
    there. *)
Lemma esmf_grid_from_scrip_reads ext path fs :
  ∃ r evs,
    (∀ σ, st_fs σ = fs →
      grid_ref._esmf_grid_from_scrip ext path σ
      = (r, {| st_fs := fs; st_heap := st_heap σ; st_log := st_log σ ++ evs |})) ∧
    Forall (λ ev, is_grid_generation ev = false) evs ∧
    (∀ x, r = Ok x → is_Some (fs !! path)).
Proof.
  unfold grid_ref._esmf_grid_from_scrip.
  destruct (fs !! path) as [bytes|] eqn:Hp;
    [destruct (xr_open_dataset ext bytes) as [ds|] eqn:Hds;
     [destruct (ESMF_Grid ext bytes) as [g|] eqn:Hg;
      [destruct (ds_grid_dims ds) as [shape|] eqn:Hd;
       [destruct (esmf_add_item ext g) as [g1|] eqn:Ha;
        [destruct (ds_grid_imask ds) as [imask|] eqn:Hi;
         [destruct (esmf_mask_assign ext g1 imask shape) as [g'|] eqn:Hm|]|]|]|]|]|].
  all: eexists _, _; split;
    [ intros σ <-; unfold mbind, M_bind, mret, M_ret, reading, pure_call, throw,
        record_event;
      repeat first [ progress cbn | rewrite Hp | rewrite Hds | rewrite Hg
                   | rewrite Hd | rewrite Ha | rewrite Hi | rewrite Hm ];
      rewrite ?app_snoc_cons; reflexivity
    | split; [by repeat constructor | first [by eauto | by intros ? [=]]] ].
Qed.

(** Unfolds the monad and its primitives, so that a run can be computed. *)
Ltac run_unfold :=
  unfold mbind, M_bind, mret, M_ret, os_remove, logging_info, logging_warning,
    load_dict, load_dataarray, load_grid_ref, load_regridder, getitem,
    os_path_exists, alloc, store, reading, pure_call, fs_call, heap_call,
    throw, record_event in *.

Lemma gen_grid_file_returns config ext name clobber σ p σ' :
  grid_ref._gen_grid_file config ext name clobber σ = (Ok p, σ') →
  p = grid_ref.scrip_grid_file_of config name.
Proof.
  unfold grid_ref._gen_grid_file. run_unfold. cbn.
  repeat case_match; intros [=]; by subst.
Qed.

Lemma init_present config ext name clobber σ :
  is_Some (st_fs σ !! grid_ref.scrip_grid_file_of config name) →
  default false clobber = false →
  grid_ref.__init__ config ext name clobber σ
  = (grid_ref._esmf_grid_from_scrip ext (grid_ref.scrip_grid_file_of config name)
     ≫= λ '(ds, grid, shape),
          alloc (OGridRef {| gr_name := name;
                             gr_scrip_grid_file := grid_ref.scrip_grid_file_of config name;
                             gr_ds := ds; gr_grid := grid; gr_shape := shape |})) σ.
Proof.
  intros H Hc. unfold grid_ref.__init__. rewrite Hc.
  by rewrite (bind_ok _ _ _ _ _ (gen_grid_file_present config ext name σ H)).
Qed.

(** With the file in place and no overwrite, construction only reads. *)
Lemma init_reuses config ext name clobber σ :
  is_Some (st_fs σ !! grid_ref.scrip_grid_file_of config name) →
  default false clobber = false →
  same_fs σ (grid_ref.__init__ config ext name clobber σ).2 ∧
  logs (λ ev, is_grid_generation ev = false) σ
       (grid_ref.__init__ config ext name clobber σ).2.
Proof.
  intros H Hc. rewrite init_present by done.
  destruct (esmf_grid_from_scrip_reads ext
              (grid_ref.scrip_grid_file_of config name) (st_fs σ))
    as (r & evs & Hrun & Hev & _).
  rewrite bind_run, (Hrun σ eq_refl).
  destruct r as [[[ds grid] shape]|e]; simpl; (split; [done | by exists evs]).
Qed.

(** A construction that returns has found the grid file in place, has left
    the file system as [_gen_grid_file] left it, and has put the new object
    last in the store. *)
Lemma init_returns config ext name clobber σ l σ1 :
  grid_ref.__init__ config ext name clobber σ = (Ok l, σ1) →
  is_Some (st_fs σ1 !! grid_ref.scrip_grid_file_of config name) ∧
  ∃ x h,
    (∀ σ', st_fs σ' = st_fs σ1 → ∃ evs,
       Forall (λ ev, is_grid_generation ev = false) evs ∧
       grid_ref._esmf_grid_from_scrip ext (grid_ref.scrip_grid_file_of config name) σ'
       = (Ok x, {| st_fs := st_fs σ1; st_heap := st_heap σ';
                   st_log := st_log σ' ++ evs |})) ∧
    l = length h ∧
    st_heap σ1 = h ++ [OGridRef {| gr_name := name;
                        gr_scrip_grid_file := grid_ref.scrip_grid_file_of config name;
                        gr_ds := x.1.1; gr_grid := x.1.2; gr_shape := x.2 |}].
Proof.
  unfold grid_ref.__init__. intros H.
  apply bind_inv_ok in H as (p & σa & Hgen & H).
  apply gen_grid_file_returns in Hgen as ->.
  apply bind_inv_ok in H as ([[ds grid] shape] & σb & Hread & H).
  destruct (esmf_grid_from_scrip_reads ext
              (grid_ref.scrip_grid_file_of config name) (st_fs σa))
    as (r & evs & Hrun & Hev & Hthere).
  rewrite (Hrun σa eq_refl) in Hread. injection Hread as -> <-.
  unfold alloc in H. injection H as <- <-. simpl.
  split; [by eapply Hthere|].
  exists (ds, grid, shape), (st_heap σa). split_and!; [|done..].
  intros σ' Hfs. exists evs. split; [done|]. by apply Hrun.
Qed.

(** C1. Constructing a grid reference when the grid's cache file exists and
    no overwrite is requested generates nothing and leaves the file system
    as it is; a generation in a run means the file was absent or an
    overwrite was requested, and for a known grid with a generation routine
    that is then what the run starts with; constructing twice leaves the
    files that constructing once leaves, and the second construction reads
    the same object from the file the first one left. *)
Theorem grid_file_generated_once config ext name σ :
  let path := grid_ref.scrip_grid_file_of config name in
  let construct := grid_ref.__init__ config ext name in
  (is_Some (st_fs σ !! path) →
     st_fs (construct None σ).2 = st_fs σ ∧
     Forall (λ ev, is_grid_generation ev = false)
            (new_events σ (construct None σ).2)) ∧
  (∀ clobber,
     Exists (λ ev, is_grid_generation ev = true)
            (new_events σ (construct clobber σ).2) →
     st_fs σ !! path = None ∨ clobber = Some true) ∧
  (∀ clobber info gen,
     known_grids config !! name = Some info →
     util ext (gi_method info) = Some gen →
     gi_kwargs info !! "clobber" = None →
     st_fs σ !! path = None ∨ clobber = Some true →
     ∃ rest,
       new_events σ (construct clobber σ).2
       = Ev (c_logging_info (generating_grid_file path)) None
         :: Ev (c_gen_grid_method (gi_method info) name path (default false clobber))
               (outcome (gen name path (gi_kwargs info) (default false clobber)
                             (st_fs σ)).1)
         :: rest) ∧
  st_fs ((construct None ≫= λ _, construct None) σ).2 = st_fs (construct None σ).2 ∧
  (∀ l σ1, construct None σ = (Ok l, σ1) →
     ∃ l', (construct None σ1).1 = Ok l' ∧
           st_fs (construct None σ1).2 = st_fs σ1 ∧
           Forall (λ ev, is_grid_generation ev = false)
                  (new_events σ1 (construct None σ1).2) ∧
           st_heap (construct None σ1).2 !! l' = st_heap σ1 !! l).
Proof.
  intros path construct.
  assert (∀ l σ1, construct None σ = (Ok l, σ1) →
     ∃ l', (construct None σ1).1 = Ok l' ∧
           st_fs (construct None σ1).2 = st_fs σ1 ∧
           Forall (λ ev, is_grid_generation ev = false)
                  (new_events σ1 (construct None σ1).2) ∧
           st_heap (construct None σ1).2 !! l' = st_heap σ1 !! l) as Htwice.
  { intros l σ1 H. apply init_returns in H as (Hthere & x & h & Hread & -> & Hh).
    destruct (Hread σ1 eq_refl) as (evs & Hev & Hrun).
    unfold construct. rewrite init_present by done.
    rewrite (bind_ok _ _ _ _ _ Hrun). destruct x as [[ds grid] shape]. simpl.
    exists (length (st_heap σ1)). split_and!; [done..| |].
    - by rewrite (new_events_app _ _ evs).
    - rewrite Hh at 3. rewrite !list_lookup_middle; done. }
  split_and!.
  - intros H. destruct (init_reuses config ext name None σ H eq_refl) as [Hfs Hlog].
    split; [done | by apply logs_new_events].
  - intros clobber Hex.
    destruct (st_fs σ !! path) as [bytes|] eqn:Hp; [|by left].
    destruct clobber as [[]|]; [by right| |].
    all: exfalso; apply Exists_exists in Hex as (ev & Hin & Hgen).
    all: assert (is_Some (st_fs σ !! grid_ref.scrip_grid_file_of config name))
           as Hsome by (fold path; by rewrite Hp).
    all: match goal with
         | Hin : _ ∈ new_events _ (_ ?c _).2 |- _ =>
             destruct (init_reuses config ext name c σ Hsome eq_refl) as [_ Hlog]
         end.
    all: apply logs_new_events in Hlog.
    all: rewrite Forall_forall in Hlog; specialize (Hlog ev Hin); congruence.
  - intros clobber info gen Hk Hu Hkw Hgo.
    unfold construct, grid_ref.__init__, grid_ref._gen_grid_file.
    fold path. set (c := default false clobber).
    assert (bool_decide (is_Some (st_fs σ !! path)) && negb c = false) as Hb.
    { destruct Hgo as [Hp| ->]; [|by rewrite andb_false_r].
      rewrite Hp. rewrite bool_decide_eq_false_2; [done|]. by intros [? [=]]. }
    rewrite !bind_run. unfold os_path_exists at 1. rewrite Hb, Hk, Hu.
    rewrite !bind_run. unfold logging_info, pure_call at 1. rewrite Hkw.
    rewrite !bind_run. unfold fs_call at 1. simpl.
    destruct (gen name path (gi_kwargs info) c (st_fs σ)) as [[[]|e] fs1] eqn:Hg;
      simpl.
    + destruct (esmf_grid_from_scrip_reads ext path fs1) as (r & evs & Hrun & _ & _).
      rewrite bind_run, Hrun by done.
      destruct r as [[[ds grid] shape]|e]; simpl.
      all: exists evs; apply new_events_app; simpl.
      all: by rewrite !app_snoc_cons.
    + exists []. apply new_events_app. simpl. by rewrite !app_snoc_cons.
  - rewrite bind_run. destruct (construct None σ) as [[l|e] σ1] eqn:H; [|done].
    destruct (Htwice l σ1 eq_refl) as (l' & _ & Hfs & _). done.
  - exact Htwice.
Qed.

(** * class grid_ref: unknown names *)

Lemma esmf_grid_from_scrip_no_assertion ext path :
  stays (logs (λ ev, is_assertion ev = false))
        (grid_ref._esmf_grid_from_scrip ext path).
Proof. unfold grid_ref._esmf_grid_from_scrip. stays_tac. Qed.

(** C2, as the code has it. A name that is not a key of the known-grids
    table is rejected by the assertion when the grid's cache file is absent
    or an overwrite is requested, before anything else is called; when the
    file is there and no overwrite is requested, the assertion is not
    reached and construction goes on to read the file. *)
Theorem unknown_grid_rejected config ext name clobber σ :
  known_grids config !! name = None →
  let path := grid_ref.scrip_grid_file_of config name in
  let construct := grid_ref.__init__ config ext name clobber in
  (st_fs σ !! path = None ∨ clobber = Some true →
     construct σ
     = (Raise (AssertionError ("Unknown grid: " +:+ name)),
        record_event
          (Ev c_assert (Some (AssertionError ("Unknown grid: " +:+ name)))) σ)) ∧
  (is_Some (st_fs σ !! path) → clobber ≠ Some true →
     Forall (λ ev, is_assertion ev = false) (new_events σ (construct σ).2) ∧
     construct σ
     = (grid_ref._esmf_grid_from_scrip ext path
        ≫= λ '(ds, grid, shape),
             alloc (OGridRef {| gr_name := name; gr_scrip_grid_file := path;
                                gr_ds := ds; gr_grid := grid;
                                gr_shape := shape |})) σ).
Proof.
  intros Hk path construct. split.
  - intros Hgo. unfold construct, grid_ref.__init__, grid_ref._gen_grid_file.
    fold path.
    assert (bool_decide (is_Some (st_fs σ !! path)) && negb (default false clobber)
            = false) as Hb.
    { destruct Hgo as [Hp| ->]; [|by rewrite andb_false_r].
      rewrite Hp. rewrite bool_decide_eq_false_2; [done|]. by intros [? [=]]. }
    rewrite !bind_run. unfold os_path_exists at 1. rewrite Hb, Hk. reflexivity.
  - intros Hp Hc.
    assert (default false clobber = false) as Hd by by destruct clobber as [[]|].
    unfold construct. rewrite init_present by done. fold path. split; [|done].
    apply logs_new_events.
    apply (stays_bind (logs (λ ev, is_assertion ev = false)));
      [apply esmf_grid_from_scrip_no_assertion|].
    intros [[ds grid] shape]. stays_tac.
Qed.

(** C2, as stated, fails: a name the table does not list is accepted when
    its grid file is already there. *)
Lemma unknown_grid_with_grid_file_accepted :
  known_grids demo.config !! "mine" = None ∧
  (grid_ref.__init__ demo.config demo.ext "mine" None demo.stray).1 = Ok 0%nat ∧
  new_events demo.stray (grid_ref.__init__ demo.config demo.ext "mine" None demo.stray).2
  = [Ev (c_open_dataset "grids/mine.nc") None;
     Ev (c_ESMF_Grid "grids/mine.nc") None;
     Ev c_add_item None;
     Ev c_mask_assign None].
Proof. vm_compute. done. Qed.

Lemma unknown_grid_rejected_witness :
  grid_ref.__init__ demo.config demo.ext "mine" None demo.empty
  = (Raise (AssertionError "Unknown grid: mine"),
     record_event (Ev c_assert (Some (AssertionError "Unknown grid: mine")))
                  demo.empty).
Proof.
  apply (unknown_grid_rejected demo.config demo.ext "mine" None demo.empty).
  - vm_compute. reflexivity.
  - left. vm_compute. reflexivity.
Defined.

(** * Failures during construction *)

Section faithful.
Context (allowed : call → exn → Prop).

Lemma faithful_ret {A} (a : A) : faithful allowed (mret a : M A).
Proof. intros σ. exists []. simpl. by rewrite app_nil_r. Qed.

Lemma faithful_bind {A B} (m : M A) (k : A → M B) :
  faithful allowed m → (∀ a, faithful allowed (k a)) → faithful allowed (m ≫= k).
Proof.
  intros Hm Hk σ. rewrite bind_run. destruct (Hm σ) as (evs & Hlog & Hr).
  destruct (m σ) as [[a|e] σ1]; simpl in *; [|by exists evs].
  destruct (Hk a σ1) as (evs2 & Hlog2 & Hr2). exists (evs ++ evs2).
  split; [by rewrite Hlog2, Hlog, app_assoc|].
  destruct ((k a σ1).1) as [b|e].
  - by apply Forall_app.
  - destruct Hr2 as (evs0 & c & -> & Hok & Hc). exists (evs ++ evs0), c.
    split_and!; [by rewrite app_assoc | by apply Forall_app | done].
Qed.

Lemma faithful_throw {A} c e : allowed c e → faithful allowed (throw c e : M A).
Proof.
  intros H σ. exists [Ev c (Some e)]. split; [done|]. exists [], c. by split_and!.
Qed.

Lemma propagated_one {A} c (r : Res A) σ σ' :
  st_log σ' = st_log σ ++ [Ev c (outcome r)] →
  (∀ e, r = Raise e → allowed c e) →
  propagated allowed σ r σ'.
Proof.
  intros Hlog H. exists [Ev c (outcome r)]. split; [done|].
  destruct r as [a|e]; simpl; [by repeat constructor|].
  exists [], c. split_and!; [done | done | by apply H].
Qed.

Lemma faithful_pure_call {A} c (r : Res A) :
  (∀ e, allowed c e) → faithful allowed (pure_call c r).
Proof. intros H σ. by apply (propagated_one c). Qed.

Lemma faithful_reading {A} c path (parse : string → Res A) :
  (∀ e, allowed c e) → faithful allowed (reading c path parse).
Proof. intros H σ. by apply (propagated_one c). Qed.

Lemma faithful_fs_call {A} c (f : gmap string string → Res A * gmap string string) :
  (∀ e, allowed c e) → faithful allowed (fs_call c f).
Proof.
  intros H σ. unfold fs_call. destruct (f (st_fs σ)) as [r fs'].
  by apply (propagated_one c).
Qed.

Lemma faithful_os_path_exists path : faithful allowed (os_path_exists path).
Proof. intros σ. exists []. simpl. by rewrite app_nil_r. Qed.

Lemma faithful_alloc o : faithful allowed (alloc o).
Proof. intros σ. exists []. simpl. by rewrite app_nil_r. Qed.

Lemma faithful_load_grid_ref attr l :
  (∀ e, allowed (c_getattr "grid_ref" attr) e) →
  faithful allowed (load_grid_ref attr l).
Proof.
  intros H σ. unfold load_grid_ref.
  repeat case_match; try (by apply faithful_throw).
  exists []. simpl. by rewrite app_nil_r.
Qed.

Lemma faithful_getitem a i :
  (∀ e, allowed (c_getitem i) e) → faithful allowed (getitem a i).
Proof.
  intros H. unfold getitem. case_match; [apply faithful_ret | by apply faithful_throw].
Qed.
End faithful.

Lemma faithful_mono (allowed allowed' : call → exn → Prop) {A} (m : M A) :
  (∀ c e, allowed c e → allowed' c e) → faithful allowed m → faithful allowed' m.
Proof.
  intros Hsub Hm σ. destruct (Hm σ) as (evs & Hlog & Hr). exists evs.
  split; [done|]. destruct ((m σ).1); [done|].
  destruct Hr as (evs0 & c & ? & ? & ?). exists evs0, c. split_and!; auto.
Qed.

Lemma unknown_grid_other config names c e : c ≠ c_assert → unknown_grid config names c e.
Proof. by intros H ?. Qed.

Lemma unknown_grid_sub config names names' c e :
  names ⊆ names' → unknown_grid config names c e → unknown_grid config names' c e.
Proof.
  intros Hsub H Hc. destruct (H Hc) as (name & ? & ? & ?). exists name.
  split_and!; [by apply Hsub | done..].
Qed.

Create HintDb faithful discriminated.
#[global] Hint Resolve faithful_ret faithful_throw faithful_pure_call
  faithful_reading faithful_fs_call faithful_os_path_exists faithful_alloc
  faithful_load_grid_ref faithful_getitem : faithful.
#[global] Hint Extern 1 (unknown_grid _ _ _ _) =>
  apply unknown_grid_other; discriminate : faithful.
#[global] Hint Extern 1 (∀ _, unknown_grid _ _ _ _) =>
  intros ?; apply unknown_grid_other; discriminate : faithful.

Ltac faithful_step :=
  lazymatch goal with
  | |- faithful _ (mbind _ _) => apply faithful_bind; [ | intros ?]
  | |- faithful _ (_ ≫= _) => apply faithful_bind; [ | intros ?]
  | |- faithful _ (match ?x with _ => _ end) => destruct x eqn:?
  | |- faithful _ (let '(_, _) := ?x in _) => destruct x eqn:?
  | |- faithful _ _ => solve [eauto with faithful]
  end.
Ltac faithful_tac := repeat faithful_step.

Lemma gen_grid_file_faithful config ext name clobber :
  faithful (unknown_grid config [name])
           (grid_ref._gen_grid_file config ext name clobber).
Proof.
  unfold grid_ref._gen_grid_file, logging_info. faithful_tac.
  apply faithful_throw. intros _. exists name. split_and!; [set_solver | done..].
Qed.

Lemma grid_ref_init_faithful config ext name clobber :
  faithful (unknown_grid config [name])
           (grid_ref.__init__ config ext name clobber).
Proof.
  unfold grid_ref.__init__. apply faithful_bind; [apply gen_grid_file_faithful|].
  intros path. unfold grid_ref._esmf_grid_from_scrip. faithful_tac.
Qed.

Lemma regridder_init_faithful config ext src dst method clobber :
  faithful (unknown_grid config [src; dst])
           (regridder.__init__ config ext src dst method clobber).
Proof.
  unfold regridder.__init__.
  apply faithful_bind.
  { eapply faithful_mono; [|apply grid_ref_init_faithful].
    intros c e. apply unknown_grid_sub.
    intros x ->%list_elem_of_singleton. repeat constructor. }
  intros gs. apply faithful_bind.
  { eapply faithful_mono; [|apply grid_ref_init_faithful].
    intros c e. apply unknown_grid_sub.
    intros x ->%list_elem_of_singleton. repeat constructor. }
  intros gd.
  unfold regridder.grid_size, regridder._gen_weights, regridder.build_weights,
    os_remove, logging_info.
  faithful_tac.
Qed.

(** C7. In the construction of a grid reference and of a regridder, a call
    that fails ends the run: the run raises the exception that call raised,
    nothing is called after it, and a run that returns has seen no call
    fail.  The one failure that is the module's own is the assertion on a
    name missing from the known-grids table. *)
Theorem construction_failures_propagate config ext :
  (∀ name clobber,
     faithful (unknown_grid config [name])
              (grid_ref.__init__ config ext name clobber)) ∧
  (∀ src dst method clobber,
     faithful (unknown_grid config [src; dst])
              (regridder.__init__ config ext src dst method clobber)).
Proof.
  split; intros.
  - apply grid_ref_init_faithful.
  - apply regridder_init_faithful.
Qed.

(** * class regridder: construction *)

(** C3, at the grid files. Whatever its overwrite flag, a regridder whose
    two grid files are in place constructs its grid references without
    generating either file: the flag is not handed on to them. *)
Theorem regridder_clobber_keeps_grid_files config ext src dst method clobber σ :
  is_Some (st_fs σ !! grid_ref.scrip_grid_file_of config src) →
  is_Some (st_fs σ !! grid_ref.scrip_grid_file_of config dst) →
  Forall (λ ev, is_grid_generation ev = false)
         (new_events σ (regridder.__init__ config ext src dst method clobber σ).2).
Proof.
  intros Hsrc Hdst. apply logs_new_events. unfold regridder.__init__.
  destruct (init_reuses config ext src None σ Hsrc eq_refl) as [Hfs1 Hlog1].
  rewrite bind_run.
  destruct (grid_ref.__init__ config ext src None σ) as [[gs|e] σ1]; [|done].
  simpl in Hfs1, Hlog1. etrans; [exact Hlog1|].
  rewrite <- Hfs1 in Hdst.
  destruct (init_reuses config ext dst None σ1 Hdst eq_refl) as [Hfs2 Hlog2].
  rewrite bind_run.
  destruct (grid_ref.__init__ config ext dst None σ1) as [[gd|e] σ2]; [|done].
  simpl in Hfs2, Hlog2. etrans; [exact Hlog2|].
  generalize σ2.
  change (stays (logs (λ ev, is_grid_generation ev = false))
    (regridder.grid_size gs ≫= λ N_src,
     regridder.grid_size gd ≫= λ N_dst,
     regridder._gen_weights config ext src dst method clobber gs gd ≫= λ weight_file,
     reading (c_read_weights weight_file) weight_file
             (λ bytes, read_weights ext bytes N_src N_dst) ≫= λ A,
     alloc (ORegridder {| rg_name_grid_src := src; rg_name_grid_dst := dst;
                          rg_grid_ref_src := gs; rg_grid_ref_dst := gd;
                          rg_method := method; rg_clobber := clobber;
                          rg_N_src := N_src; rg_N_dst := N_dst;
                          rg_weight_file := weight_file; rg_A := A |}))).
  unfold regridder.grid_size, regridder._gen_weights, regridder.build_weights,
    os_remove, logging_info.
  stays_tac.
Qed.

(** The failing input of C3: both grid files and the weight file are there
    and an overwrite is requested.  The weight file is removed and built
    again; the grid files are only read. *)
Lemma regridder_clobber_on_cached_files :
  new_events demo.cached
    (regridder.__init__ demo.config demo.ext "T62" "gx1" "bilinear" true
                        demo.cached).2
  = [Ev (c_open_dataset "grids/T62.nc") None;
     Ev (c_ESMF_Grid "grids/T62.nc") None;
     Ev c_add_item None;
     Ev c_mask_assign None;
     Ev (c_open_dataset "grids/gx1.nc") None;
     Ev (c_ESMF_Grid "grids/gx1.nc") None;
     Ev c_add_item None;
     Ev c_mask_assign None;
     Ev (c_logging_info (removing "weights/T62_to_gx1_bilinear.nc")) None;
     Ev (c_os_remove "weights/T62_to_gx1_bilinear.nc") None;
     Ev (c_logging_info (generating "weights/T62_to_gx1_bilinear.nc")) None;
     Ev (c_esmf_regrid_build "weights/T62_to_gx1_bilinear.nc" "bilinear") None;
     Ev c_esmf_regrid_finalize None;
     Ev (c_read_weights "weights/T62_to_gx1_bilinear.nc") None].
Proof. vm_compute. reflexivity. Qed.

Lemma regridder_clobber_keeps_grid_files_witness :
  Forall (λ ev, is_grid_generation ev = false)
    (new_events demo.cached
       (regridder.__init__ demo.config demo.ext "T62" "gx1" "bilinear" true
                           demo.cached).2).
Proof.
  apply (regridder_clobber_keeps_grid_files demo.config demo.ext "T62" "gx1"
           "bilinear" true demo.cached).
  - vm_compute. eexists. reflexivity.
  - vm_compute. eexists. reflexivity.
Defined.

(** C4. With the weight file in place: without the overwrite flag
    [_gen_weights] calls nothing and changes nothing, and what line 70 then
    loads is the file that was there; with the flag the file is removed and
    the weights are built from there on, starting with the call of
    [esmf_regrid_build] on a file system that no longer has the file. *)
Theorem weight_file_reused_or_rebuilt config ext src dst method gs gd σ bytes :
  let weight_file := regridder.weight_file_of config src dst method in
  let gen_weights := regridder._gen_weights config ext src dst method in
  st_fs σ !! weight_file = Some bytes →
  gen_weights false gs gd σ = (Ok weight_file, σ) ∧
  (∀ N_src N_dst,
     (gen_weights false gs gd ≫= λ weight_file,
      reading (c_read_weights weight_file) weight_file
              (λ bytes, read_weights ext bytes N_src N_dst)) σ
     = (read_weights ext bytes N_src N_dst,
        record_event (Ev (c_read_weights weight_file)
                         (outcome (read_weights ext bytes N_src N_dst))) σ)) ∧
  gen_weights true gs gd σ
  = regridder.build_weights ext weight_file method gs gd
      {| st_fs := delete weight_file (st_fs σ);
         st_heap := st_heap σ;
         st_log := st_log σ ++ [Ev (c_logging_info (removing weight_file)) None;
                                Ev (c_os_remove weight_file) None] |} ∧
  (∀ s d,
     st_heap σ !! gs = Some (OGridRef s) →
     st_heap σ !! gd = Some (OGridRef d) →
     ∃ rest,
       new_events σ (gen_weights true gs gd σ).2
       = [Ev (c_logging_info (removing weight_file)) None;
          Ev (c_os_remove weight_file) None;
          Ev (c_logging_info (generating weight_file)) None;
          Ev (c_esmf_regrid_build weight_file method)
             (outcome (esmf_regrid_build ext (gr_grid s) (gr_grid d) weight_file
                         method (delete weight_file (st_fs σ))).1)] ++ rest).
Proof.
  intros weight_file gen_weights Hp.
  assert (gen_weights false gs gd σ = (Ok weight_file, σ)) as Hskip.
  { unfold gen_weights, regridder._gen_weights. fold weight_file.
    rewrite bind_run. unfold os_path_exists. rewrite Hp.
    by rewrite bool_decide_eq_true_2. }
  assert (gen_weights true gs gd σ
    = regridder.build_weights ext weight_file method gs gd
        {| st_fs := delete weight_file (st_fs σ);
           st_heap := st_heap σ;
           st_log := st_log σ ++ [Ev (c_logging_info (removing weight_file)) None;
                                  Ev (c_os_remove weight_file) None] |}) as Hclobber.
  { unfold gen_weights, regridder._gen_weights. fold weight_file.
    rewrite bind_run. unfold os_path_exists at 1.
    rewrite Hp, bool_decide_eq_true_2 by done.
    run_unfold. cbn. rewrite Hp. cbn. by rewrite app_snoc_cons. }
  split_and!; [done| |done|].
  - intros N_src N_dst. rewrite (bind_ok _ _ _ _ _ Hskip).
    unfold reading. by rewrite Hp.
  - intros s d Hs Hd. rewrite Hclobber. unfold regridder.build_weights.
    run_unfold. cbn. rewrite Hs. cbn. rewrite Hd. cbn.
    destruct (esmf_regrid_build ext (gr_grid s) (gr_grid d) weight_file method
                (delete weight_file (st_fs σ))) as [[regrid|e] fs1]; cbn.
    + destruct (esmf_regrid_finalize ext regrid fs1) as [[[]|e] fs2]; cbn.
      all: eexists; apply new_events_app; simpl.
      all: rewrite ?app_snoc_cons, <- ?app_assoc; simpl; reflexivity.
    + exists []. apply new_events_app; simpl.
      rewrite ?app_snoc_cons, <- ?app_assoc; simpl; reflexivity.
Qed.

Lemma weight_file_reused_or_rebuilt_witness :
  regridder._gen_weights demo.config demo.ext "T62" "gx1" "bilinear" false
    0%nat 1%nat demo.cached
  = (Ok "weights/T62_to_gx1_bilinear.nc", demo.cached).
Proof.
  apply (weight_file_reused_or_rebuilt demo.config demo.ext "T62" "gx1"
           "bilinear" 0%nat 1%nat demo.cached "bilinear").
  vm_compute. reflexivity.
Defined.

(** * class regridder: the regridding operation *)

(** ** What a step that returns has done *)

Lemma load_dict_inv l σ d σ' :
  load_dict l σ = (Ok d, σ') → σ' = σ ∧ st_heap σ !! l = Some (ODict d).
Proof. unfold load_dict, throw. repeat case_match; intros [=]; by subst. Qed.

Lemma load_dataarray_inv attr l σ a σ' :
  load_dataarray attr l σ = (Ok a, σ') → σ' = σ ∧ st_heap σ !! l = Some (ODataArray a).
Proof. unfold load_dataarray, throw. repeat case_match; intros [=]; by subst. Qed.

Lemma load_grid_ref_inv attr l σ g σ' :
  load_grid_ref attr l σ = (Ok g, σ') → σ' = σ ∧ st_heap σ !! l = Some (OGridRef g).
Proof. unfold load_grid_ref, throw. repeat case_match; intros [=]; by subst. Qed.

Lemma load_regridder_inv attr l σ r σ' :
  load_regridder attr l σ = (Ok r, σ') → σ' = σ ∧ st_heap σ !! l = Some (ORegridder r).
Proof. unfold load_regridder, throw. repeat case_match; intros [=]; by subst. Qed.

Lemma getitem_inv a i σ z σ' :
  getitem a i σ = (Ok z, σ') → σ' = σ ∧ a !! i = Some z.
Proof. unfold getitem, throw. case_match; intros [=]; by subst. Qed.

Lemma pure_call_inv {A} c (r : Res A) σ a σ' :
  pure_call c r σ = (Ok a, σ') → r = Ok a ∧ σ' = record_event (Ev c None) σ.
Proof. unfold pure_call. intros [=]. by subst. Qed.

Lemma elementwise_inv c f a b σ r σ' :
  elementwise c f a b σ = (Ok r, σ') →
  σ' = σ ∧ nd_shape a = nd_shape b ∧
  r = {| nd_shape := nd_shape a; nd_data := zip_with f (nd_data a) (nd_data b) |}.
Proof.
  unfold elementwise, throw. case_bool_decide; intros [=]; by subst.
Qed.

Lemma xr_DataArray_inv data name dims attrs coords σ l σ' :
  xr_DataArray data name dims attrs coords σ = (Ok l, σ') →
  ∃ items,
    st_heap σ !! attrs = Some (ODict items) ∧
    length dims = length (nd_shape data) ∧
    map_Forall (λ _ c, coord_fits dims (nd_shape data) c = true) coords ∧
    l = S (length (st_heap σ)) ∧
    σ' = {| st_fs := st_fs σ;
            st_heap := st_heap σ ++
              [ODict items;
               ODataArray {| da_name := name; da_dims := dims; da_values := data;
                             da_attrs := length (st_heap σ); da_coords := coords |}];
            st_log := st_log σ |}.
Proof.
  unfold xr_DataArray. repeat case_bool_decide; simpl; try (by intros [=]).
  intros Hrun.
  apply bind_inv_ok in Hrun as (items & σ1 & [-> Hd]%load_dict_inv & Hrun).
  run_unfold. cbn in Hrun. injection Hrun as <- <-. exists items.
  split_and!; [done..| |].
  - rewrite length_app. simpl. lia.
  - by rewrite <- app_assoc.
Qed.

(** The arithmetic of the renormalisation, cell by cell. *)
Lemma renormalize_cells (D O : list float) :
  zip_with (λ o x, if (0 <? o)%float then x else nan)
           ((λ x, if (0 <? x)%float then x else nan) <$> O)
           (zip_with PrimFloat.div D ((λ x, if (0 <? x)%float then x else nan) <$> O))
  = zip_with (λ d o, if (0 <? o)%float then (d / o)%float else nan) D O.
Proof.
  revert O. induction D as [|d D IH]; intros [|o O]; simpl; try done.
  rewrite IH. f_equal. destruct (0 <? o)%float eqn:Ho; [by rewrite Ho | done].
Qed.

Lemma apply_weights_to_inv ext self data σ r σ' :
  regridder.apply_weights_to ext self data σ = (Ok r, σ') →
  ∃ slf dst Ny_out Nx_out,
    st_heap σ !! self = Some (ORegridder slf) ∧
    st_heap σ !! rg_grid_ref_dst slf = Some (OGridRef dst) ∧
    gr_shape dst !! 1%nat = Some Ny_out ∧
    gr_shape dst !! 0%nat = Some Nx_out ∧
    apply_weights ext (rg_A slf) data Ny_out Nx_out = Ok r ∧
    σ' = record_event (Ev c_apply_weights None) σ.
Proof.
  unfold regridder.apply_weights_to. intros H.
  apply bind_inv_ok in H as (slf & ? & [-> Hs]%load_regridder_inv & H).
  apply bind_inv_ok in H as (slf' & ? & [-> Hs']%load_regridder_inv & H).
  assert (slf' = slf) as -> by congruence.
  apply bind_inv_ok in H as (dst & ? & [-> Hd]%load_grid_ref_inv & H).
  apply bind_inv_ok in H as (Ny & ? & [-> Hy]%getitem_inv & H).
  apply bind_inv_ok in H as (slf' & ? & [-> Hs'']%load_regridder_inv & H).
  assert (slf' = slf) as -> by congruence.
  apply bind_inv_ok in H as (dst' & ? & [-> Hd']%load_grid_ref_inv & H).
  assert (dst' = dst) as -> by congruence.
  apply bind_inv_ok in H as (Nx & ? & [-> Hx]%getitem_inv & H).
  apply pure_call_inv in H as [? ->]. by exists slf, dst, Ny, Nx.
Qed.

(** A run of lines 117 to 148 that returns: what it has read, and the two
    objects it has put at the end of the store. *)
Lemma remap_inv ext self da_in renormalize σ l σ' :
  regridder.remap ext self da_in renormalize σ = (Ok l, σ') →
  ∃ din items slf dst Ny_out Nx_out data_dst evs,
    st_heap σ !! da_in = Some (ODataArray din) ∧
    st_heap σ !! da_attrs din = Some (ODict items) ∧
    st_heap σ !! self = Some (ORegridder slf) ∧
    st_heap σ !! rg_grid_ref_dst slf = Some (OGridRef dst) ∧
    gr_shape dst !! 1%nat = Some Ny_out ∧
    gr_shape dst !! 0%nat = Some Nx_out ∧
    remapped ext (rg_A slf) Ny_out Nx_out renormalize (da_values din) data_dst ∧
    l = S (length (st_heap σ)) ∧
    σ' = {| st_fs := st_fs σ;
            st_heap := st_heap σ ++
              [ODict (<["regrid_method" := VStr (rg_method slf)]> items);
               ODataArray
                 {| da_name := da_name din; da_dims := da_dims din;
                    da_values := data_dst; da_attrs := length (st_heap σ);
                    da_coords :=
                      regridder.copy_coords_of
                        (take (length (da_dims din) - 2) (da_dims din))
                        (da_coords din) |}];
            st_log := st_log σ ++ evs |}.
Proof.
  unfold regridder.remap. intros H.
  apply bind_inv_ok in H as (din & ? & [-> Hin]%load_dataarray_inv & H).
  apply bind_inv_ok in H as (data1 & σ1 & Hw & H).
  apply apply_weights_to_inv in Hw
    as (slf & dst & Ny & Nx & Hself & Hdst & Hy & Hx & Hw & ->).
  apply bind_inv_ok in H as (data_dst & σ2 & Hre & H).
  assert (∃ evs, remapped ext (rg_A slf) Ny Nx renormalize (da_values din) data_dst ∧
                 σ2 = {| st_fs := st_fs σ; st_heap := st_heap σ;
                         st_log := st_log σ ++ evs |}) as (evs & Hvals & ->).
  { destruct renormalize.
    - apply bind_inv_ok in Hre as (ones & σ1' & Hw' & Hre).
      apply apply_weights_to_inv in Hw'
        as (slf' & dst' & Ny' & Nx' & Hself' & Hdst' & Hy' & Hx' & Hw' & ->).
      simpl in Hself'. assert (slf' = slf) as -> by congruence.
      simpl in Hdst'. assert (dst' = dst) as -> by congruence.
      assert (Ny' = Ny) as -> by congruence.
      assert (Nx' = Nx) as -> by congruence.
      apply bind_inv_ok in Hre as (q & ? & (-> & Hs1 & ->)%elementwise_inv & Hre).
      apply elementwise_inv in Hre as (-> & Hs2 & ->).
      eexists. split; [|unfold record_event; simpl; by rewrite app_snoc_cons].
      exists data1, ones. split_and!; [done..| |].
      + by rewrite Hs1.
      + unfold positive_or_nan. simpl. f_equal. apply renormalize_cells.
    - injection Hre as <- <-. by eexists. }
  apply bind_inv_ok in H as (din' & ? & [-> Hin']%load_dataarray_inv & H).
  simpl in Hin'. assert (din' = din) as -> by congruence.
  apply bind_inv_ok in H as (da_out & σ3 & Hnew & H).
  apply xr_DataArray_inv in Hnew as (items & Hitems & _ & _ & -> & ->).
  simpl in Hitems.
  apply bind_inv_ok in H as (out & ? & [-> Hout]%load_dataarray_inv & H).
  simpl in Hout. rewrite lookup_app_r, Nat.sub_succ_l, Nat.sub_diag in Hout by lia.
  injection Hout as <-.
  apply bind_inv_ok in H as (items' & ? & [-> Hit]%load_dict_inv & H).
  simpl in Hit. rewrite lookup_app_r, Nat.sub_diag in Hit by lia.
  injection Hit as <-.
  apply bind_inv_ok in H as (slf' & ? & [-> Hself']%load_regridder_inv & H).
  simpl in Hself'. rewrite lookup_app_l in Hself' by by eapply lookup_lt_Some.
  assert (slf' = slf) as -> by congruence.
  run_unfold. cbn in H. injection H as <- <-.
  exists din, items, slf, dst, Ny, Nx, data_dst, evs.
  split_and!; [done..|]. f_equal.
  rewrite insert_app_r_alt, Nat.sub_diag by lia. done.
Qed.

(** ** What the operation leaves alone *)

#[global] Instance same_heap_preorder : PreOrder same_heap.
Proof. split; unfold same_heap; [done | intros ???; congruence]. Qed.

Lemma same_heap_throw {A} c e : stays same_heap (throw c e : M A).
Proof. by intros σ. Qed.
Lemma same_heap_pure_call {A} c (r : Res A) : stays same_heap (pure_call c r).
Proof. by intros σ. Qed.
#[global] Hint Resolve same_heap_throw same_heap_pure_call : stays.

Lemma apply_weights_to_same_heap ext self data :
  stays same_heap (regridder.apply_weights_to ext self data).
Proof. unfold regridder.apply_weights_to. stays_tac. Qed.

Lemma elementwise_same_heap c f a b : stays same_heap (elementwise c f a b).
Proof. unfold elementwise. case_bool_decide; stays_tac. Qed.

Lemma xr_DataArray_heap_grows data name dims attrs coords :
  stays heap_grows (xr_DataArray data name dims attrs coords).
Proof. unfold xr_DataArray. repeat case_match; stays_tac. Qed.

Lemma new_dataarray_heap_grows v : stays heap_grows (new_dataarray v).
Proof. unfold new_dataarray. stays_tac. Qed.

Lemma new_dataarray_returns v σ :
  (new_dataarray v σ).1 = Ok (S (length (st_heap σ))).
Proof.
  unfold new_dataarray. run_unfold. cbn. rewrite length_app. simpl.
  f_equal. lia.
Qed.

Lemma by_value_heap_grows attr l : stays heap_grows (by_value attr l).
Proof. unfold by_value. stays_tac. Qed.

Lemma interp_step_heap_grows ext da_out item :
  stays heap_grows (regridder.interp_step ext da_out item).
Proof.
  unfold regridder.interp_step. destruct item as [dim new_coord].
  pose proof new_dataarray_heap_grows. pose proof by_value_heap_grows.
  stays_tac.
Qed.

Lemma interp_loop_heap_grows ext items da_out :
  stays heap_grows (regridder.interp_loop ext items da_out).
Proof.
  revert da_out. induction items as [|item items IH]; intros da_out; simpl.
  - stays_tac.
  - apply stays_bind; [apply _ | apply interp_step_heap_grows | apply IH].
Qed.

Lemma mask_step_heap_grows ext da_in da_out apply_mask :
  stays heap_grows (regridder.mask_step ext da_in da_out apply_mask).
Proof.
  unfold regridder.mask_step, logging_warning.
  pose proof new_dataarray_heap_grows. pose proof by_value_heap_grows.
  stays_tac.
Qed.

Lemma heap_grows_take σ σ' n :
  heap_grows σ σ' → (n ≤ length (st_heap σ))%nat →
  take n (st_heap σ') = take n (st_heap σ) ∧
  (length (st_heap σ) ≤ length (st_heap σ'))%nat.
Proof.
  intros [k Hk] Hn. rewrite Hk, take_app_le, length_app by done. split; [done|lia].
Qed.

Lemma bind_inv {A B} (m : M A) (k : A → M B) σ r σ2 :
  (m ≫= k) σ = (r, σ2) →
  (∃ a σ1, m σ = (Ok a, σ1) ∧ k a σ1 = (r, σ2)) ∨
  (∃ e, m σ = (Raise e, σ2) ∧ r = Raise e).
Proof.
  rewrite bind_run. destruct (m σ) as [[a|e] σ1]; intros H.
  - left. eauto.
  - right. injection H as <- <-. eauto.
Qed.

Lemma stays_run (R : relation State) {A} (m : M A) σ r σ' :
  stays R m → m σ = (r, σ') → R σ σ'.
Proof. intros H Hm. specialize (H σ). by rewrite Hm in H. Qed.

Lemma renormalize_same_heap ext self (renormalize : bool) ones_src data_dst :
  stays same_heap
    (if renormalize then
       regridder.apply_weights_to ext self ones_src ≫= λ ones_dst,
       np_divide data_dst (positive_or_nan ones_dst) ≫= λ data_dst,
       np_where_positive (positive_or_nan ones_dst) data_dst
     else mret data_dst).
Proof.
  pose proof (apply_weights_to_same_heap ext self).
  pose proof elementwise_same_heap.
  unfold np_divide, np_where_positive. destruct renormalize; stays_tac.
Qed.

(** Lines 117 to 148 leave every object that was in the store as it was,
    whether they return or raise. *)
Lemma remap_frame ext self da_in renormalize σ r σ' :
  regridder.remap ext self da_in renormalize σ = (r, σ') →
  take (length (st_heap σ)) (st_heap σ') = st_heap σ.
Proof.
  destruct r as [l|e].
  { intros H. apply remap_inv in H
      as (din & items & slf & dst & Ny & Nx & data_dst & evs & _ & _ & _ & _ & _
          & _ & _ & _ & ->).
    simpl. by rewrite take_app_length. }
  assert (∀ σ1, same_heap σ σ1 →
            take (length (st_heap σ)) (st_heap σ1) = st_heap σ) as Hsame.
  { intros σ1 ->. apply firstn_all. }
  unfold regridder.remap. intros H.
  apply bind_inv in H as [(din & σ1 & Hm & H)|(? & Hm & _)];
    [|by eapply Hsame, stays_run, Hm; stays_tac].
  apply load_dataarray_inv in Hm as [-> Hin].
  apply bind_inv in H as [(data1 & σ1 & Hm & H)|(? & Hm & _)];
    [|by eapply Hsame, stays_run, Hm; apply apply_weights_to_same_heap].
  apply (stays_run _ _ _ _ _ (apply_weights_to_same_heap _ _ _)) in Hm as H1.
  apply bind_inv in H as [(data2 & σ2 & Hm2 & H)|(? & Hm2 & _)].
  2:{ apply (stays_run _ _ _ _ _ (renormalize_same_heap _ _ _ _ _)) in Hm2.
      apply Hsame. by etrans. }
  apply (stays_run _ _ _ _ _ (renormalize_same_heap _ _ _ _ _)) in Hm2 as H2.
  assert (st_heap σ2 = st_heap σ) as Hh by (unfold same_heap in *; congruence).
  apply bind_inv in H as [(din' & ? & Hm3 & H)|(? & Hm3 & _)].
  2:{ apply Hsame. unfold same_heap. rewrite <- Hh.
      eapply (stays_run same_heap), Hm3. stays_tac. }
  apply load_dataarray_inv in Hm3 as [-> _].
  apply bind_inv in H as [(da_out & σ3 & Hnew & H)|(? & Hnew & _)].
  2:{ apply (stays_run _ _ _ _ _ (xr_DataArray_heap_grows _ _ _ _ _)) in Hnew.
      apply heap_grows_take with (n := length (st_heap σ)) in Hnew as [Ht _];
        [|by rewrite Hh].
      rewrite Ht, Hh. apply firstn_all. }
  apply xr_DataArray_inv in Hnew as (items & Hitems & _ & _ & -> & ->).
  rewrite Hh in *. exfalso. revert H.
  assert (is_Some (st_heap σ !! self)) as [o Hself].
  { apply apply_weights_to_inv in Hm as (slf & ? & ? & ? & ? & _); eauto. }
  run_unfold. cbn.
  rewrite lookup_app_r, Nat.sub_succ_l, Nat.sub_diag by lia. cbn.
  rewrite lookup_app_r, Nat.sub_diag by lia. cbn.
  rewrite lookup_app_l by by eapply lookup_lt_Some.
  apply apply_weights_to_inv in Hm as (slf & ? & ? & ? & Hs & _).
  rewrite Hs. cbn. by intros [=].
Qed.

Lemma remap_same_fs ext self da_in renormalize :
  stays same_fs (regridder.remap ext self da_in renormalize).
Proof.
  unfold regridder.remap, regridder.apply_weights_to, np_divide,
    np_where_positive, elementwise, xr_DataArray.
  stays_tac.
Qed.

Lemma interp_loop_same_fs ext items da_out :
  stays same_fs (regridder.interp_loop ext items da_out).
Proof.
  revert da_out. induction items as [|[dim new_coord] items IH]; intros da_out; simpl.
  - stays_tac.
  - apply stays_bind; [apply _ | | apply IH].
    unfold regridder.interp_step, by_value, new_dataarray. stays_tac.
Qed.

Lemma regrid_dataarray_same_fs ext self da_in renormalize apply_mask interp_coord
    post_method post_method_kwargs :
  stays same_fs (regridder.regrid_dataarray ext self da_in renormalize apply_mask
                   interp_coord post_method post_method_kwargs).
Proof.
  unfold regridder.regrid_dataarray.
  apply stays_bind; [apply _ | apply remap_same_fs | intros ?].
  apply stays_bind; [apply _ | apply interp_loop_same_fs | intros ?].
  unfold regridder.mask_step, regridder.post_step, by_value, new_dataarray,
    logging_warning.
  stays_tac.
Qed.

Lemma interp_step_new ext da_out item σ l σ' n :
  regridder.interp_step ext da_out item σ = (Ok l, σ') →
  (n ≤ da_out)%nat → (n ≤ length (st_heap σ))%nat → (n ≤ l)%nat.
Proof.
  unfold regridder.interp_step. destruct item as [dim new_coord].
  intros H Hl Hn.
  apply bind_inv_ok in H as (out & ? & [-> _]%load_dataarray_inv & H).
  case_bool_decide; [|by injection H as <- _].
  apply bind_inv_ok in H as (v & σ1 & H1 & H).
  apply (stays_run heap_grows) in H1; [|apply by_value_heap_grows].
  apply bind_inv_ok in H as (lo & ? & [_ ->]%pure_call_inv & H).
  apply bind_inv_ok in H as (hi & ? & [_ ->]%pure_call_inv & H).
  apply bind_inv_ok in H as (r & ? & [_ ->]%pure_call_inv & H).
  pose proof (new_dataarray_returns r
    (record_event (Ev (c_interp dim) None)
       (record_event (Ev (c_isel dim (-1)) None)
          (record_event (Ev (c_isel dim 0) None) σ1)))) as Hr.
  rewrite H in Hr. simpl in Hr. injection Hr as ->.
  apply heap_grows_take with (n := n) in H1 as [_ ?]; [lia|done].
Qed.

Lemma interp_loop_new ext items da_out σ l σ' n :
  regridder.interp_loop ext items da_out σ = (Ok l, σ') →
  (n ≤ da_out)%nat → (n ≤ length (st_heap σ))%nat → (n ≤ l)%nat.
Proof.
  revert da_out σ. induction items as [|item items IH]; intros da_out σ; simpl.
  - by intros [= <- _].
  - intros H Hl Hn. apply bind_inv_ok in H as (l1 & σ1 & H1 & H).
    eapply IH; [exact H| by eapply interp_step_new |].
    apply (stays_run heap_grows) in H1; [|apply interp_step_heap_grows].
    apply heap_grows_take with (n := n) in H1 as [_ ?]; [lia|done].
Qed.

Lemma mask_step_new ext da_in da_out apply_mask σ l σ' n :
  regridder.mask_step ext da_in da_out apply_mask σ = (Ok l, σ') →
  (n ≤ da_out)%nat → (n ≤ length (st_heap σ))%nat → (n ≤ l)%nat.
Proof.
  unfold regridder.mask_step. destruct apply_mask as [mask|]; [|by intros [= <- _]].
  intros H Hl Hn.
  apply bind_inv_ok in H as (m & ? & [-> _]%load_dataarray_inv & H).
  apply bind_inv_ok in H as (din & ? & [-> _]%load_dataarray_inv & H).
  apply bind_inv_ok in H as ([] & σ0 & H0 & H).
  assert (heap_grows σ σ0) as Hg0.
  { eapply stays_run, H0. unfold logging_warning. stays_tac. }
  apply bind_inv_ok in H as (v & σ1 & H1 & H).
  apply (stays_run heap_grows) in H1; [|apply by_value_heap_grows].
  apply bind_inv_ok in H as (mv & σ2 & H2 & H).
  apply (stays_run heap_grows) in H2; [|apply by_value_heap_grows].
  apply bind_inv_ok in H as (r & ? & [_ ->]%pure_call_inv & H).
  pose proof (new_dataarray_returns r (record_event (Ev c_where None) σ2)) as Hr.
  rewrite H in Hr. simpl in Hr. injection Hr as ->.
  assert (heap_grows σ σ2) as Hg by (etrans; [|exact H2]; by etrans).
  apply heap_grows_take with (n := n) in Hg as [_ ?]; [lia|done].
Qed.

Lemma regrid_dataarray_frame ext self da_in renormalize apply_mask interp_coord
    post_method post_method_kwargs σ :
  match post_method with
  | Some f => post_frame (length (st_heap σ)) f
  | None => True
  end →
  let run := regridder.regrid_dataarray ext self da_in renormalize apply_mask
               interp_coord post_method post_method_kwargs σ in
  take (length (st_heap σ)) (st_heap run.2) = st_heap σ ∧
  ∀ l, run.1 = Ok l → (length (st_heap σ) ≤ l)%nat.
Proof.
  intros Hpost. unfold regridder.regrid_dataarray. set (n := length (st_heap σ)).
  rewrite bind_run.
  destruct (regridder.remap ext self da_in renormalize σ) as [[l1|e] σ1] eqn:H1;
    pose proof (remap_frame _ _ _ _ _ _ _ H1) as Hf1; fold n in Hf1;
    [|by split].
  assert (n ≤ length (st_heap σ1))%nat as Hn1.
  { pose proof (f_equal length Hf1) as Hlen. rewrite length_take in Hlen.
    fold n in Hlen. lia. }
  assert (n ≤ l1)%nat as Hl1.
  { apply remap_inv in H1 as (?&?&?&?&?&?&?&?&_&_&_&_&_&_&_&->&_). unfold n. lia. }
  rewrite bind_run.
  destruct (regridder.interp_loop ext interp_coord l1 σ1) as [r2 σ2] eqn:H2.
  pose proof (stays_run _ _ _ _ _ (interp_loop_heap_grows _ _ _) H2) as Hg2.
  apply heap_grows_take with (n := n) in Hg2 as [Hf2 Hn2]; [|done].
  destruct r2 as [l2|e]; [|split; [simpl; congruence | done]].
  pose proof (interp_loop_new _ _ _ _ _ _ n H2 Hl1 Hn1) as Hl2.
  rewrite bind_run.
  destruct (regridder.mask_step ext da_in l2 apply_mask σ2) as [r3 σ3] eqn:H3.
  pose proof (stays_run _ _ _ _ _ (mask_step_heap_grows _ _ _ _) H3) as Hg3.
  apply heap_grows_take with (n := n) in Hg3 as [Hf3 Hn3]; [|lia].
  destruct r3 as [l3|e]; [|split; [simpl; congruence | done]].
  pose proof (mask_step_new _ _ _ _ _ _ _ n H3 Hl2 ltac:(lia)) as Hl3.
  rewrite bind_run. unfold regridder.post_step. unfold n in *. clear n.
  destruct post_method as [f|]; simpl.
  - unfold heap_call. destruct (Hpost l3 post_method_kwargs (st_heap σ3))
      as [Hf4 Hl4]; [done | lia |].
    destruct (f l3 post_method_kwargs (st_heap σ3)) as [[l4|e] h4]; simpl in *.
    + split; [congruence|]. intros l [= <-]. by apply Hl4.
    + split; [congruence | done].
  - split; [congruence|]. by intros l [= <-].
Qed.

(** C6. Applying the regridder, by [regrid_dataarray] or by the call
    operator, leaves every object that was in the store as it was, the
    regridder, its grid references, the input array and its attribute
    dictionary among them, and leaves the files alone; what it returns is an
    object that was not there before.  A caller's [post_method] is taken to
    do as much with the new array it is handed. *)
Theorem regridding_mutates_nothing ext self da_in args σ :
  let n := length (st_heap σ) in
  match default None (regridder.kw_post_method args) with
  | Some f => post_frame n f
  | None => True
  end →
  ∀ run,
    run = regridder.regrid_dataarray_kw ext self da_in args σ ∨
    run = regridder.__call__ ext self da_in args σ →
    (∀ l o, st_heap σ !! l = Some o → st_heap run.2 !! l = Some o) ∧
    st_fs run.2 = st_fs σ ∧
    (∀ l, run.1 = Ok l → (n ≤ l)%nat ∧ st_heap σ !! l = None).
Proof.
  intros n Hpost run Hrun.
  assert (run = regridder.regrid_dataarray ext self da_in
                  (default true (regridder.kw_renormalize args))
                  (default None (regridder.kw_apply_mask args))
                  (default [] (regridder.kw_interp_coord args))
                  (default None (regridder.kw_post_method args))
                  (default ∅ (regridder.kw_post_method_kwargs args)) σ) as ->
    by by destruct Hrun as [-> | ->].
  destruct (regrid_dataarray_frame ext self da_in
              (default true (regridder.kw_renormalize args))
              (default None (regridder.kw_apply_mask args))
              (default [] (regridder.kw_interp_coord args))
              (default None (regridder.kw_post_method args))
              (default ∅ (regridder.kw_post_method_kwargs args))
              σ Hpost) as [Hf Hl].
  split_and!.
  - intros l o Hlo. rewrite <- Hf in Hlo. by apply lookup_take_Some in Hlo as [? _].
  - apply regrid_dataarray_same_fs.
  - intros l Hok. split; [by apply Hl|]. apply lookup_ge_None. by apply Hl.
Qed.

(** ** The two entry points *)

(** C8. The call operator and [regrid_dataarray] return the same result and
    leave the same state, whichever of the keyword arguments are given. *)
Theorem call_is_regrid_dataarray ext self da_in args σ :
  regridder.__call__ ext self da_in args σ
  = regridder.regrid_dataarray_kw ext self da_in args σ ∧
  regridder.regrid_dataarray_kw ext self da_in args σ
  = regridder.regrid_dataarray ext self da_in
      (default true (regridder.kw_renormalize args))
      (default None (regridder.kw_apply_mask args))
      (default [] (regridder.kw_interp_coord args))
      (default None (regridder.kw_post_method args))
      (default ∅ (regridder.kw_post_method_kwargs args)) σ.
Proof.
  destruct args as [renormalize apply_mask interp_coord post_method kwargs].
  unfold regridder.__call__, regridder.regrid_dataarray_kw. simpl.
  split; reflexivity.
Qed.

(** ** The regridded array *)


Lemma bind_mret_run {A} (m : M A) σ : (m ≫= mret) σ = m σ.
Proof. rewrite bind_run. by destruct (m σ) as [[a|e] σ']. Qed.

(** ** What a step does when its calls succeed *)

Lemma load_regridder_ok attr l rg σ :
  st_heap σ !! l = Some (ORegridder rg) → load_regridder attr l σ = (Ok rg, σ).
Proof. intros H. unfold load_regridder. by rewrite H. Qed.

Lemma load_grid_ref_ok attr l g σ :
  st_heap σ !! l = Some (OGridRef g) → load_grid_ref attr l σ = (Ok g, σ).
Proof. intros H. unfold load_grid_ref. by rewrite H. Qed.

Lemma load_dataarray_ok attr l a σ :
  st_heap σ !! l = Some (ODataArray a) → load_dataarray attr l σ = (Ok a, σ).
Proof. intros H. unfold load_dataarray. by rewrite H. Qed.

Lemma getitem_ok a i z σ : a !! i = Some z → getitem a i σ = (Ok z, σ).
Proof. intros H. unfold getitem. by rewrite H. Qed.

Lemma load_dict_ok l d σ :
  st_heap σ !! l = Some (ODict d) → load_dict l σ = (Ok d, σ).
Proof. intros H. unfold load_dict. by rewrite H. Qed.

Lemma apply_weights_to_ok ext self data σ slf dst Ny_out Nx_out r :
  st_heap σ !! self = Some (ORegridder slf) →
  st_heap σ !! rg_grid_ref_dst slf = Some (OGridRef dst) →
  gr_shape dst !! 1%nat = Some Ny_out →
  gr_shape dst !! 0%nat = Some Nx_out →
  apply_weights ext (rg_A slf) data Ny_out Nx_out = Ok r →
  regridder.apply_weights_to ext self data σ
  = (Ok r, record_event (Ev c_apply_weights None) σ).
Proof.
  intros Hs Hd Hy Hx Hw. unfold regridder.apply_weights_to.
  rewrite (bind_ok _ _ _ _ _ (load_regridder_ok "A" _ _ _ Hs)).
  rewrite (bind_ok _ _ _ _ _ (load_regridder_ok "grid_ref_dst" _ _ _ Hs)).
  rewrite (bind_ok _ _ _ _ _ (load_grid_ref_ok "shape" _ _ _ Hd)).
  rewrite (bind_ok _ _ _ _ _ (getitem_ok _ _ _ _ Hy)).
  rewrite (bind_ok _ _ _ _ _ (load_regridder_ok "grid_ref_dst" _ _ _ Hs)).
  rewrite (bind_ok _ _ _ _ _ (load_grid_ref_ok "shape" _ _ _ Hd)).
  rewrite (bind_ok _ _ _ _ _ (getitem_ok _ _ _ _ Hx)).
  unfold pure_call. by rewrite Hw.
Qed.

Lemma bind_assoc_run {A B C} (m : M A) (f : A → M B) (g : B → M C) σ :
  ((m ≫= f) ≫= g) σ = (m ≫= λ a, f a ≫= g) σ.
Proof. rewrite !bind_run. by destruct (m σ) as [[a|e] σ']. Qed.

Lemma elementwise_ok c f a b σ :
  nd_shape a = nd_shape b →
  elementwise c f a b σ
  = (Ok {| nd_shape := nd_shape a; nd_data := zip_with f (nd_data a) (nd_data b) |},
     σ).
Proof. intros H. unfold elementwise. by rewrite bool_decide_eq_true_2. Qed.

Lemma xr_DataArray_ok data name dims attrs coords σ items :
  length dims = length (nd_shape data) →
  map_Forall (λ _ c, coord_fits dims (nd_shape data) c = true) coords →
  st_heap σ !! attrs = Some (ODict items) →
  xr_DataArray data name dims attrs coords σ
  = (Ok (S (length (st_heap σ))),
     {| st_fs := st_fs σ;
        st_heap := st_heap σ ++
          [ODict items;
           ODataArray {| da_name := name; da_dims := dims; da_values := data;
                         da_attrs := length (st_heap σ); da_coords := coords |}];
        st_log := st_log σ |}).
Proof.
  intros Hlen Hfit Hattrs. unfold xr_DataArray.
  rewrite !bool_decide_eq_true_2 by done. simpl.
  rewrite (bind_ok _ _ _ _ _ (load_dict_ok _ _ _ Hattrs)).
  unfold mbind, M_bind, alloc. simpl. rewrite length_app. simpl.
  rewrite <- app_assoc. simpl. do 2 f_equal. lia.
Qed.

(** A run of lines 117 to 148 returns as soon as the library calls do. *)
Lemma remap_returns ext self da_in renormalize σ din items slf dst
    Ny_out Nx_out data_dst :
  st_heap σ !! da_in = Some (ODataArray din) →
  st_heap σ !! da_attrs din = Some (ODict items) →
  st_heap σ !! self = Some (ORegridder slf) →
  st_heap σ !! rg_grid_ref_dst slf = Some (OGridRef dst) →
  gr_shape dst !! 1%nat = Some Ny_out →
  gr_shape dst !! 0%nat = Some Nx_out →
  remapped ext (rg_A slf) Ny_out Nx_out renormalize (da_values din) data_dst →
  length (da_dims din) = length (nd_shape data_dst) →
  map_Forall (λ _ c, coord_fits (da_dims din) (nd_shape data_dst) c = true)
    (regridder.copy_coords_of (take (length (da_dims din) - 2) (da_dims din))
                              (da_coords din)) →
  regridder.remap ext self da_in renormalize σ
  = (Ok (S (length (st_heap σ))),
     {| st_fs := st_fs σ;
        st_heap := st_heap σ ++
          [ODict (<["regrid_method" := VStr (rg_method slf)]> items);
           ODataArray
             {| da_name := da_name din; da_dims := da_dims din;
                da_values := data_dst; da_attrs := length (st_heap σ);
                da_coords :=
                  regridder.copy_coords_of
                    (take (length (da_dims din) - 2) (da_dims din))
                    (da_coords din) |}];
        st_log := st_log σ ++
          (if renormalize
           then [Ev c_apply_weights None; Ev c_apply_weights None]
           else [Ev c_apply_weights None]) |}).
Proof.
  intros Hin Hitems Hself Hdst Hy Hx Hre Hlen Hfit.
  unfold regridder.remap.
  rewrite (bind_ok _ _ _ _ _ (load_dataarray_ok "values" _ _ _ Hin)).
  cbv beta zeta.
  set (σ2 := {| st_fs := st_fs σ; st_heap := st_heap σ;
                st_log := st_log σ ++
                  (if renormalize
                   then [Ev c_apply_weights None; Ev c_apply_weights None]
                   else [Ev c_apply_weights None]) |}).
  assert ((regridder.apply_weights_to ext self
             (if renormalize then isnan_to_zero (da_values din) else da_values din)
           ≫= λ data_dst,
             if renormalize
             then regridder.apply_weights_to ext self (isnan_indicator (da_values din))
                  ≫= λ ones_dst,
                    np_divide data_dst (positive_or_nan ones_dst)
                    ≫= λ data_dst, np_where_positive (positive_or_nan ones_dst) data_dst
             else mret data_dst) σ = (Ok data_dst, σ2)) as Hvalues.
  { subst σ2. destruct renormalize.
    - destruct Hre as (D & O & HD & HO & Hshape & ->).
      rewrite (bind_ok _ _ _ _ _
                 (apply_weights_to_ok ext self _ σ slf dst _ _ D Hself Hdst Hy Hx HD)).
      rewrite (bind_ok _ _ _ _ _
                 (apply_weights_to_ok ext self _
                    (record_event (Ev c_apply_weights None) σ) slf dst _ _ O
                    Hself Hdst Hy Hx HO)).
      unfold np_divide, np_where_positive.
      rewrite (bind_ok _ _ _ _ _ (elementwise_ok _ _ D (positive_or_nan O) _ Hshape)).
      rewrite elementwise_ok by done.
      unfold record_event. simpl. rewrite app_snoc_cons.
      by rewrite renormalize_cells.
    - rewrite (bind_ok _ _ _ _ _
                 (apply_weights_to_ok ext self _ σ slf dst _ _ data_dst
                    Hself Hdst Hy Hx Hre)).
      reflexivity. }
  rewrite <- bind_assoc_run.
  rewrite (bind_ok _ _ _ _ _ Hvalues).
  rewrite (bind_ok _ _ _ _ _ (load_dataarray_ok "name" _ _ σ2 Hin)).
  rewrite (bind_ok _ _ _ _ _
             (xr_DataArray_ok data_dst _ _ _ _ σ2 items Hlen Hfit Hitems)).
  run_unfold. cbn.
  rewrite lookup_app_r, Nat.sub_succ_l, Nat.sub_diag by lia. cbn.
  rewrite lookup_app_r, Nat.sub_diag by lia. cbn.
  rewrite lookup_app_l, Hself by by eapply lookup_lt_Some. cbn.
  by rewrite insert_app_r_alt, Nat.sub_diag by lia.
Qed.

Lemma regrid_dataarray_plain ext self da_in renormalize post_method_kwargs σ :
  regridder.regrid_dataarray ext self da_in renormalize None [] None
                             post_method_kwargs σ
  = regridder.remap ext self da_in renormalize σ.
Proof.
  unfold regridder.regrid_dataarray. rewrite bind_run.
  by destruct (regridder.remap ext self da_in renormalize σ) as [[l|e] σ'].
Qed.


(** C5. With [renormalize] the values of the array that lines 117 to 148
    build, which is what is returned when nothing is interpolated, masked or
    post-processed, are these: the weights are applied to the source values with zero in place of every
    missing one, and to the indicator that is one where a source value is
    there and zero where it is missing; each destination cell whose remapped
    indicator is strictly positive holds the remapped value divided by the
    remapped indicator, and every other cell is missing.  The array with
    these values is built whenever the two applications of the weights
    succeed with results of one shape that fits the input's dimensions. *)
Theorem renormalized_regridding ext self da_in σ :
  (∀ post_method_kwargs,
     regridder.regrid_dataarray ext self da_in true None [] None
                                post_method_kwargs σ
     = regridder.remap ext self da_in true σ) ∧
  match regridder.remap ext self da_in true σ with
  | (Ok da_out, σ') =>
      ∃ din slf dst Ny_out Nx_out data_dst ones_dst out,
        st_heap σ !! da_in = Some (ODataArray din) ∧
        st_heap σ !! self = Some (ORegridder slf) ∧
        st_heap σ !! rg_grid_ref_dst slf = Some (OGridRef dst) ∧
        gr_shape dst !! 1%nat = Some Ny_out ∧
        gr_shape dst !! 0%nat = Some Nx_out ∧
        apply_weights ext (rg_A slf) (isnan_to_zero (da_values din)) Ny_out Nx_out
        = Ok data_dst ∧
        apply_weights ext (rg_A slf) (isnan_indicator (da_values din)) Ny_out Nx_out
        = Ok ones_dst ∧
        (∀ i x, nd_data (da_values din) !! i = Some x →
           nd_data (isnan_to_zero (da_values din)) !! i
           = Some (if is_nan x then 0%float else x) ∧
           nd_data (isnan_indicator (da_values din)) !! i
           = Some (if is_nan x then 0%float else 1%float)) ∧
        st_heap σ' !! da_out = Some (ODataArray out) ∧
        nd_shape (da_values out) = nd_shape ones_dst ∧
        nd_shape (da_values out) = nd_shape data_dst ∧
        (∀ i d o, nd_data data_dst !! i = Some d → nd_data ones_dst !! i = Some o →
           nd_data (da_values out) !! i
           = Some (if (0 <? o)%float then (d / o)%float else nan)) ∧
        length (nd_data (da_values out))
        = min (length (nd_data data_dst)) (length (nd_data ones_dst))
  | (Raise _, _) => True
  end ∧
  (∀ din items slf dst Ny_out Nx_out data_dst ones_dst,
     st_heap σ !! da_in = Some (ODataArray din) →
     st_heap σ !! da_attrs din = Some (ODict items) →
     st_heap σ !! self = Some (ORegridder slf) →
     st_heap σ !! rg_grid_ref_dst slf = Some (OGridRef dst) →
     gr_shape dst !! 1%nat = Some Ny_out →
     gr_shape dst !! 0%nat = Some Nx_out →
     apply_weights ext (rg_A slf) (isnan_to_zero (da_values din)) Ny_out Nx_out
     = Ok data_dst →
     apply_weights ext (rg_A slf) (isnan_indicator (da_values din)) Ny_out Nx_out
     = Ok ones_dst →
     nd_shape data_dst = nd_shape ones_dst →
     length (da_dims din) = length (nd_shape ones_dst) →
     map_Forall (λ _ c, coord_fits (da_dims din) (nd_shape ones_dst) c = true)
       (regridder.copy_coords_of (take (length (da_dims din) - 2) (da_dims din))
                                 (da_coords din)) →
     ∃ da_out σ' out,
       regridder.remap ext self da_in true σ = (Ok da_out, σ') ∧
       st_heap σ' !! da_out = Some (ODataArray out) ∧
       da_values out
       = {| nd_shape := nd_shape ones_dst;
            nd_data := zip_with (λ d o, if (0 <? o)%float
                                        then (d / o)%float else nan)
                                (nd_data data_dst) (nd_data ones_dst) |} ∧
       new_events σ σ' = [Ev c_apply_weights None; Ev c_apply_weights None]).
Proof.
  split; [intros; apply regrid_dataarray_plain|]. split.
  - destruct (regridder.remap ext self da_in true σ) as [[da_out|e] σ'] eqn:H;
      [|done].
    apply remap_inv in H
      as (din & items & slf & dst & Ny & Nx & values & evs & Hin & Hitems & Hself
          & Hdst & Hy & Hx & (D & O & HD & HO & Hshape & ->) & -> & ->).
    eexists din, slf, dst, Ny, Nx, D, O, _.
    do 7 (split; [done|]).
    split.
    { intros i x Hi. unfold isnan_to_zero, isnan_indicator. simpl.
      by rewrite !list_lookup_fmap, Hi. }
    split.
    { simpl. rewrite lookup_app_r, Nat.sub_succ_l, Nat.sub_diag by lia.
      reflexivity. }
    simpl. split; [done|]. split; [done|]. split.
    + intros i d o Hd Ho. rewrite lookup_zip_with, Hd. simpl. by rewrite Ho.
    + apply length_zip_with.
  - intros din items slf dst Ny_out Nx_out D O Hin Hitems Hself Hdst Hy Hx
      HD HO Hshape Hlen Hfit.
    eexists _, _, _. split.
    { apply (remap_returns ext self da_in true σ din items slf dst Ny_out Nx_out
               {| nd_shape := nd_shape O;
                  nd_data := zip_with (λ d o, if (0 <? o)%float
                                              then (d / o)%float else nan)
                                      (nd_data D) (nd_data O) |});
        [done..| |done|done].
      by exists D, O. }
    simpl. split.
    { rewrite lookup_app_r, Nat.sub_succ_l, Nat.sub_diag by lia. reflexivity. }
    split; [done|]. by apply new_events_app.
Qed.

(** ** Coordinates that are not there, masks that do not fit *)

Lemma interp_step_skip ext da_out dim new_coord σ out :
  st_heap σ !! da_out = Some (ODataArray out) →
  dim ∉ da_dims out →
  regridder.interp_step ext da_out (dim, new_coord) σ = (Ok da_out, σ).
Proof.
  intros Hout Hdim. unfold regridder.interp_step. rewrite bind_run.
  unfold load_dataarray. rewrite Hout. by rewrite bool_decide_eq_false_2.
Qed.

Lemma interp_loop_app ext before after da_out σ :
  regridder.interp_loop ext (before ++ after) da_out σ
  = (regridder.interp_loop ext before da_out ≫= regridder.interp_loop ext after) σ.
Proof.
  revert da_out σ. induction before as [|item before IH]; intros da_out σ; simpl.
  - reflexivity.
  - rewrite !bind_run.
    destruct (regridder.interp_step ext da_out item σ) as [[l|e] σ1]; [|done].
    by rewrite IH, bind_run.
Qed.

Lemma interp_loop_skip ext before dim new_coord after da_out σ :
  match regridder.interp_loop ext before da_out σ with
  | (Ok l, σ1) => ∃ out, st_heap σ1 !! l = Some (ODataArray out) ∧ dim ∉ da_dims out
  | (Raise _, _) => True
  end →
  regridder.interp_loop ext (before ++ (dim, new_coord) :: after) da_out σ
  = regridder.interp_loop ext (before ++ after) da_out σ.
Proof.
  intros H. rewrite !interp_loop_app, !bind_run.
  destruct (regridder.interp_loop ext before da_out σ) as [[l|e] σ1]; [|done].
  destruct H as (out & Hout & Hdim). simpl.
  by rewrite (bind_ok _ _ _ _ _ (interp_step_skip ext l dim new_coord σ1 out Hout Hdim)).
Qed.

(** C10. A mask whose dimensions differ from the input array's is no error
    of the operation: a warning is logged, the mask is applied all the same,
    and the step returns whenever the masking itself does and raises what
    the masking raises otherwise.  An entry of
    [interp_coord] whose dimension the output array does not have when its
    turn comes changes nothing: the operation runs as if the entry were not
    there, and so in particular for an entry that comes first and names no
    dimension of the input array. *)
Theorem mismatched_mask_and_absent_coordinate ext :
  (∀ da_in da_out mask σ din m m_items out out_items,
     st_heap σ !! da_in = Some (ODataArray din) →
     st_heap σ !! mask = Some (ODataArray m) →
     st_heap σ !! da_attrs m = Some (ODict m_items) →
     st_heap σ !! da_out = Some (ODataArray out) →
     st_heap σ !! da_attrs out = Some (ODict out_items) →
     da_dims m ≠ da_dims din →
     let v := {| da_name := da_name out; da_dims := da_dims out;
                 da_values := da_values out; da_attrs := out_items;
                 da_coords := da_coords out |} in
     let mv := {| da_name := da_name m; da_dims := da_dims m;
                  da_values := da_values m; da_attrs := m_items;
                  da_coords := da_coords m |} in
     let warned :=
       record_event
         (Ev (c_logging_warning (masking (da_dims m) (da_dims din))) None) σ in
     regridder.mask_step ext da_in da_out (Some mask) σ
     = match xr_where ext v mv with
       | Ok r => new_dataarray r (record_event (Ev c_where None) warned)
       | Raise e => (Raise e, record_event (Ev c_where (Some e)) warned)
       end ∧
     (∀ r, xr_where ext v mv = Ok r →
        (regridder.mask_step ext da_in da_out (Some mask) σ).1
        = Ok (S (length (st_heap σ))))) ∧
  (∀ self da_in renormalize apply_mask before dim new_coord after post_method
     post_method_kwargs σ,
     match (regridder.remap ext self da_in renormalize
            ≫= regridder.interp_loop ext before) σ with
     | (Ok l, σ1) =>
         ∃ out, st_heap σ1 !! l = Some (ODataArray out) ∧ dim ∉ da_dims out
     | (Raise _, _) => True
     end →
     regridder.regrid_dataarray ext self da_in renormalize apply_mask
       (before ++ (dim, new_coord) :: after) post_method post_method_kwargs σ
     = regridder.regrid_dataarray ext self da_in renormalize apply_mask
         (before ++ after) post_method post_method_kwargs σ) ∧
  (∀ self da_in renormalize apply_mask dim new_coord after post_method
     post_method_kwargs σ din,
     st_heap σ !! da_in = Some (ODataArray din) →
     dim ∉ da_dims din →
     regridder.regrid_dataarray ext self da_in renormalize apply_mask
       ((dim, new_coord) :: after) post_method post_method_kwargs σ
     = regridder.regrid_dataarray ext self da_in renormalize apply_mask
         after post_method post_method_kwargs σ).
Proof.
  assert (∀ self da_in renormalize apply_mask before dim new_coord after
            post_method post_method_kwargs σ,
     match (regridder.remap ext self da_in renormalize
            ≫= regridder.interp_loop ext before) σ with
     | (Ok l, σ1) =>
         ∃ out, st_heap σ1 !! l = Some (ODataArray out) ∧ dim ∉ da_dims out
     | (Raise _, _) => True
     end →
     regridder.regrid_dataarray ext self da_in renormalize apply_mask
       (before ++ (dim, new_coord) :: after) post_method post_method_kwargs σ
     = regridder.regrid_dataarray ext self da_in renormalize apply_mask
         (before ++ after) post_method post_method_kwargs σ) as Hskip.
  { intros self da_in renormalize apply_mask before dim new_coord after
      post_method post_method_kwargs σ H.
    unfold regridder.regrid_dataarray. rewrite bind_run in H. rewrite !bind_run.
    destruct (regridder.remap ext self da_in renormalize σ) as [[l|e] σ1]; [|done].
    by rewrite !bind_run, interp_loop_skip. }
  split_and!; [|exact Hskip|].
  - intros da_in da_out mask σ din m m_items out out_items Hin Hm Hmi Hout Houti
      Hdims v mv warned.
    assert (regridder.mask_step ext da_in da_out (Some mask) σ
            = match xr_where ext v mv with
              | Ok r => new_dataarray r (record_event (Ev c_where None) warned)
              | Raise e => (Raise e, record_event (Ev c_where (Some e)) warned)
              end) as Hrun.
    { unfold regridder.mask_step, by_value. run_unfold. cbn.
      rewrite Hm. cbn. rewrite Hin. cbn.
      rewrite bool_decide_eq_true_2 by done. cbn.
      rewrite Hout. cbn. rewrite Houti. cbn. rewrite Hm. cbn. rewrite Hmi. cbn.
      fold v mv. by destruct (xr_where ext v mv). }
    split; [done|]. intros r Hr. rewrite Hrun, Hr.
    by rewrite new_dataarray_returns.
  - intros self da_in renormalize apply_mask dim new_coord after post_method
      post_method_kwargs σ din Hin Hdim.
    apply (Hskip self da_in renormalize apply_mask [] dim new_coord after).
    simpl. rewrite bind_run.
    destruct (regridder.remap ext self da_in renormalize σ) as [[l|e] σ1] eqn:H;
      [|done].
    apply remap_inv in H
      as (din' & ? & ? & ? & ? & ? & ? & ? & Hin' & _ & _ & _ & _ & _ & _ & -> & ->).
    assert (din' = din) as -> by congruence.
    eexists. split;
      [ simpl; rewrite lookup_app_r, Nat.sub_succ_l, Nat.sub_diag by lia;
        reflexivity
      | exact Hdim ].
Qed.

(** * The small installation at work *)

Lemma not_in_by_decision {A} `{EqDecision A} (x : A) (l : list A) :
  bool_decide (x ∈ l) = false → x ∉ l.
Proof. intros H. by apply bool_decide_eq_false in H. Qed.

(** A first construction generates the grid file; a second one on the state
    the first has left only reads it. *)
Example grid_ref_constructed_twice :
  let first := grid_ref.__init__ demo.config demo.ext "T62" None demo.empty in
  let second := grid_ref.__init__ demo.config demo.ext "T62" None first.2 in
  new_events demo.empty first.2
  = [Ev (c_logging_info (generating_grid_file "grids/T62.nc")) None;
     Ev (c_gen_grid_method "latlon" "T62" "grids/T62.nc" false) None;
     Ev (c_open_dataset "grids/T62.nc") None;
     Ev (c_ESMF_Grid "grids/T62.nc") None;
     Ev c_add_item None;
     Ev c_mask_assign None] ∧
  new_events first.2 second.2
  = [Ev (c_open_dataset "grids/T62.nc") None;
     Ev (c_ESMF_Grid "grids/T62.nc") None;
     Ev c_add_item None;
     Ev c_mask_assign None] ∧
  st_fs first.2 !! "grids/T62.nc" = Some "220110" ∧
  st_fs second.2 !! "grids/T62.nc" = Some "220110" ∧
  first.1 = Ok 0%nat ∧ second.1 = Ok 1%nat.
Proof. vm_compute. done. Qed.

Lemma grid_file_generated_once_witness :
  let σ1 := (grid_ref.__init__ demo.config demo.ext "T62" None demo.empty).2 in
  let again := grid_ref.__init__ demo.config demo.ext "T62" None σ1 in
  st_fs again.2 = st_fs σ1 ∧
  Forall (λ ev, is_grid_generation ev = false) (new_events σ1 again.2).
Proof.
  apply (grid_file_generated_once demo.config demo.ext "T62").
  vm_compute. eexists. reflexivity.
Defined.

(** Regridding the field of the demonstration: the first destination cell
    has no source value to draw on and is missing, the others are the means
    of the source values that are there. *)
Example regridding_the_field :
  let run := regridder.__call__ demo.ext 2%nat 4%nat demo.no_args demo.ready in
  run.1 = Ok 8%nat ∧
  da_values <$> returned_array run
  = Some {| nd_shape := [1; 2; 2]%nat; nd_data := [nan; 3; 3.5; 4]%float |} ∧
  da_dims <$> returned_array run = Some ["time"; "lat"; "lon"] ∧
  (λ a, dom (da_coords a)) <$> returned_array run = Some {[ "time" ]} ∧
  st_heap run.2 !! 7%nat
  = Some (ODict {[ "units" := VStr "degC"; "regrid_method" := VStr "bilinear" ]}) ∧
  new_events demo.ready run.2 = [Ev c_apply_weights None; Ev c_apply_weights None].
Proof. vm_compute. done. Qed.

(** The same with a mask under other dimension names, an entry of
    [interp_coord] for a dimension the field does not have, and a
    [post_method]. *)
Example regridding_with_mask :
  let run := regridder.__call__ demo.ext 2%nat 4%nat demo.masked_args demo.ready in
  run.1 = Ok 10%nat ∧
  da_values <$> returned_array run
  = Some {| nd_shape := [1; 2; 2]%nat; nd_data := [nan; 3; nan; 4]%float |} ∧
  new_events demo.ready run.2
  = [Ev c_apply_weights None; Ev c_apply_weights None;
     Ev (c_logging_warning (masking ["t"; "y"; "x"] ["time"; "lat"; "lon"])) None;
     Ev c_where None; Ev c_post_method None].
Proof. vm_compute. done. Qed.

Lemma regridding_mutates_nothing_witness :
  let run := regridder.__call__ demo.ext 2%nat 4%nat demo.masked_args demo.ready in
  (∀ l o, st_heap demo.ready !! l = Some o → st_heap run.2 !! l = Some o) ∧
  st_fs run.2 = st_fs demo.ready ∧
  (∀ l, run.1 = Ok l →
        (length (st_heap demo.ready) ≤ l)%nat ∧ st_heap demo.ready !! l = None).
Proof.
  apply (regridding_mutates_nothing demo.ext 2%nat 4%nat demo.masked_args demo.ready).
  - simpl. intros l kwargs h Hl Hh. simpl. split; [reflexivity|].
    intros l' [= <-]. exact Hl.
  - right. reflexivity.
Defined.

Lemma mismatched_mask_and_absent_coordinate_witness :
  (regridder.mask_step demo.ext 4%nat 4%nat (Some 6%nat) demo.ready).1 = Ok 8%nat ∧
  regridder.regrid_dataarray demo.ext 2%nat 4%nat true None
    [("depth", [0; 10]%float)] None ∅ demo.ready
  = regridder.regrid_dataarray demo.ext 2%nat 4%nat true None [] None ∅ demo.ready.
Proof.
  split.
  - eapply (proj2 (proj1 (mismatched_mask_and_absent_coordinate demo.ext)
                     4%nat 4%nat 6%nat demo.ready demo.sst demo.land ∅ demo.sst
                     {[ "units" := VStr "degC" ]}
                     ltac:(vm_compute; reflexivity) ltac:(vm_compute; reflexivity)
                     ltac:(vm_compute; reflexivity) ltac:(vm_compute; reflexivity)
                     ltac:(vm_compute; reflexivity) ltac:(discriminate))).
    vm_compute. reflexivity.
  - apply (proj2 (proj2 (mismatched_mask_and_absent_coordinate demo.ext))
             2%nat 4%nat true None "depth" [0; 10]%float [] None ∅ demo.ready
             demo.sst).
    + vm_compute. reflexivity.
    + apply not_in_by_decision. vm_compute. reflexivity.
Defined.

(** A mask whose dimensions differ from the input's and whose size does not
    fit: the warning is logged, the masking raises, and so does the
    operation. *)
Lemma mismatched_mask_raises :
  let run := regridder.regrid_dataarray demo.ext 2%nat 4%nat true (Some 10%nat)
               [] None ∅ demo.crowded in
  st_heap demo.crowded !! 4%nat = Some (ODataArray demo.sst) ∧
  st_heap demo.crowded !! 10%nat = Some (ODataArray demo.strip) ∧
  bool_decide (da_dims demo.strip = da_dims demo.sst) = false ∧
  run.1 = Raise (ValueError "cannot align") ∧
  new_events demo.crowded run.2
  = [Ev c_apply_weights None; Ev c_apply_weights None;
     Ev (c_logging_warning (masking ["lat"] ["time"; "lat"; "lon"])) None;
     Ev c_where (Some (ValueError "cannot align"))].
Proof. vm_compute. done. Qed.

(** The renormalised field of the demonstration is built, with the values
    of the example above. *)
Lemma renormalized_regridding_witness :
  ∃ da_out σ' out,
    regridder.remap demo.ext 2%nat 4%nat true demo.ready = (Ok da_out, σ') ∧
    st_heap σ' !! da_out = Some (ODataArray out) ∧
    da_values out
    = {| nd_shape := [1; 2; 2]%nat; nd_data := [nan; 3; 3.5; 4]%float |} ∧
    new_events demo.ready σ' = [Ev c_apply_weights None; Ev c_apply_weights None].
Proof.
  destruct (proj2 (proj2 (renormalized_regridding demo.ext 2%nat 4%nat demo.ready))
              demo.sst {[ "units" := VStr "degC" ]} _ _ 2 2
              {| nd_shape := [1; 2; 2]%nat; nd_data := [0; 1.5; 3.5; 2]%float |}
              {| nd_shape := [1; 2; 2]%nat; nd_data := [0; 0.5; 1; 0.5]%float |}
              ltac:(vm_compute; reflexivity) ltac:(vm_compute; reflexivity)
              ltac:(vm_compute; reflexivity) ltac:(vm_compute; reflexivity)
              ltac:(vm_compute; reflexivity) ltac:(vm_compute; reflexivity)
              ltac:(vm_compute; reflexivity) ltac:(vm_compute; reflexivity)
              ltac:(reflexivity) ltac:(reflexivity)
              ltac:(apply (bool_decide_unpack _); vm_compute; exact I))
    as (da_out & σ' & out & Hrun & Hout & Hvalues & Hevents).
  exists da_out, σ', out. split_and!; [done | done | | done].
  rewrite Hvalues. vm_compute. reflexivity.
Defined.



(** * Beyond the cache guards *)

(** ** The names of the cache files *)

Lemma list_ascii_of_append (s t : string) :
  list_ascii_of_string (s +:+ t)
  = list_ascii_of_string s ++ list_ascii_of_string t.
Proof. induction s as [|a s IH]; simpl; [done | by rewrite IH]. Qed.

Lemma append_assoc (s t u : string) : (s +:+ t) +:+ u = s +:+ t +:+ u.
Proof.
  induction s as [|a s IH]; [done|].
  change (String a ((s +:+ t) +:+ u) = String a (s +:+ t +:+ u)). by f_equal.
Qed.

Lemma append_inj_r (s1 s2 t : string) : s1 +:+ t = s2 +:+ t → s1 = s2.
Proof.
  intros H. apply (f_equal list_ascii_of_string) in H.
  rewrite !list_ascii_of_append in H. apply app_inv_tail in H.
  rewrite <- (string_of_list_ascii_of_string s1),
          <- (string_of_list_ascii_of_string s2).
  by rewrite H.
Qed.

(** X1. Two grids share a grid file exactly when they share their name. *)
Theorem scrip_grid_file_of_inj config name1 name2 :
  grid_ref.scrip_grid_file_of config name1 = grid_ref.scrip_grid_file_of config name2
  ↔ name1 = name2.
Proof.
  split; [|by intros ->]. unfold grid_ref.scrip_grid_file_of. intros H.
  apply String.app_inj in H. apply (String.app_inj "/") in H.
  by apply append_inj_r in H.
Qed.

(** X2. The name of the weight file does not tell the three parts of its key
    apart: a grid name that contains [_to_], or a method that contains an
    underscore, gives two different keys one file, and the regridder of the
    second key then takes the weights the first has left. *)
Theorem weight_file_of_collides config ext a b c method :
  regridder.weight_file_of config (a +:+ "_to_" +:+ b) c method
  = regridder.weight_file_of config a (b +:+ "_to_" +:+ c) method ∧
  regridder.weight_file_of config a (b +:+ "_" +:+ c) method
  = regridder.weight_file_of config a b (c +:+ "_" +:+ method) ∧
  ∀ gs gd σ,
    is_Some (st_fs σ !! regridder.weight_file_of config (a +:+ "_to_" +:+ b) c method) →
    regridder._gen_weights config ext a (b +:+ "_to_" +:+ c) method false gs gd σ
    = (Ok (regridder.weight_file_of config (a +:+ "_to_" +:+ b) c method), σ).
Proof.
  assert (regridder.weight_file_of config (a +:+ "_to_" +:+ b) c method
          = regridder.weight_file_of config a (b +:+ "_to_" +:+ c) method) as Hsame.
  { unfold regridder.weight_file_of. by rewrite !append_assoc. }
  split_and!; [done| |].
  - unfold regridder.weight_file_of. by rewrite !append_assoc.
  - intros gs gd σ Hp. rewrite Hsame in *.
    unfold regridder._gen_weights. rewrite bind_run. unfold os_path_exists.
    by rewrite bool_decide_eq_true_2.
Qed.

Lemma weight_file_of_collides_witness :
  regridder._gen_weights demo.config demo.ext "T62" "gx1_to_gx3" "bilinear" false
    0%nat 1%nat
    {| st_fs := {[ "weights/T62_to_gx1_to_gx3_bilinear.nc" := "bilinear" ]};
       st_heap := []; st_log := [] |}
  = (Ok (regridder.weight_file_of demo.config "T62_to_gx1" "gx3" "bilinear"),
     {| st_fs := {[ "weights/T62_to_gx1_to_gx3_bilinear.nc" := "bilinear" ]};
        st_heap := []; st_log := [] |}).
Proof.
  apply (weight_file_of_collides demo.config demo.ext "T62" "gx1" "gx3" "bilinear").
  vm_compute. eexists. reflexivity.
Defined.

(** ** class grid_ref: what can go wrong, and what is built *)

Lemma same_heap_fs_call {A} c (f : gmap string string → Res A * gmap string string) :
  stays same_heap (fs_call c f).
Proof. intros σ. unfold fs_call. by destruct (f _). Qed.
Lemma same_heap_reading {A} c path (parse : string → Res A) :
  stays same_heap (reading c path parse).
Proof. by intros σ. Qed.
#[global] Hint Resolve same_heap_fs_call same_heap_reading : stays.

Lemma gen_grid_file_same_heap config ext name clobber :
  stays same_heap (grid_ref._gen_grid_file config ext name clobber).
Proof. unfold grid_ref._gen_grid_file, logging_info. stays_tac. Qed.

Lemma esmf_grid_from_scrip_same_heap ext path :
  stays same_heap (grid_ref._esmf_grid_from_scrip ext path).
Proof. unfold grid_ref._esmf_grid_from_scrip. stays_tac. Qed.

Lemma esmf_grid_from_scrip_same_fs ext path :
  stays same_fs (grid_ref._esmf_grid_from_scrip ext path).
Proof. unfold grid_ref._esmf_grid_from_scrip. stays_tac. Qed.

Lemma reading_inv {A} c path (parse : string → Res A) σ a σ' :
  reading c path parse σ = (Ok a, σ') →
  ∃ bytes, st_fs σ !! path = Some bytes ∧ parse bytes = Ok a ∧
           σ' = record_event (Ev c None) σ.
Proof.
  unfold reading. destruct (st_fs σ !! path) as [bytes|]; [|by intros [=]].
  intros [= Hp <-]. exists bytes. by rewrite Hp.
Qed.

(** What [_esmf_grid_from_scrip] has found when it returns. *)
Lemma esmf_grid_from_scrip_inv ext path σ ds grid shape σ' :
  grid_ref._esmf_grid_from_scrip ext path σ = (Ok (ds, grid, shape), σ') →
  ∃ bytes g0 g1 imask,
    st_fs σ !! path = Some bytes ∧
    xr_open_dataset ext bytes = Ok ds ∧
    ESMF_Grid ext bytes = Ok g0 ∧
    ds_grid_dims ds = Some shape ∧
    esmf_add_item ext g0 = Ok g1 ∧
    ds_grid_imask ds = Some imask ∧
    esmf_mask_assign ext g1 imask shape = Ok grid.
Proof.
  unfold grid_ref._esmf_grid_from_scrip. intros H.
  apply bind_inv_ok in H as (ds' & ? & (bytes & Hp & Hds & ->)%reading_inv & H).
  apply bind_inv_ok in H as (g0 & ? & (bytes' & Hp' & Hg & ->)%reading_inv & H).
  simpl in Hp'. assert (bytes' = bytes) as -> by congruence.
  apply bind_inv_ok in H as (shape' & σ1 & Hd & H).
  destruct (ds_grid_dims ds') as [v|] eqn:Hdims; [|by inversion Hd].
  injection Hd as -> <-.
  apply bind_inv_ok in H as (g1 & ? & [Ha ->]%pure_call_inv & H).
  apply bind_inv_ok in H as (imask & σ2 & Hi & H).
  destruct (ds_grid_imask ds') as [v|] eqn:Hmask; [|by inversion Hi].
  injection Hi as -> <-.
  apply bind_inv_ok in H as (g2 & ? & [Hm ->]%pure_call_inv & H).
  injection H as -> -> -> _.
  by exists bytes, g0, g1, imask.
Qed.

(** What a construction of a grid reference that returns has built. *)
Lemma grid_ref_init_inv config ext name clobber σ l σ' :
  grid_ref.__init__ config ext name clobber σ = (Ok l, σ') →
  l = length (st_heap σ) ∧
  ∃ bytes ds g0 g1 grid shape imask,
    st_fs σ' !! grid_ref.scrip_grid_file_of config name = Some bytes ∧
    xr_open_dataset ext bytes = Ok ds ∧
    ESMF_Grid ext bytes = Ok g0 ∧
    ds_grid_dims ds = Some shape ∧
    esmf_add_item ext g0 = Ok g1 ∧
    ds_grid_imask ds = Some imask ∧
    esmf_mask_assign ext g1 imask shape = Ok grid ∧
    st_heap σ' = st_heap σ ++
      [OGridRef {| gr_name := name;
                   gr_scrip_grid_file := grid_ref.scrip_grid_file_of config name;
                   gr_ds := ds; gr_grid := grid; gr_shape := shape |}].
Proof.
  unfold grid_ref.__init__. intros H.
  apply bind_inv_ok in H as (p & σa & Hgen & H).
  pose proof (stays_run _ _ _ _ _ (gen_grid_file_same_heap _ _ _ _) Hgen) as Hha.
  apply gen_grid_file_returns in Hgen as ->.
  apply bind_inv_ok in H as ([[ds grid] shape] & σb & Hread & H).
  pose proof (stays_run _ _ _ _ _ (esmf_grid_from_scrip_same_heap _ _) Hread) as Hhb.
  pose proof (stays_run _ _ _ _ _ (esmf_grid_from_scrip_same_fs _ _) Hread) as Hfb.
  apply esmf_grid_from_scrip_inv in Hread
    as (bytes & g0 & g1 & imask & Hp & Hds & Hg & Hd & Ha & Hi & Hm).
  unfold alloc in H. injection H as <- <-. simpl.
  unfold same_heap, same_fs in *. rewrite Hhb, Hha, Hfb.
  split; [done|]. by exists bytes, ds, g0, g1, grid, shape, imask.
Qed.

(** X3. A grid reference that has been constructed holds what the libraries make
    of the grid file as construction leaves it: the dataset
    [xr.open_dataset] returns for it, its [grid_dims] as the shape, and the
    ESMF grid with the file's [grid_imask] assigned to its mask.  The new
    object is the one object added to the store. *)
Theorem grid_ref_constructed config ext name clobber σ l σ' :
  grid_ref.__init__ config ext name clobber σ = (Ok l, σ') →
  l = length (st_heap σ) ∧
  ∃ bytes ds g0 g1 grid shape imask,
    st_fs σ' !! grid_ref.scrip_grid_file_of config name = Some bytes ∧
    xr_open_dataset ext bytes = Ok ds ∧
    ESMF_Grid ext bytes = Ok g0 ∧
    ds_grid_dims ds = Some shape ∧
    esmf_add_item ext g0 = Ok g1 ∧
    ds_grid_imask ds = Some imask ∧
    esmf_mask_assign ext g1 imask shape = Ok grid ∧
    st_heap σ' = st_heap σ ++
      [OGridRef {| gr_name := name;
                   gr_scrip_grid_file := grid_ref.scrip_grid_file_of config name;
                   gr_ds := ds; gr_grid := grid; gr_shape := shape |}].
Proof. apply grid_ref_init_inv. Qed.

Lemma grid_ref_constructed_witness :
  0%nat = length (st_heap demo.empty) ∧
  ∃ bytes ds g0 g1 grid shape imask,
    st_fs (grid_ref.__init__ demo.config demo.ext "gx1" None demo.empty).2
      !! grid_ref.scrip_grid_file_of demo.config "gx1" = Some bytes ∧
    xr_open_dataset demo.ext bytes = Ok ds ∧
    ESMF_Grid demo.ext bytes = Ok g0 ∧
    ds_grid_dims ds = Some shape ∧
    esmf_add_item demo.ext g0 = Ok g1 ∧
    ds_grid_imask ds = Some imask ∧
    esmf_mask_assign demo.ext g1 imask shape = Ok grid ∧
    st_heap (grid_ref.__init__ demo.config demo.ext "gx1" None demo.empty).2
    = st_heap demo.empty ++
      [OGridRef {| gr_name := "gx1";
                   gr_scrip_grid_file := grid_ref.scrip_grid_file_of demo.config "gx1";
                   gr_ds := ds; gr_grid := grid; gr_shape := shape |}].
Proof.
  apply (grid_ref_constructed demo.config demo.ext "gx1" None demo.empty).
  vm_compute. reflexivity.
Defined.

(** X4. A grid that is known but whose generation cannot be called: when the
    table names a routine that [util] does not have, construction raises
    [AttributeError] before anything is logged or written; when the table's
    keyword arguments hold a [clobber] of their own, the call of the routine
    raises [TypeError] after the message has been logged, and the routine
    has not run. *)
Theorem generation_cannot_be_called config ext name clobber info σ :
  known_grids config !! name = Some info →
  st_fs σ !! grid_ref.scrip_grid_file_of config name = None ∨ clobber = Some true →
  let path := grid_ref.scrip_grid_file_of config name in
  (util ext (gi_method info) = None →
     grid_ref.__init__ config ext name clobber σ
     = (Raise (AttributeError (gi_method info)),
        record_event (Ev (c_getattr "util" (gi_method info))
                         (Some (AttributeError (gi_method info)))) σ)) ∧
  (∀ gen v,
     util ext (gi_method info) = Some gen →
     gi_kwargs info !! "clobber" = Some v →
     let e := TypeError "got multiple values for keyword argument 'clobber'" in
     grid_ref.__init__ config ext name clobber σ
     = (Raise e,
        {| st_fs := st_fs σ; st_heap := st_heap σ;
           st_log := st_log σ ++
             [Ev (c_logging_info (generating_grid_file path)) None;
              Ev (c_gen_grid_method (gi_method info) name path
                    (default false clobber)) (Some e)] |})).
Proof.
  intros Hk Hgo path.
  assert (bool_decide (is_Some (st_fs σ !! path)) && negb (default false clobber)
          = false) as Hb.
  { destruct Hgo as [Hp| ->]; [|by rewrite andb_false_r].
    fold path in Hp. rewrite Hp. rewrite bool_decide_eq_false_2; [done|].
    by intros [? [=]]. }
  split.
  - intros Hu. unfold grid_ref.__init__, grid_ref._gen_grid_file. fold path.
    rewrite !bind_run. unfold os_path_exists at 1. by rewrite Hb, Hk, Hu.
  - intros gen v Hu Hkw e. unfold grid_ref.__init__, grid_ref._gen_grid_file.
    fold path. rewrite !bind_run. unfold os_path_exists at 1. rewrite Hb, Hk, Hu.
    rewrite !bind_run. unfold logging_info, pure_call at 1. rewrite Hkw.
    unfold throw, record_event. simpl. by rewrite app_snoc_cons.
Qed.

Lemma generation_cannot_be_called_witness :
  grid_ref.__init__ faulty.config demo.ext "ghost" None demo.empty
  = (Raise (AttributeError "tripolar"),
     record_event (Ev (c_getattr "util" "tripolar")
                      (Some (AttributeError "tripolar"))) demo.empty) ∧
  (grid_ref.__init__ faulty.config demo.ext "twice" (Some true) demo.cached).1
  = Raise (TypeError "got multiple values for keyword argument 'clobber'").
Proof.
  split.
  - apply (generation_cannot_be_called faulty.config demo.ext "ghost" None
             faulty.ghost demo.empty).
    + vm_compute. reflexivity.
    + left. vm_compute. reflexivity.
    + vm_compute. reflexivity.
  - rewrite (proj2 (generation_cannot_be_called faulty.config demo.ext "twice"
               (Some true) faulty.twice demo.cached ltac:(vm_compute; reflexivity)
               ltac:(right; reflexivity))
             demo.latlon (VBool true) ltac:(vm_compute; reflexivity)
             ltac:(vm_compute; reflexivity)).
    reflexivity.
Defined.

(** X5. A grid file without the variables the module reads: with no [grid_dims]
    construction raises [AttributeError] once the dataset and the ESMF grid
    are built; with [grid_dims] but no [grid_imask] it raises after the mask
    item has been added to the grid.  Neither leaves an object behind. *)
Theorem grid_file_without_variables config ext name clobber σ bytes ds g0 :
  st_fs σ !! grid_ref.scrip_grid_file_of config name = Some bytes →
  clobber ≠ Some true →
  xr_open_dataset ext bytes = Ok ds →
  ESMF_Grid ext bytes = Ok g0 →
  let path := grid_ref.scrip_grid_file_of config name in
  let run := grid_ref.__init__ config ext name clobber σ in
  (ds_grid_dims ds = None →
     run.1 = Raise (AttributeError "grid_dims") ∧
     st_heap run.2 = st_heap σ ∧
     new_events σ run.2
     = [Ev (c_open_dataset path) None; Ev (c_ESMF_Grid path) None;
        Ev (c_getattr "Dataset" "grid_dims") (Some (AttributeError "grid_dims"))]) ∧
  (∀ shape g1,
     ds_grid_dims ds = Some shape →
     esmf_add_item ext g0 = Ok g1 →
     ds_grid_imask ds = None →
     run.1 = Raise (AttributeError "grid_imask") ∧
     st_heap run.2 = st_heap σ ∧
     new_events σ run.2
     = [Ev (c_open_dataset path) None; Ev (c_ESMF_Grid path) None;
        Ev c_add_item None;
        Ev (c_getattr "Dataset" "grid_imask") (Some (AttributeError "grid_imask"))]).
Proof.
  intros Hp Hc Hds Hg path run.
  assert (default false clobber = false) as Hd by by destruct clobber as [[]|].
  assert (run = (grid_ref._esmf_grid_from_scrip ext path
     ≫= λ '(ds, grid, shape),
          alloc (OGridRef {| gr_name := name; gr_scrip_grid_file := path;
                             gr_ds := ds; gr_grid := grid;
                             gr_shape := shape |})) σ) as ->.
  { unfold run. by rewrite init_present. }
  subst path. unfold grid_ref._esmf_grid_from_scrip. split.
  - intros Hdims. run_unfold. cbn. rewrite Hp, Hds. cbn. rewrite Hg. cbn.
    rewrite Hdims. cbn. split_and!; [done..|].
    apply new_events_app. simpl. by rewrite !app_snoc_cons.
  - intros shape g1 Hdims Ha Hmask. run_unfold. cbn. rewrite Hp, Hds. cbn.
    rewrite Hg. cbn. rewrite Hdims. cbn. rewrite Ha. cbn. rewrite Hmask. cbn.
    split_and!; [done..|].
    apply new_events_app. simpl. by rewrite !app_snoc_cons.
Qed.

Lemma grid_file_without_variables_witness :
  (grid_ref.__init__ demo.config (faulty.with_dataset faulty.no_variables)
     "T62" None demo.cached).1
  = Raise (AttributeError "grid_dims") ∧
  (grid_ref.__init__ demo.config (faulty.with_dataset faulty.no_mask)
     "T62" None demo.cached).1
  = Raise (AttributeError "grid_imask").
Proof.
  split.
  - apply (grid_file_without_variables demo.config
             (faulty.with_dataset faulty.no_variables) "T62" None demo.cached
             "220110" faulty.no_variables {| eg_scrip := "220110"; eg_mask := None |});
      [vm_compute; reflexivity | discriminate | reflexivity | reflexivity
      | reflexivity].
  - apply (proj2 (grid_file_without_variables demo.config
             (faulty.with_dataset faulty.no_mask) "T62" None demo.cached
             "220110" faulty.no_mask {| eg_scrip := "220110"; eg_mask := None |}
             ltac:(vm_compute; reflexivity) ltac:(discriminate)
             ltac:(reflexivity) ltac:(reflexivity))
           [2; 2] {| eg_scrip := "220110"; eg_mask := Some [] |});
      reflexivity.
Defined.

(** X6. The generation routine is trusted to have written the grid file: its
    result is not looked at, and when it returns without the file being
    there, construction raises the [FileNotFoundError] of
    [xr.open_dataset], after the routine has been called with the grid's
    name, the path, the table's keyword arguments and the flag. *)
Theorem generation_without_file config ext name clobber info gen σ fs' :
  let path := grid_ref.scrip_grid_file_of config name in
  st_fs σ !! path = None ∨ clobber = Some true →
  known_grids config !! name = Some info →
  util ext (gi_method info) = Some gen →
  gi_kwargs info !! "clobber" = None →
  gen name path (gi_kwargs info) (default false clobber) (st_fs σ) = (Ok (), fs') →
  fs' !! path = None →
  grid_ref.__init__ config ext name clobber σ
  = (Raise (FileNotFoundError path),
     {| st_fs := fs'; st_heap := st_heap σ;
        st_log := st_log σ ++
          [Ev (c_logging_info (generating_grid_file path)) None;
           Ev (c_gen_grid_method (gi_method info) name path (default false clobber))
              None;
           Ev (c_open_dataset path) (Some (FileNotFoundError path))] |}).
Proof.
  intros path Hgo Hk Hu Hkw Hgen Hgone.
  assert (bool_decide (is_Some (st_fs σ !! path)) && negb (default false clobber)
          = false) as Hb.
  { destruct Hgo as [Hp| ->]; [|by rewrite andb_false_r].
    rewrite Hp. rewrite bool_decide_eq_false_2; [done|]. by intros [? [=]]. }
  unfold grid_ref.__init__, grid_ref._gen_grid_file, grid_ref._esmf_grid_from_scrip.
  fold path. rewrite !bind_run. unfold os_path_exists at 1. rewrite Hb, Hk, Hu.
  rewrite !bind_run. unfold logging_info, pure_call at 1. rewrite Hkw.
  rewrite !bind_run. unfold fs_call at 1. simpl. rewrite Hgen. simpl.
  rewrite !bind_run. unfold reading. simpl. rewrite Hgone. simpl.
  unfold record_event. simpl. by rewrite !app_snoc_cons.
Qed.

Lemma generation_without_file_witness :
  (grid_ref.__init__ demo.config faulty.with_idle_util "T62" None demo.empty).1
  = Raise (FileNotFoundError "grids/T62.nc").
Proof.
  rewrite (generation_without_file demo.config faulty.with_idle_util "T62" None
             {| gi_method := "latlon"; gi_kwargs := ∅ |} faulty.idle demo.empty ∅).
  - reflexivity.
  - left. vm_compute. reflexivity.
  - vm_compute. reflexivity.
  - reflexivity.
  - vm_compute. reflexivity.
  - reflexivity.
  - vm_compute. reflexivity.
Defined.

Lemma grid_size_inv l σ n σ' :
  regridder.grid_size l σ = (Ok n, σ') →
  σ' = σ ∧ ∃ g n0 n1,
    st_heap σ !! l = Some (OGridRef g) ∧
    gr_shape g !! 0%nat = Some n0 ∧ gr_shape g !! 1%nat = Some n1 ∧
    n = int32 (n0 * n1).
Proof.
  unfold regridder.grid_size. intros H.
  apply bind_inv_ok in H as (g & ? & [-> Hg]%load_grid_ref_inv & H).
  apply bind_inv_ok in H as (n0 & ? & [-> H0]%getitem_inv & H).
  apply bind_inv_ok in H as (g' & ? & [-> Hg']%load_grid_ref_inv & H).
  assert (g' = g) as -> by congruence.
  apply bind_inv_ok in H as (n1 & ? & [-> H1]%getitem_inv & H).
  injection H as <- <-. split; [done|]. by exists g, n0, n1.
Qed.

Lemma gen_weights_same_heap config ext src dst method clobber gs gd :
  stays same_heap (regridder._gen_weights config ext src dst method clobber gs gd).
Proof.
  unfold regridder._gen_weights, regridder.build_weights, os_remove, logging_info.
  stays_tac.
Qed.

Lemma gen_weights_returns config ext src dst method clobber gs gd σ p σ' :
  regridder._gen_weights config ext src dst method clobber gs gd σ = (Ok p, σ') →
  p = regridder.weight_file_of config src dst method.
Proof.
  unfold regridder._gen_weights, regridder.build_weights. intros H.
  apply bind_inv_ok in H as (present & ? & _ & H).
  assert (∀ σ0 σ1, regridder.build_weights ext
            (regridder.weight_file_of config src dst method) method gs gd σ0
            = (Ok p, σ1) → p = regridder.weight_file_of config src dst method)
    as Hbuild.
  { unfold regridder.build_weights. intros σ0 σ1 Hb.
    apply bind_inv_ok in Hb as (? & ? & _ & Hb).
    apply bind_inv_ok in Hb as (? & ? & _ & Hb).
    apply bind_inv_ok in Hb as (? & ? & _ & Hb).
    apply bind_inv_ok in Hb as (? & ? & _ & Hb).
    apply bind_inv_ok in Hb as (? & ? & _ & Hb).
    by injection Hb as <- _. }
  destruct present, clobber.
  - apply bind_inv_ok in H as (? & ? & _ & H).
    apply bind_inv_ok in H as (? & ? & _ & H). by eapply Hbuild.
  - by injection H as <- _.
  - by eapply Hbuild.
  - by eapply Hbuild.
Qed.

(** What a construction of a regridder that returns has built. *)
Lemma regridder_init_inv config ext src dst method clobber σ l σ' :
  regridder.__init__ config ext src dst method clobber σ = (Ok l, σ') →
  ∃ g1 g2 n0 n1 m0 m1 bytes A,
    l = S (S (length (st_heap σ))) ∧
    st_heap σ' = st_heap σ ++
      [OGridRef g1; OGridRef g2;
       ORegridder {| rg_name_grid_src := src; rg_name_grid_dst := dst;
                     rg_grid_ref_src := length (st_heap σ);
                     rg_grid_ref_dst := S (length (st_heap σ));
                     rg_method := method; rg_clobber := clobber;
                     rg_N_src := int32 (n0 * n1); rg_N_dst := int32 (m0 * m1);
                     rg_weight_file := regridder.weight_file_of config src dst method;
                     rg_A := A |}] ∧
    gr_name g1 = src ∧ gr_name g2 = dst ∧
    gr_shape g1 !! 0%nat = Some n0 ∧ gr_shape g1 !! 1%nat = Some n1 ∧
    gr_shape g2 !! 0%nat = Some m0 ∧ gr_shape g2 !! 1%nat = Some m1 ∧
    st_fs σ' !! regridder.weight_file_of config src dst method = Some bytes ∧
    read_weights ext bytes (int32 (n0 * n1)) (int32 (m0 * m1)) = Ok A.
Proof.
  unfold regridder.__init__. intros H.
  apply bind_inv_ok in H as (gs & σ1 & H1 & H).
  apply grid_ref_init_inv in H1
    as (-> & ? & ds1 & ? & ? & grid1 & shape1 & ? & _ & _ & _ & _ & _ & _ & _ & Hh1).
  apply bind_inv_ok in H as (gd & σ2 & H2 & H).
  apply grid_ref_init_inv in H2
    as (-> & ? & ds2 & ? & ? & grid2 & shape2 & ? & _ & _ & _ & _ & _ & _ & _ & Hh2).
  rewrite Hh1 in Hh2. rewrite Hh1, length_app, Nat.add_1_r in *. simpl in *.
  rewrite <- app_assoc in Hh2. simpl in Hh2.
  apply bind_inv_ok in H as (N_src & ? & (-> & g1 & n0 & n1 & Hg1 & Hn0 & Hn1 & ->)%grid_size_inv & H).
  apply bind_inv_ok in H as (N_dst & ? & (-> & g2 & m0 & m1 & Hg2 & Hm0 & Hm1 & ->)%grid_size_inv & H).
  rewrite Hh2 in Hg1, Hg2.
  rewrite lookup_app_r, Nat.sub_diag in Hg1 by lia. injection Hg1 as <-.
  rewrite lookup_app_r, Nat.sub_succ_l, Nat.sub_diag in Hg2 by lia.
  injection Hg2 as <-.
  apply bind_inv_ok in H as (wf & σ4 & Hw & H).
  pose proof (stays_run _ _ _ _ _ (gen_weights_same_heap _ _ _ _ _ _ _ _) Hw) as Hh4.
  apply gen_weights_returns in Hw as ->.
  apply bind_inv_ok in H as (A & ? & (bytes & Hp & HA & ->)%reading_inv & H).
  unfold alloc in H. injection H as <- <-. simpl in *.
  unfold same_heap in Hh4. rewrite Hh4, Hh2.
  eexists _, _, n0, n1, m0, m1, bytes, A.
  split_and!; [|rewrite <- app_assoc; reflexivity|done..].
  rewrite length_app. simpl. lia.
Qed.

(** ** class regridder: what is built *)

Lemma int32_range z : - 2 ^ 31 ≤ int32 z < 2 ^ 31.
Proof. unfold int32. pose proof (Z.mod_pos_bound (z + 2 ^ 31) (2 ^ 32)). lia. Qed.

Lemma int32_fits z : - 2 ^ 31 ≤ z < 2 ^ 31 → int32 z = z.
Proof. intros H. unfold int32. rewrite Z.mod_small; lia. Qed.

(** A grid of 65536 by 65536 cells has size 0. *)
Example grid_size_wraps : int32 (65536 * 65536) = 0.
Proof. reflexivity. Qed.

(** X8. A regridder that has been constructed: the store has gained its two grid
    references and the regridder itself, in this order; the regridder holds
    the two names, the method and the flag it was given, the name of the
    weight file, the products of the first two dimensions of each grid as
    [int32] takes them, and the weights [read_weights] makes of the weight
    file as construction leaves it, for these two sizes.  The sizes are the
    numbers of cells as long as these are below 2^31. *)
Theorem regridder_constructed config ext src dst method clobber σ l σ' :
  regridder.__init__ config ext src dst method clobber σ = (Ok l, σ') →
  ∃ g1 g2 n0 n1 m0 m1 bytes A,
    l = S (S (length (st_heap σ))) ∧
    st_heap σ' = st_heap σ ++
      [OGridRef g1; OGridRef g2;
       ORegridder {| rg_name_grid_src := src; rg_name_grid_dst := dst;
                     rg_grid_ref_src := length (st_heap σ);
                     rg_grid_ref_dst := S (length (st_heap σ));
                     rg_method := method; rg_clobber := clobber;
                     rg_N_src := int32 (n0 * n1); rg_N_dst := int32 (m0 * m1);
                     rg_weight_file := regridder.weight_file_of config src dst method;
                     rg_A := A |}] ∧
    gr_name g1 = src ∧ gr_name g2 = dst ∧
    gr_shape g1 !! 0%nat = Some n0 ∧ gr_shape g1 !! 1%nat = Some n1 ∧
    gr_shape g2 !! 0%nat = Some m0 ∧ gr_shape g2 !! 1%nat = Some m1 ∧
    st_fs σ' !! regridder.weight_file_of config src dst method = Some bytes ∧
    read_weights ext bytes (int32 (n0 * n1)) (int32 (m0 * m1)) = Ok A ∧
    (- 2 ^ 31 ≤ n0 * n1 < 2 ^ 31 → int32 (n0 * n1) = n0 * n1) ∧
    (- 2 ^ 31 ≤ m0 * m1 < 2 ^ 31 → int32 (m0 * m1) = m0 * m1).
Proof.
  intros H. apply regridder_init_inv in H
    as (g1 & g2 & n0 & n1 & m0 & m1 & bytes & A & H).
  exists g1, g2, n0, n1, m0, m1, bytes, A.
  repeat (split; [apply H|]; apply proj2 in H).
  split; [exact H|]. split; apply int32_fits.
Qed.

Lemma regridder_constructed_witness :
  let σ' := (regridder.__init__ demo.config demo.ext "T62" "gx1" "bilinear"
               false demo.empty).2 in
  ∃ g1 g2 n0 n1 m0 m1 bytes A,
    2%nat = S (S (length (st_heap demo.empty))) ∧
    st_heap σ' = st_heap demo.empty ++
      [OGridRef g1; OGridRef g2;
       ORegridder {| rg_name_grid_src := "T62"; rg_name_grid_dst := "gx1";
                     rg_grid_ref_src := length (st_heap demo.empty);
                     rg_grid_ref_dst := S (length (st_heap demo.empty));
                     rg_method := "bilinear"; rg_clobber := false;
                     rg_N_src := int32 (n0 * n1); rg_N_dst := int32 (m0 * m1);
                     rg_weight_file :=
                       regridder.weight_file_of demo.config "T62" "gx1" "bilinear";
                     rg_A := A |}] ∧
    gr_name g1 = "T62" ∧ gr_name g2 = "gx1" ∧
    gr_shape g1 !! 0%nat = Some n0 ∧ gr_shape g1 !! 1%nat = Some n1 ∧
    gr_shape g2 !! 0%nat = Some m0 ∧ gr_shape g2 !! 1%nat = Some m1 ∧
    st_fs σ' !! regridder.weight_file_of demo.config "T62" "gx1" "bilinear"
    = Some bytes ∧
    read_weights demo.ext bytes (int32 (n0 * n1)) (int32 (m0 * m1)) = Ok A ∧
    (- 2 ^ 31 ≤ n0 * n1 < 2 ^ 31 → int32 (n0 * n1) = n0 * n1) ∧
    (- 2 ^ 31 ≤ m0 * m1 < 2 ^ 31 → int32 (m0 * m1) = m0 * m1).
Proof.
  apply (regridder_constructed demo.config demo.ext "T62" "gx1" "bilinear" false
           demo.empty 2%nat).
  vm_compute. reflexivity.
Defined.

(** X9. On a regridder that has been constructed, and in any later state that
    has only added objects, applying the weights comes down to the library
    call: the attribute and index accesses before it cannot fail, the output
    sizes handed over are the second and the first dimension of the
    destination grid, and their product as [int32] takes it is the [N_dst]
    the weights were read with. *)
Theorem constructed_regridder_applies_weights config ext src dst method clobber
    σ l σ' :
  regridder.__init__ config ext src dst method clobber σ = (Ok l, σ') →
  ∃ rg gd Ny_out Nx_out,
    st_heap σ' !! l = Some (ORegridder rg) ∧
    st_heap σ' !! rg_grid_ref_dst rg = Some (OGridRef gd) ∧
    gr_shape gd !! 1%nat = Some Ny_out ∧
    gr_shape gd !! 0%nat = Some Nx_out ∧
    rg_N_dst rg = int32 (Nx_out * Ny_out) ∧
    ∀ data σ'',
      st_heap σ' `prefix_of` st_heap σ'' →
      regridder.apply_weights_to ext l data σ''
      = pure_call c_apply_weights
          (apply_weights ext (rg_A rg) data Ny_out Nx_out) σ''.
Proof.
  intros H. apply regridder_init_inv in H
    as (g1 & g2 & n0 & n1 & m0 & m1 & bytes & A & -> & Hh & _ & _ & _ & _ & Hm0
        & Hm1 & _ & _).
  eexists _, g2, m1, m0.
  assert (∀ h : list Obj, st_heap σ' `prefix_of` h →
    h !! S (S (length (st_heap σ))) = st_heap σ' !! S (S (length (st_heap σ))) ∧
    h !! S (length (st_heap σ)) = st_heap σ' !! S (length (st_heap σ))) as Hlater.
  { intros h [k ->]. rewrite !lookup_app_l; [done|..];
      rewrite Hh, length_app; simpl; lia. }
  assert (st_heap σ' !! S (S (length (st_heap σ))) = Some (ORegridder
            {| rg_name_grid_src := src; rg_name_grid_dst := dst;
               rg_grid_ref_src := length (st_heap σ);
               rg_grid_ref_dst := S (length (st_heap σ));
               rg_method := method; rg_clobber := clobber;
               rg_N_src := int32 (n0 * n1); rg_N_dst := int32 (m0 * m1);
               rg_weight_file := regridder.weight_file_of config src dst method;
               rg_A := A |})) as Hself.
  { rewrite Hh, lookup_app_r by lia.
    by replace (S (S (length (st_heap σ))) - length (st_heap σ))%nat with 2%nat
      by lia. }
  assert (st_heap σ' !! S (length (st_heap σ)) = Some (OGridRef g2)) as Hdst.
  { rewrite Hh, lookup_app_r by lia.
    by replace (S (length (st_heap σ)) - length (st_heap σ))%nat with 1%nat by lia. }
  split_and!; [exact Hself | exact Hdst | done | done | done |].
  intros data σ'' Hpre. destruct (Hlater _ Hpre) as [Hl2 Hl1].
  rewrite Hself in Hl2. rewrite Hdst in Hl1. unfold regridder.apply_weights_to.
  rewrite (bind_ok _ _ _ _ _ (load_regridder_ok "A" _ _ _ Hl2)).
  rewrite (bind_ok _ _ _ _ _ (load_regridder_ok "grid_ref_dst" _ _ _ Hl2)).
  cbn [rg_grid_ref_dst].
  rewrite (bind_ok _ _ _ _ _ (load_grid_ref_ok "shape" _ _ _ Hl1)).
  rewrite (bind_ok _ _ _ _ _ (getitem_ok _ _ _ _ Hm1)).
  rewrite (bind_ok _ _ _ _ _ (load_regridder_ok "grid_ref_dst" _ _ _ Hl2)).
  cbn [rg_grid_ref_dst].
  rewrite (bind_ok _ _ _ _ _ (load_grid_ref_ok "shape" _ _ _ Hl1)).
  rewrite (bind_ok _ _ _ _ _ (getitem_ok _ _ _ _ Hm0)).
  reflexivity.
Qed.

Lemma constructed_regridder_applies_weights_witness :
  ∃ rg gd Ny_out Nx_out,
    st_heap demo.constructed !! 2%nat = Some (ORegridder rg) ∧
    st_heap demo.constructed !! rg_grid_ref_dst rg = Some (OGridRef gd) ∧
    gr_shape gd !! 1%nat = Some Ny_out ∧
    gr_shape gd !! 0%nat = Some Nx_out ∧
    rg_N_dst rg = int32 (Nx_out * Ny_out) ∧
    ∀ data σ'',
      st_heap demo.constructed `prefix_of` st_heap σ'' →
      regridder.apply_weights_to demo.ext 2%nat data σ''
      = pure_call c_apply_weights
          (apply_weights demo.ext (rg_A rg) data Ny_out Nx_out) σ''.
Proof.
  apply (constructed_regridder_applies_weights demo.config demo.ext "T62" "gx1"
           "bilinear" false demo.empty 2%nat demo.constructed).
  vm_compute. reflexivity.
Defined.

(** X10. A grid with fewer than two dimensions is found out only by the
    regridder: [shape[1]] raises [IndexError] once both grid references are
    built, and before any weight is looked for. *)
Theorem grid_with_one_dimension config ext src dst method clobber σ gs σ1 gd σ2 g :
  grid_ref.__init__ config ext src None σ = (Ok gs, σ1) →
  grid_ref.__init__ config ext dst None σ1 = (Ok gd, σ2) →
  st_heap σ2 !! gs = Some (OGridRef g) →
  length (gr_shape g) = 1%nat →
  regridder.__init__ config ext src dst method clobber σ
  = (Raise (IndexError "index out of bounds"),
     record_event (Ev (c_getitem 1) (Some (IndexError "index out of bounds"))) σ2).
Proof.
  intros H1 H2 Hg Hlen. unfold regridder.__init__.
  rewrite (bind_ok _ _ _ _ _ H1), (bind_ok _ _ _ _ _ H2).
  unfold regridder.grid_size. run_unfold. cbn. rewrite Hg. cbn.
  destruct (gr_shape g) as [|n0 [|n1 rest]] eqn:Hs; simpl in Hlen; try lia.
  cbn. rewrite Hg. cbn. rewrite Hs. reflexivity.
Qed.

Lemma grid_with_one_dimension_witness :
  (regridder.__init__ demo.config (faulty.with_dataset faulty.one_dimension)
     "T62" "gx1" "bilinear" false demo.cached).1
  = Raise (IndexError "index out of bounds").
Proof.
  set (ext := faulty.with_dataset faulty.one_dimension).
  pose (r1 := grid_ref.__init__ demo.config ext "T62" None demo.cached).
  pose (r2 := grid_ref.__init__ demo.config ext "gx1" None r1.2).
  rewrite (grid_with_one_dimension demo.config ext "T62" "gx1" "bilinear" false
             demo.cached 0%nat r1.2 1%nat r2.2
             {| gr_name := "T62"; gr_scrip_grid_file := "grids/T62.nc";
                gr_ds := faulty.one_dimension;
                gr_grid := {| eg_scrip := "220110"; eg_mask := Some [1; 1; 1; 1] |};
                gr_shape := [4] |}).
  - reflexivity.
  - vm_compute. reflexivity.
  - vm_compute. reflexivity.
  - vm_compute. reflexivity.
  - reflexivity.
Defined.

(** ** class regridder: the cache of weights *)

Lemma gen_weights_present config ext src dst method gs gd σ :
  is_Some (st_fs σ !! regridder.weight_file_of config src dst method) →
  regridder._gen_weights config ext src dst method false gs gd σ
  = (Ok (regridder.weight_file_of config src dst method), σ).
Proof.
  intros H. unfold regridder._gen_weights. rewrite bind_run.
  unfold os_path_exists. by rewrite bool_decide_eq_true_2.
Qed.

Lemma grid_ref_init_reads config ext name σ :
  is_Some (st_fs σ !! grid_ref.scrip_grid_file_of config name) →
  same_fs σ (grid_ref.__init__ config ext name None σ).2 ∧
  logs (λ ev, may_write ev = false) σ (grid_ref.__init__ config ext name None σ).2.
Proof.
  intros H. rewrite init_present by done. split.
  - clear H. revert σ.
    change (stays same_fs
      (grid_ref._esmf_grid_from_scrip ext (grid_ref.scrip_grid_file_of config name)
       ≫= λ '(ds, grid, shape),
            alloc (OGridRef {| gr_name := name;
                     gr_scrip_grid_file := grid_ref.scrip_grid_file_of config name;
                     gr_ds := ds; gr_grid := grid; gr_shape := shape |}))).
    unfold grid_ref._esmf_grid_from_scrip. stays_tac.
  - clear H. revert σ.
    change (stays (logs (λ ev, may_write ev = false))
      (grid_ref._esmf_grid_from_scrip ext (grid_ref.scrip_grid_file_of config name)
       ≫= λ '(ds, grid, shape),
            alloc (OGridRef {| gr_name := name;
                     gr_scrip_grid_file := grid_ref.scrip_grid_file_of config name;
                     gr_ds := ds; gr_grid := grid; gr_shape := shape |}))).
    unfold grid_ref._esmf_grid_from_scrip. stays_tac.
Qed.

Lemma grid_size_reads l :
  stays same_fs (regridder.grid_size l) ∧
  stays (logs (λ ev, may_write ev = false)) (regridder.grid_size l).
Proof. unfold regridder.grid_size. split; stays_tac. Qed.

(** X11. A regridder whose two grid files and whose weight file are in place,
    constructed without the overwrite flag, only reads: the file system is
    left as it was and no call is made that could write or remove a file,
    whether the construction returns or raises. *)
Theorem cached_regridder_only_reads config ext src dst method σ :
  is_Some (st_fs σ !! grid_ref.scrip_grid_file_of config src) →
  is_Some (st_fs σ !! grid_ref.scrip_grid_file_of config dst) →
  is_Some (st_fs σ !! regridder.weight_file_of config src dst method) →
  let run := regridder.__init__ config ext src dst method false σ in
  st_fs run.2 = st_fs σ ∧
  Forall (λ ev, may_write ev = false) (new_events σ run.2).
Proof.
  intros Hsrc Hdst Hw run.
  cut (same_fs σ run.2 ∧ logs (λ ev, may_write ev = false) σ run.2).
  { intros [? ?]. split; [done | by apply logs_new_events]. }
  subst run. unfold regridder.__init__.
  destruct (grid_ref_init_reads config ext src σ Hsrc) as [Hf1 Hl1].
  rewrite bind_run.
  destruct (grid_ref.__init__ config ext src None σ) as [[gs|e] σ1]; [|done].
  simpl in Hf1, Hl1. unfold same_fs in Hf1. rewrite <- Hf1 in Hdst, Hw.
  destruct (grid_ref_init_reads config ext dst σ1 Hdst) as [Hf2 Hl2].
  rewrite bind_run.
  destruct (grid_ref.__init__ config ext dst None σ1) as [[gd|e] σ2];
    [|split; [by etrans | by etrans]].
  simpl in Hf2, Hl2. unfold same_fs in Hf2. rewrite <- Hf2 in Hw.
  assert (same_fs σ σ2 ∧ logs (λ ev, may_write ev = false) σ σ2) as [Hf Hl].
  { split; [by etrans | by etrans]. }
  clear Hf1 Hl1 Hf2 Hl2 Hsrc Hdst.
  rewrite bind_run. destruct (grid_size_reads gs) as [Hfa Hla].
  specialize (Hfa σ2). specialize (Hla σ2).
  destruct (regridder.grid_size gs σ2) as [[N_src|e] σ3]; simpl in Hfa, Hla;
    [|split; by etrans].
  unfold same_fs in Hfa. rewrite <- Hfa in Hw.
  rewrite bind_run. destruct (grid_size_reads gd) as [Hfb Hlb].
  specialize (Hfb σ3). specialize (Hlb σ3).
  destruct (regridder.grid_size gd σ3) as [[N_dst|e] σ4]; simpl in Hfb, Hlb;
    [|split; etrans; [exact Hf| by etrans |exact Hl| by etrans]].
  unfold same_fs in Hfb. rewrite <- Hfb in Hw.
  assert (same_fs σ σ4 ∧ logs (λ ev, may_write ev = false) σ σ4) as [Hf' Hl'].
  { split; etrans; [exact Hf| by etrans |exact Hl| by etrans]. }
  rewrite (bind_ok _ _ _ _ _ (gen_weights_present config ext src dst method gs gd σ4 Hw)).
  split.
  - etrans; [exact Hf'|]. generalize σ4.
    change (stays same_fs
      (reading (c_read_weights (regridder.weight_file_of config src dst method))
               (regridder.weight_file_of config src dst method)
               (λ bytes, read_weights ext bytes N_src N_dst) ≫= λ A,
       alloc (ORegridder {| rg_name_grid_src := src; rg_name_grid_dst := dst;
                            rg_grid_ref_src := gs; rg_grid_ref_dst := gd;
                            rg_method := method; rg_clobber := false;
                            rg_N_src := N_src; rg_N_dst := N_dst;
                            rg_weight_file := regridder.weight_file_of config src dst method;
                            rg_A := A |}))).
    stays_tac.
  - etrans; [exact Hl'|]. generalize σ4.
    change (stays (logs (λ ev, may_write ev = false))
      (reading (c_read_weights (regridder.weight_file_of config src dst method))
               (regridder.weight_file_of config src dst method)
               (λ bytes, read_weights ext bytes N_src N_dst) ≫= λ A,
       alloc (ORegridder {| rg_name_grid_src := src; rg_name_grid_dst := dst;
                            rg_grid_ref_src := gs; rg_grid_ref_dst := gd;
                            rg_method := method; rg_clobber := false;
                            rg_N_src := N_src; rg_N_dst := N_dst;
                            rg_weight_file := regridder.weight_file_of config src dst method;
                            rg_A := A |}))).
    stays_tac.
Qed.

Lemma cached_regridder_only_reads_witness :
  let run := regridder.__init__ demo.config demo.ext "T62" "gx1" "bilinear" false
               demo.cached in
  st_fs run.2 = st_fs demo.cached ∧
  Forall (λ ev, may_write ev = false) (new_events demo.cached run.2).
Proof.
  apply (cached_regridder_only_reads demo.config demo.ext "T62" "gx1" "bilinear"
           demo.cached).
  - vm_compute. eexists. reflexivity.
  - vm_compute. eexists. reflexivity.
  - vm_compute. eexists. reflexivity.
Defined.

Lemma stays_logs_mono (P Q : event → Prop) {A} (m : M A) :
  (∀ ev, Q ev → P ev) → stays (logs Q) m → stays (logs P) m.
Proof.
  intros HPQ Hm σ. destruct (Hm σ) as (evs & Hlog & HQ). exists evs.
  split; [done|]. by eapply Forall_impl.
Qed.

Lemma build_weights_removes_nothing ext weight_file method gs gd :
  stays (logs (λ ev, removed_path ev = None))
        (regridder.build_weights ext weight_file method gs gd).
Proof. unfold regridder.build_weights, logging_info. stays_tac. Qed.

Lemma grid_ref_init_removes_nothing config ext name clobber :
  stays (logs (λ ev, removed_path ev = None))
        (grid_ref.__init__ config ext name clobber).
Proof.
  unfold grid_ref.__init__, grid_ref._gen_grid_file,
    grid_ref._esmf_grid_from_scrip, logging_info.
  stays_tac.
Qed.

Lemma gen_weights_removes_weight_file config ext src dst method clobber gs gd :
  stays (logs (λ ev, ∀ path, removed_path ev = Some path →
                     path = regridder.weight_file_of config src dst method ∧
                     clobber = true))
        (regridder._gen_weights config ext src dst method clobber gs gd).
Proof.
  assert (∀ ev, removed_path ev = None →
            ∀ path, removed_path ev = Some path →
                    path = regridder.weight_file_of config src dst method ∧
                    clobber = true) as Hnone.
  { intros ev -> path [=]. }
  unfold regridder._gen_weights.
  apply stays_bind; [apply _ | apply stays_os_path_exists; apply _ | intros present].
  destruct present, clobber.
  - apply stays_bind; [apply _ | |intros _].
    { apply logs_pure_call. by intros path [=]. }
    apply stays_bind; [apply _ | |intros _].
    { apply logs_fs_call. by intros o path [= <-]. }
    eapply stays_logs_mono; [exact Hnone | apply build_weights_removes_nothing].
  - apply stays_ret. apply _.
  - eapply stays_logs_mono; [exact Hnone | apply build_weights_removes_nothing].
  - eapply stays_logs_mono; [exact Hnone | apply build_weights_removes_nothing].
Qed.

(** X12. What the constructors remove.  The only file a construction of a
    regridder calls [os.remove] on is its weight file, and only when the
    overwrite flag is set; the construction of a grid reference removes
    nothing, with or without its flag.  When [_gen_weights] finds no weight
    file, the flag makes no difference: nothing is removed and the weights
    are built. *)
Theorem weight_file_removed_only_if_there config ext src dst method σ :
  (∀ clobber,
     Forall (λ ev, ∀ path, removed_path ev = Some path →
                   path = regridder.weight_file_of config src dst method ∧
                   clobber = true)
       (new_events σ (regridder.__init__ config ext src dst method clobber σ).2)) ∧
  (∀ name clobber,
     Forall (λ ev, removed_path ev = None)
       (new_events σ (grid_ref.__init__ config ext name clobber σ).2)) ∧
  (∀ clobber gs gd σ',
     st_fs σ' !! regridder.weight_file_of config src dst method = None →
     regridder._gen_weights config ext src dst method clobber gs gd σ'
     = regridder.build_weights ext (regridder.weight_file_of config src dst method)
         method gs gd σ' ∧
     Forall (λ ev, removed_path ev = None)
       (new_events σ'
          (regridder._gen_weights config ext src dst method clobber gs gd σ').2)).
Proof.
  split_and!.
  - intros clobber. apply logs_new_events. revert σ.
    change (stays (logs (λ ev, ∀ path, removed_path ev = Some path →
                     path = regridder.weight_file_of config src dst method ∧
                     clobber = true))
                  (regridder.__init__ config ext src dst method clobber)).
    assert (∀ {A} (m : M A),
              stays (logs (λ ev, removed_path ev = None)) m →
              stays (logs (λ ev, ∀ path, removed_path ev = Some path →
                     path = regridder.weight_file_of config src dst method ∧
                     clobber = true)) m) as Hnone.
    { intros A m. apply stays_logs_mono. by intros ev -> path [=]. }
    unfold regridder.__init__.
    apply stays_bind; [apply _| |intros gs].
    { apply Hnone, grid_ref_init_removes_nothing. }
    apply stays_bind; [apply _| |intros gd].
    { apply Hnone, grid_ref_init_removes_nothing. }
    apply stays_bind; [apply _| |intros N_src].
    { apply Hnone. unfold regridder.grid_size. stays_tac. }
    apply stays_bind; [apply _| |intros N_dst].
    { apply Hnone. unfold regridder.grid_size. stays_tac. }
    apply stays_bind; [apply _| |intros weight_file].
    { apply gen_weights_removes_weight_file. }
    apply Hnone. stays_tac.
  - intros name clobber. apply logs_new_events.
    apply grid_ref_init_removes_nothing.
  - intros clobber gs gd σ' Hp.
    assert (regridder._gen_weights config ext src dst method clobber gs gd σ'
            = regridder.build_weights ext
                (regridder.weight_file_of config src dst method) method gs gd σ')
      as Hbuild.
    { unfold regridder._gen_weights. rewrite bind_run. unfold os_path_exists.
      rewrite Hp. rewrite bool_decide_eq_false_2; [done | by intros [? [=]]]. }
    split; [exact Hbuild|]. rewrite Hbuild. apply logs_new_events.
    apply build_weights_removes_nothing.
Qed.

(** X13. A rebuild that fails costs the weights that were cached: with the
    overwrite flag the weight file is removed before [esmf_regrid_build] is
    called, so when that call raises, the regridder raises the same, nothing
    is finalized, and the files are as the failed call has left them,
    without the old weight file unless the call itself has written one. *)
Theorem failed_rebuild_loses_weights config ext src dst method gs gd σ s d e fs' :
  let weight_file := regridder.weight_file_of config src dst method in
  is_Some (st_fs σ !! weight_file) →
  st_heap σ !! gs = Some (OGridRef s) →
  st_heap σ !! gd = Some (OGridRef d) →
  esmf_regrid_build ext (gr_grid s) (gr_grid d) weight_file method
    (delete weight_file (st_fs σ)) = (Raise e, fs') →
  regridder._gen_weights config ext src dst method true gs gd σ
  = (Raise e,
     {| st_fs := fs'; st_heap := st_heap σ;
        st_log := st_log σ ++
          [Ev (c_logging_info (removing weight_file)) None;
           Ev (c_os_remove weight_file) None;
           Ev (c_logging_info (generating weight_file)) None;
           Ev (c_esmf_regrid_build weight_file method) (Some e)] |}) ∧
  (fs' = delete weight_file (st_fs σ) →
   st_fs (regridder._gen_weights config ext src dst method true gs gd σ).2
     !! weight_file = None).
Proof.
  intros weight_file [bytes Hp] Hs Hd Hbuild.
  assert (regridder._gen_weights config ext src dst method true gs gd σ
          = (Raise e,
             {| st_fs := fs'; st_heap := st_heap σ;
                st_log := st_log σ ++
                  [Ev (c_logging_info (removing weight_file)) None;
                   Ev (c_os_remove weight_file) None;
                   Ev (c_logging_info (generating weight_file)) None;
                   Ev (c_esmf_regrid_build weight_file method) (Some e)] |})) as Hrun.
  { unfold regridder._gen_weights. fold weight_file.
    rewrite bind_run. unfold os_path_exists at 1.
    rewrite Hp, bool_decide_eq_true_2 by done.
    unfold regridder.build_weights. run_unfold. cbn. rewrite Hp. cbn.
    rewrite Hs. cbn. rewrite Hd. cbn. rewrite Hbuild. cbn.
    by rewrite !app_snoc_cons. }
  split; [exact Hrun|]. intros ->. rewrite Hrun. simpl. apply lookup_delete_eq.
Qed.

Lemma failed_rebuild_loses_weights_witness :
  let run := regridder._gen_weights demo.config faulty.without_regrid_build
               "T62" "gx1" "bilinear" true 0%nat 1%nat demo.constructed in
  run.1 = Raise (LibraryError "ESMF" "regrid build") ∧
  st_fs demo.constructed !! "weights/T62_to_gx1_bilinear.nc" = Some "bilinear" ∧
  st_fs run.2 !! "weights/T62_to_gx1_bilinear.nc" = None.
Proof.
  pose proof (failed_rebuild_loses_weights demo.config faulty.without_regrid_build
                "T62" "gx1" "bilinear" 0%nat 1%nat demo.constructed
                {| gr_name := "T62"; gr_scrip_grid_file := "grids/T62.nc";
                   gr_ds := {| ds_grid_dims := Some [2; 2];
                               ds_grid_imask := Some [0; 1; 1; 0] |};
                   gr_grid := {| eg_scrip := "220110"; eg_mask := Some [0; 1; 1; 0] |};
                   gr_shape := [2; 2] |}
                {| gr_name := "gx1"; gr_scrip_grid_file := "grids/gx1.nc";
                   gr_ds := {| ds_grid_dims := Some [2; 2];
                               ds_grid_imask := Some [1; 1; 1; 1] |};
                   gr_grid := {| eg_scrip := "221111"; eg_mask := Some [1; 1; 1; 1] |};
                   gr_shape := [2; 2] |}
                (LibraryError "ESMF" "regrid build")
                (delete "weights/T62_to_gx1_bilinear.nc" (st_fs demo.constructed))
                ltac:(vm_compute; eexists; reflexivity)
                ltac:(vm_compute; reflexivity) ltac:(vm_compute; reflexivity)
                ltac:(reflexivity)) as [Hrun Hgone].
  intros run. split_and!.
  - subst run. by rewrite Hrun.
  - vm_compute. reflexivity.
  - apply Hgone. reflexivity.
Defined.

(** ** class regridder: failures of the operation *)

Section faithful_operation.
Context (allowed : call → exn → Prop).

Lemma faithful_load_dataarray attr l :
  (∀ e, allowed (c_getattr "DataArray" attr) e) →
  faithful allowed (load_dataarray attr l).
Proof.
  intros H σ. unfold load_dataarray.
  repeat case_match; try (by apply faithful_throw).
  exists []. simpl. by rewrite app_nil_r.
Qed.

Lemma faithful_load_regridder attr l :
  (∀ e, allowed (c_getattr "regridder" attr) e) →
  faithful allowed (load_regridder attr l).
Proof.
  intros H σ. unfold load_regridder.
  repeat case_match; try (by apply faithful_throw).
  exists []. simpl. by rewrite app_nil_r.
Qed.

Lemma faithful_load_dict l :
  (∀ e, allowed (c_getattr "dict" "items") e) → faithful allowed (load_dict l).
Proof.
  intros H σ. unfold load_dict.
  repeat case_match; try (by apply faithful_throw).
  exists []. simpl. by rewrite app_nil_r.
Qed.

Lemma faithful_store l o : faithful allowed (store l o).
Proof. intros σ. exists []. simpl. by rewrite app_nil_r. Qed.

Lemma faithful_heap_call {A} c (f : list Obj → Res A * list Obj) :
  (∀ e, allowed c e) → faithful allowed (heap_call c f).
Proof.
  intros H σ. unfold heap_call. destruct (f (st_heap σ)) as [r h'].
  by apply (propagated_one allowed c).
Qed.
End faithful_operation.

#[global] Hint Resolve faithful_load_dataarray faithful_load_regridder
  faithful_load_dict faithful_store faithful_heap_call : faithful.
#[global] Hint Extern 1 (foreign _ _) => unfold foreign; discriminate : faithful.
#[global] Hint Extern 1 (∀ _, foreign _ _) =>
  intros ?; unfold foreign; discriminate : faithful.

Ltac faithful_walk := repeat first [faithful_step | progress cbv zeta].

Lemma remap_faithful ext self da_in renormalize :
  faithful foreign (regridder.remap ext self da_in renormalize).
Proof.
  unfold regridder.remap, regridder.apply_weights_to, np_divide,
    np_where_positive, elementwise, xr_DataArray.
  faithful_walk.
Qed.

Lemma interp_loop_faithful ext items da_out :
  faithful foreign (regridder.interp_loop ext items da_out).
Proof.
  revert da_out. induction items as [|[dim new_coord] items IH]; intros da_out;
    simpl; [apply faithful_ret|].
  apply faithful_bind; [|done].
  unfold regridder.interp_step, by_value, new_dataarray. faithful_walk.
Qed.

Lemma mask_step_faithful ext da_in da_out apply_mask :
  faithful foreign (regridder.mask_step ext da_in da_out apply_mask).
Proof.
  unfold regridder.mask_step, by_value, new_dataarray, logging_warning.
  faithful_walk.
Qed.

(** X14. The operation passes failures on as they are: when [regrid_dataarray]
    or the call operator raises, the exception is the one that the last
    call of the run raised (a library call, an attribute or index access, or
    the caller's [post_method]), every call before it succeeded and nothing
    is called after it; a run that returns has seen no call fail.  The
    operation has no assertion of its own. *)
Theorem regridding_failures_propagate ext self da_in :
  (∀ renormalize apply_mask interp_coord post_method post_method_kwargs,
     faithful foreign
       (regridder.regrid_dataarray ext self da_in renormalize apply_mask
          interp_coord post_method post_method_kwargs)) ∧
  (∀ args, faithful foreign (regridder.__call__ ext self da_in args)).
Proof.
  assert (∀ renormalize apply_mask interp_coord post_method post_method_kwargs,
     faithful foreign
       (regridder.regrid_dataarray ext self da_in renormalize apply_mask
          interp_coord post_method post_method_kwargs)) as H.
  { intros. unfold regridder.regrid_dataarray.
    apply faithful_bind; [apply remap_faithful | intros l1].
    apply faithful_bind; [apply interp_loop_faithful | intros l2].
    apply faithful_bind; [apply mask_step_faithful | intros l3].
    unfold regridder.post_step. faithful_walk. }
  split; [exact H|]. intros args. apply H.
Qed.

(** ** class regridder: the mask *)

Lemma filter_none {A} (f : A → bool) (l : list A) :
  Forall (λ x, f x = false) l → List.filter f l = [].
Proof. induction 1 as [|x l Hx _ IH]; simpl; [done | by rewrite Hx]. Qed.

(** X15. The masking step warns exactly when the names of the mask's dimensions
    differ from those of the input array: the one warning of the step is
    then the first thing it does, and with equal names it logs none,
    whatever the shapes of the two arrays and however the masking ends. *)
Theorem mask_warns_iff_dims_differ ext da_in da_out mask σ din m :
  st_heap σ !! da_in = Some (ODataArray din) →
  st_heap σ !! mask = Some (ODataArray m) →
  let evs := new_events σ (regridder.mask_step ext da_in da_out (Some mask) σ).2 in
  List.filter is_warning evs
  = (if decide (da_dims m = da_dims din) then []
     else [Ev (c_logging_warning (masking (da_dims m) (da_dims din))) None]) ∧
  (da_dims m ≠ da_dims din →
   head evs = Some (Ev (c_logging_warning (masking (da_dims m) (da_dims din))) None)).
Proof.
  intros Hin Hm evs. subst evs. unfold regridder.mask_step.
  rewrite (bind_ok _ _ _ _ _ (load_dataarray_ok "dims" _ _ _ Hm)).
  rewrite (bind_ok _ _ _ _ _ (load_dataarray_ok "dims" _ _ _ Hin)).
  assert (stays (logs (λ ev, is_warning ev = false))
            (by_value "where" da_out ≫= λ v,
             by_value "where" mask ≫= λ mv,
             pure_call c_where (xr_where ext v mv) ≫= λ r,
             new_dataarray r)) as Hrest.
  { unfold by_value, new_dataarray. stays_tac. }
  rewrite bind_run. destruct (decide (da_dims m = da_dims din)) as [Heq|Hne].
  - rewrite bool_decide_eq_false_2 by (by intros ?). simpl.
    destruct (Hrest σ) as (rest & Hlog & Hnone).
    rewrite (new_events_app _ _ _ Hlog). split; [by apply filter_none | done].
  - rewrite bool_decide_eq_true_2 by done.
    unfold logging_warning, pure_call at 1. simpl.
    destruct (Hrest (record_event
                (Ev (c_logging_warning (masking (da_dims m) (da_dims din))) None) σ))
      as (rest & Hlog & Hnone).
    simpl in Hlog. rewrite app_snoc_cons in Hlog.
    rewrite (new_events_app _ _ _ Hlog). simpl.
    split; [by rewrite (filter_none _ _ Hnone) | done].
Qed.

Lemma mask_warns_iff_dims_differ_witness :
  List.filter is_warning
    (new_events demo.ready
       (regridder.mask_step demo.ext 4%nat 4%nat (Some 6%nat) demo.ready).2)
  = [Ev (c_logging_warning (masking ["t"; "y"; "x"] ["time"; "lat"; "lon"])) None] ∧
  List.filter is_warning
    (new_events demo.ready
       (regridder.mask_step demo.ext 4%nat 4%nat (Some 4%nat) demo.ready).2)
  = [].
Proof.
  split.
  - apply (mask_warns_iff_dims_differ demo.ext 4%nat 4%nat 6%nat demo.ready
             demo.sst demo.land); vm_compute; reflexivity.
  - apply (mask_warns_iff_dims_differ demo.ext 4%nat 4%nat 4%nat demo.ready
             demo.sst demo.sst); vm_compute; reflexivity.
Defined.

(** ** class regridder: when the operation returns *)



(** ** class regridder: a coordinate that is there *)

(** X17. An entry of [interp_coord] whose dimension the output array has: the
    array is sliced at the first and at the last index along the dimension,
    then interpolated onto the new coordinate with these two slices as fill
    values, in this order and all on the array as it is when the entry's
    turn comes; what [interp] returns becomes a new object, the array it
    was taken from stays as it is, and the entries that follow work on the
    new one. *)
Theorem interpolated_coordinate ext da_out dim new_coord σ out items
    lowest highest r :
  st_heap σ !! da_out = Some (ODataArray out) →
  st_heap σ !! da_attrs out = Some (ODict items) →
  dim ∈ da_dims out →
  let v := {| da_name := da_name out; da_dims := da_dims out;
              da_values := da_values out; da_attrs := items;
              da_coords := da_coords out |} in
  xr_isel ext v dim 0 = Ok lowest →
  xr_isel ext v dim (-1) = Ok highest →
  xr_interp ext v dim new_coord (lowest, highest) = Ok r →
  let σ' := {| st_fs := st_fs σ;
               st_heap := st_heap σ ++
                 [ODict (da_attrs r);
                  ODataArray {| da_name := da_name r; da_dims := da_dims r;
                                da_values := da_values r;
                                da_attrs := length (st_heap σ);
                                da_coords := da_coords r |}];
               st_log := st_log σ ++
                 [Ev (c_isel dim 0) None; Ev (c_isel dim (-1)) None;
                  Ev (c_interp dim) None] |} in
  regridder.interp_step ext da_out (dim, new_coord) σ
  = (Ok (S (length (st_heap σ))), σ') ∧
  st_heap σ' !! da_out = Some (ODataArray out) ∧
  ∀ rest,
    regridder.interp_loop ext ((dim, new_coord) :: rest) da_out σ
    = regridder.interp_loop ext rest (S (length (st_heap σ))) σ'.
Proof.
  intros Hout Hitems Hdim v Hlo Hhi Hr σ'.
  assert (regridder.interp_step ext da_out (dim, new_coord) σ
          = (Ok (S (length (st_heap σ))), σ')) as Hstep.
  { unfold regridder.interp_step.
    rewrite (bind_ok _ _ _ _ _ (load_dataarray_ok "dims" _ _ _ Hout)).
    rewrite bool_decide_eq_true_2 by done.
    assert (by_value "isel" da_out σ = (Ok v, σ)) as Hv.
    { unfold by_value.
      rewrite (bind_ok _ _ _ _ _ (load_dataarray_ok "isel" _ _ _ Hout)).
      by rewrite (bind_ok _ _ _ _ _ (load_dict_ok _ _ _ Hitems)). }
    rewrite (bind_ok _ _ _ _ _ Hv).
    unfold new_dataarray. run_unfold. cbn. rewrite Hlo. cbn. rewrite Hhi. cbn.
    rewrite Hr. cbn. subst σ'. rewrite length_app. cbn.
    rewrite <- !app_assoc. cbn. do 3 f_equal. lia. }
  split; [exact Hstep|]. split.
  - subst σ'. cbn. by apply lookup_app_l_Some.
  - intros rest. cbn [regridder.interp_loop]. by rewrite (bind_ok _ _ _ _ _ Hstep).
Qed.

Lemma interpolated_coordinate_witness :
  let run := regridder.interp_step levels.ext 4%nat ("time", [0; 1]%float)
               demo.ready in
  run.1 = Ok 8%nat ∧
  da_values <$> returned_array run
  = Some {| nd_shape := [2; 2; 2]%nat;
            nd_data := [nan; nan; 3; 4; nan; nan; 3; 4]%float |} ∧
  new_events demo.ready run.2
  = [Ev (c_isel "time" 0) None; Ev (c_isel "time" (-1)) None;
     Ev (c_interp "time") None].
Proof.
  intros run. subst run.
  erewrite (proj1 (interpolated_coordinate levels.ext 4%nat "time" [0; 1]%float
                     demo.ready demo.sst {[ "units" := VStr "degC" ]} _ _ _
                     ltac:(vm_compute; reflexivity) ltac:(vm_compute; reflexivity)
                     ltac:(apply (bool_decide_unpack _); vm_compute; exact I)
                     ltac:(vm_compute; reflexivity) ltac:(vm_compute; reflexivity)
                     ltac:(vm_compute; reflexivity))).
  vm_compute. done.
Defined.
